(** * TransactionCore: a shallow embedding of [python/transactioncore.py]

    The transaction engine of the 0xBuilder agent is embedded as Rocq
    functions in a state-and-exception monad.  The embedding follows the
    control flow of the Python source function by function and keeps its
    names.

    Modelling conventions.
    - A Python [dict] with string keys is a [gmap string _]; [d.get(k, v)]
      is [default v (d !! k)], [k in d] is [is_Some (d !! k)].
    - Values stored in transaction dicts range over [pyval].  A Python
      float is the dyadic rational [m * 2^e] ([PFloat m e]); NaN and the
      infinities are not represented.  Float arithmetic inside the scoring
      functions is carried out on rationals ([Q]) without rounding; float
      comparisons are exact.
    - [decimal.Decimal] is modelled exactly, with the default context
      (28 significant digits, round-half-even).
    - Every call to an external collaborator (chain client, relays, nonce
      service, price and market services) is an oracle indexed by a logical
      clock, so that two calls with the same arguments may answer
      differently.  Each call is appended to a trace.
    - [asyncio.gather] runs its awaitables in argument order; the
      interleaving of coroutines is not modelled.
    - Exceptions are the subclasses of [Exception]; logging is omitted
      except where formatting a log message can itself raise. *)

From Stdlib Require Import ZArith QArith Qround Qpower Lqa List String Bool Lia Permutation.
From stdpp Require Import gmap strings list.

#[local] Set Warnings "-register-all".
#[local] Open Scope Z_scope.

(** ** Python values and exceptions *)

Module Py.

Inductive exn :=
| ContractLogicError
| TransactionNotFound
| ClientResponseError
| ClientError            (* other aiohttp errors, time-outs *)
| ValueError
| TypeError
| KeyError
| AttributeError
| IndexError
| ZeroDivisionError
| InvalidOperation      (* decimal *)
| RuntimeError.

Inductive res (A : Type) :=
| Ret (a : A)
| Raise (e : exn).
Arguments Ret {A} a.
Arguments Raise {A} e.

Inductive pyval :=
| PNone
| PBool (b : bool)
| PInt (z : Z)
| PFloat (m e : Z)
| PStr (s : string)
| PList (l : list pyval).

(** [bool(v)] *)
Definition truthy (v : pyval) : bool :=
  match v with
  | PNone => false
  | PBool b => b
  | PInt z => negb (z =? 0)
  | PFloat m _ => negb (m =? 0)
  | PStr s => negb (String.eqb s "")
  | PList l => match l with [] => false | _ => true end
  end.

Definition Qltb (x y : Q) : bool := negb (Qle_bool y x).

(** The rational denoted by the float [m * 2^e]. *)
Definition float_val (m e : Z) : Q :=
  if 0 <=? e then inject_Z (m * 2 ^ e) else (m # Pos.pow 2 (Z.to_pos (- e))).

(** [float(v)]; [parse] stands for the runtime's parser of numerals. *)
Definition py_float (parse : string -> option Q) (v : pyval) : res Q :=
  match v with
  | PNone => Raise TypeError
  | PBool b => Ret (if b then 1%Q else 0%Q)
  | PInt z => Ret (inject_Z z)
  | PFloat m e => Ret (float_val m e)
  | PStr s => match parse s with Some q => Ret q | None => Raise ValueError end
  | PList _ => Raise TypeError
  end.

Definition raises {A} (r : res A) : Prop := exists e, r = Raise e.

(** [v[a:b]] on a string, for [0 <= a <= b]. *)
Definition str_slice (a b : nat) (s : string) : string :=
  String.substring a (Nat.min (b - a) (String.length s - a)) s.

End Py.
Export Py.

(** ** [decimal.Decimal] under the default context *)

Module Decimal.

(** sign, coefficient and exponent: [(-1)^sign * coef * 10^exp]. *)
Record decimal := mkDec { dsign : bool; dcoef : Z; dexp : Z }.

Definition prec : Z := 28.

Fixpoint ndigits_aux (fuel : nat) (n : Z) : Z :=
  match fuel with
  | O => 1
  | S f => if n <? 10 then 1 else 1 + ndigits_aux f (n / 10)
  end.

(** Number of decimal digits of a non-negative coefficient. *)
Definition ndigits (n : Z) : Z := ndigits_aux (Z.to_nat (Z.log2 n)) n.

(** Drop the last [sh] digits of [c], rounding half to even. *)
Definition round_half_even (c sh : Z) : Z :=
  let p := 10 ^ sh in
  let q := c / p in
  let r := c mod p in
  if 2 * r <? p then q
  else if p <? 2 * r then q + 1
  else if Z.even q then q else q + 1.

(** Rounding of an exact result to the context precision. *)
Definition fix_prec (d : decimal) : decimal :=
  let n := ndigits (dcoef d) in
  if n <=? prec then d
  else
    let sh := n - prec in
    let c := round_half_even (dcoef d) sh in
    if c =? 10 ^ prec
    then mkDec (dsign d) (10 ^ (prec - 1)) (dexp d + sh + 1)
    else mkDec (dsign d) c (dexp d + sh).

(** [a * b] *)
Definition mul (a b : decimal) : decimal :=
  fix_prec (mkDec (xorb (dsign a) (dsign b)) (dcoef a * dcoef b) (dexp a + dexp b)).

(** [Decimal(z)] for an int: exact. *)
Definition of_int (z : Z) : decimal := mkDec (z <? 0) (Z.abs z) 0.

(** [Decimal(x)] for the float [m * 2^e]: exact. *)
Definition of_float (m e : Z) : decimal :=
  if 0 <=? e then mkDec (m <? 0) (Z.abs m * 2 ^ e) 0
  else mkDec (m <? 0) (Z.abs m * 5 ^ (- e)) e.

(** [int(d)]: truncation towards zero. *)
Definition to_int (d : decimal) : Z :=
  let a := if 0 <=? dexp d then dcoef d * 10 ^ dexp d
           else dcoef d / 10 ^ (- dexp d) in
  if dsign d then - a else a.

(** The rational a decimal denotes. *)
Definition Dval (d : decimal) : Q :=
  let a := if 0 <=? dexp d then inject_Z (dcoef d * 10 ^ dexp d)
           else (dcoef d # Z.to_pos (10 ^ (- dexp d))) in
  if dsign d then Qopp a else a.

(** [Decimal(v)]; [parse] stands for the constructor's string parser. *)
Definition py_Decimal (parse : string -> option decimal) (v : pyval) : res decimal :=
  match v with
  | PNone => Raise TypeError
  | PBool b => Ret (of_int (if b then 1 else 0))
  | PInt z => Ret (of_int z)
  | PFloat m e => Ret (of_float m e)
  | PStr s => match parse s with Some d => Ret d | None => Raise InvalidOperation end
  | PList _ => Raise ValueError
  end.

(** [Decimal("1e18")] *)
Definition d1e18 : decimal := mkDec false 1 18.

End Decimal.
Export Decimal.

(** ** State, trace and the effect monad *)

Abbreviation Dict := (gmap string pyval).

(** A contract function bound to its arguments,
    [contract.functions.name] applied to positional and keyword arguments. *)
Record FunctionCall := mkCall {
  fc_contract : string;
  fc_name : string;
  fc_args : list pyval;
  fc_kwargs : Dict
}.

Record MevBuilder := { name : string; url : string; auth_header : string }.

(** The calls that leave the engine, plus the entry into [send_bundle].  A
    POST to a relay is logged with the time at which it was made and with
    the payload it carried. *)
Inductive event :=
| EvSignTransaction (tx : Dict)
| EvSendRawTransaction (signed : string)
| EvEthCall (tx : Dict)
| EvEstimateGas (tx : Dict)
| EvChainId
| EvGetBlock
| EvBlockNumber
| EvMaxPriorityFee
| EvGetNonce
| EvRefreshNonce
| EvDynamicGasPrice
| EvBuildTransaction (fc : FunctionCall)
| EvPost (builder : MevBuilder) (attempt : Z) (time : nat)
         (txs : list string) (block_number : Z)
| EvSleep (delay : Q)
| EvSendBundle (txs : list Dict)
| EvGetTokenSymbol (token : pyval)
| EvRealTimePrice (symbol : string)
| EvTokenPriceData (symbol : string)
| EvTokenVolume (symbol : string)
| EvPriceChange24h (symbol : string)
| EvCheckMarketConditions (address : pyval)
| EvPredictPriceMovement (symbol : string)
| EvIsArbitrageOpportunity (tx : Dict).

(** [heap] holds the dict objects that are shared by reference (the
    decoded parameters of a call); [now] is the logical clock. *)
Record State := mkState {
  heap : gmap nat Dict;
  trace : list event;
  now : nat
}.

Module Eff.

Definition M (A : Type) : Type := State -> res A * State.

Definition ret {A} (a : A) : M A := fun s => (Ret a, s).

Definition raise {A} (e : exn) : M A := fun s => (Raise e, s).

Definition bind {A B} (m : M A) (k : A -> M B) : M B :=
  fun s => match m s with
           | (Ret a, s') => k a s'
           | (Raise e, s') => (Raise e, s')
           end.

(** [try: m  except Exception as e: h e] *)
Definition try_except {A} (m : M A) (h : exn -> M A) : M A :=
  fun s => match m s with
           | (Ret a, s') => (Ret a, s')
           | (Raise e, s') => h e s'
           end.

Definition lift {A} (r : res A) : M A := fun s => (r, s).

Definition emit (ev : event) : M unit :=
  fun s => (Ret tt, mkState (heap s) (trace s ++ [ev]) (now s)).

(** A call to an external collaborator: the oracle is asked at the
    current time, the call is logged and the clock advances. *)
Definition call {A} (ev : event) (oracle : nat -> res A) : M A :=
  fun s => (oracle (now s), mkState (heap s) (trace s ++ [ev]) (S (now s))).

(** The same, for a call whose log entry records the time of the call. *)
Definition call_at {A} (ev : nat -> event) (oracle : nat -> res A) : M A :=
  fun s => (oracle (now s),
            mkState (heap s) (trace s ++ [ev (now s)]) (S (now s))).

(** An awaitable run under [gather(..., return_exceptions=True)]. *)
Definition settle {A} (m : M A) : M (res A) :=
  fun s => let '(r, s') := m s in (Ret r, s').

Fixpoint gather {A} (ms : list (M A)) : M (list (res A)) :=
  match ms with
  | [] => ret []
  | m :: rest =>
      bind (settle m) (fun r => bind (gather rest) (fun rs => ret (r :: rs)))
  end.

(** Allocation of a fresh dict object, reading and item assignment. *)
Definition alloc (d : Dict) : M nat :=
  fun s => let l := fresh (dom (heap s)) in
           (Ret l, mkState (<[l := d]> (heap s)) (trace s) (now s)).

Definition deref (l : nat) : M Dict :=
  fun s => (Ret (default ∅ (heap s !! l)), s).

Definition setitem (l : nat) (k : string) (v : pyval) : M unit :=
  fun s => (Ret tt,
            mkState (<[l := <[k := v]> (default ∅ (heap s !! l))]> (heap s))
                    (trace s) (now s)).

End Eff.
Export Eff.

Notation "'let*' x ':=' m 'in' k" :=
  (bind m (fun x => k))
  (at level 10, x pattern, m at level 100, k at level 200).

(** ** Collaborators *)

(** A number as the safety gate may hand it back: int, float or Decimal. *)
Inductive pynum :=
| NInt (z : Z)
| NFloat (q : Q)
| NDec (d : decimal).

Record Block := { baseFeePerGas : option Z }.

(** The chain client.  Oracles taking a [nat] are remote calls. *)
Record Web3 := {
  to_checksum_address : pyval -> res string;
  to_wei_gwei : Q -> res Z;
  eth_chain_id : nat -> res Z;
  eth_get_block_latest : nat -> res Block;
  eth_block_number : nat -> res Z;
  eth_max_priority_fee : nat -> res Z;
  eth_estimate_gas : nat -> Dict -> res Z;
  eth_call_pending : nat -> Dict -> res unit;
  eth_send_raw_transaction : nat -> string -> res string;
  eth_account_sign_transaction : nat -> Dict -> res string;
  (** [function_call.buildTransaction(tx_params)] *)
  buildTransaction : nat -> FunctionCall -> Dict -> res Dict;
  (** argument check done when the contract function is applied to its
      keyword arguments *)
  check_call_args : string -> string -> list pyval -> Dict -> option exn;
  (** [eth.contract(address, abi).decode_function_input(input)] *)
  decode_function_input : string -> string -> pyval -> res Dict
}.

Record Configuration := {
  MEMPOOL_MAX_RETRIES : Z;
  MEMPOOL_RETRY_DELAY : Q;
  MAX_GAS_PRICE_GWEI : Q;
  MEV_BUILDERS : list MevBuilder;
  (** [str(FLASHLOAN_BACK_RUN_PROFIT_PERCENTAGE)] read as a Decimal *)
  FLASHLOAN_BACK_RUN_PROFIT_PERCENTAGE : decimal;
  UNISWAP_ADDRESS : string;
  SUSHISWAP_ADDRESS : string;
  AGGRESSIVE_FRONT_RUN_MIN_VALUE_ETH : Q;
  AGGRESSIVE_FRONT_RUN_RISK_SCORE_THRESHOLD : Q;
  FRONT_RUN_OPPORTUNITY_SCORE_THRESHOLD : Q;
  VOLATILITY_FRONT_RUN_SCORE_THRESHOLD : Q;
  PRICE_BOOST_SANDWICH_MOMENTUM_THRESHOLD : Q;
  PRICE_DIP_BACK_RUN_THRESHOLD : Q
}.

Record NonceCore := {
  get_nonce : nat -> res Z;
  refresh_nonce : nat -> res unit
}.

Record SafetyNet := {
  get_dynamic_gas_price : nat -> res pynum
}.

Record APIConfig := {
  get_token_symbol : nat -> pyval -> res (option string);
  get_real_time_price : nat -> string -> res (option Q);
  get_token_price_data : nat -> string -> res (option (list Q));
  get_price_change_24h : nat -> string -> res Q;
  get_token_volume : nat -> string -> res (option Q)
}.

Record MarketMonitor := {
  check_market_conditions : nat -> pyval -> res (option (gmap string bool));
  predict_price_movement : nat -> string -> res (option Q);
  _is_arbitrage_opportunity : nat -> Dict -> res bool
}.

Record ABIRegistry := {
  get_method_selector : string -> option string;
  abis : list string
}.

(** A relay's answer to one POST: the transport may fail, the HTTP status
    may be an error, and the JSON body may carry an ["error"] member. *)
Record Relays := {
  post : nat -> MevBuilder -> list string -> Z -> res Dict
}.

(** A router contract handle: the function names of its ABI. *)
Record Contract := { address : string; functions : list string }.

(** The instance, [self]. *)
Record TransactionCore := {
  web3 : Web3;
  account_address : string;
  configuration : Configuration;
  apiconfig : APIConfig;
  marketmonitor : MarketMonitor;
  noncecore : NonceCore;
  safetynet : SafetyNet;
  abiregistry : ABIRegistry;
  relays : Relays;
  gas_price_multiplier : Q;
  aave_flashloan : Contract;
  uniswap_router_contract : option Contract;
  sushiswap_router_contract : option Contract;
  parse_float : string -> option Q;
  parse_decimal : string -> option decimal;
  (** the floating-point square root behind [np.std] *)
  np_sqrt : Q -> Q
}.

(** The result of [decode_transaction_input]; a field is [None] when the
    key is absent.  [params] points at the decoded-parameters dict. *)
Record DecodedTx := {
  function_name : option string;
  params : option nat;
  signature : string;
  abi_type : string
}.

(** What a caller may pass where a transaction dict is expected. *)
Inductive pyobj :=
| ODict (d : Dict)
| OOther (v : pyval).

(** A numpy float: finite, infinite or NaN. *)
Inductive npfloat :=
| NpFin (q : Q)
| NpInf
| NpNegInf
| NpNan.

Definition np_div (a b : Q) : npfloat :=
  if Qeq_bool b 0 then
    if Qeq_bool a 0 then NpNan else if Qltb 0 a then NpInf else NpNegInf
  else NpFin (a / b).

Definition np_gt (x : npfloat) (t : Q) : bool :=
  match x with
  | NpFin q => Qltb t q
  | NpInf => true
  | NpNegInf | NpNan => false
  end.

Definition np_lt (x : npfloat) (t : Q) : bool :=
  match x with
  | NpFin q => Qltb q t
  | NpNegInf => true
  | NpInf | NpNan => false
  end.

Definition Qsum (l : list Q) : Q := fold_right Qplus 0%Q l.

Definition Qlen (l : list Q) : Q := inject_Z (Z.of_nat (length l)).

Definition Qmax_list (l : list Q) : Q :=
  match l with
  | [] => 0%Q
  | x :: r => fold_left (fun a b => if Qltb a b then b else a) r x
  end.

Definition Qmin_list (l : list Q) : Q :=
  match l with
  | [] => 0%Q
  | x :: r => fold_left (fun a b => if Qltb b a then b else a) r x
  end.

(** [bool(d)] for an optional dict: [None] and the empty dict are falsy. *)
Definition tx_truthy (o : option Dict) : bool :=
  match o with
  | Some d => negb (Nat.eqb (size d) 0)
  | None => false
  end.

(** [x.get(k, dflt)] on a market-conditions dict. *)
Definition flag (market_conditions : gmap string bool) (k : string) (dflt : bool) : bool :=
  default dflt (market_conditions !! k).

Definition DEFAULT_GAS_LIMIT : Z := 100000.
Definition DEFAULT_GAS_PRICE_GWEI : Z := 50.

(** ** The engine *)

Section Engine.

Context (self : TransactionCore).

(** [handle_error] only logs. *)
Definition handle_error (e : exn) (function_name : string) : M unit := ret tt.

Definition sign_transaction (transaction : Dict) : M string :=
  try_except
    (let* signed_tx :=
       call (EvSignTransaction transaction)
            (fun t => eth_account_sign_transaction (web3 self) t transaction) in
     (* the log line reads transaction['nonce'] *)
     match transaction !! "nonce" with
     | None => raise KeyError
     | Some _ => ret signed_tx
     end)
    (fun e => let* _ := handle_error e "sign_transaction" in raise e).

Definition call_contract_function (signed_tx : string) : M string :=
  try_except
    (call (EvSendRawTransaction signed_tx)
          (fun t => eth_send_raw_transaction (web3 self) t signed_tx))
    (fun e => let* _ := handle_error e "call_contract_function" in raise e).

(** One pass through the [try] block of [execute_transaction]:
    [Some hash] on success, [None] once a handler has run. *)
Definition execute_attempt (tx : Dict) (attempt : Z) : M (option string) :=
  try_except
    (let* signed_tx := sign_transaction tx in
     let* tx_hash := call_contract_function signed_tx in
     ret (Some tx_hash))
    (fun e =>
       match e with
       | TransactionNotFound | ContractLogicError =>
           let* _ := handle_error e "execute_transaction" in
           ret None
       | _ =>
           let* _ := handle_error e "execute_transaction" in
           let* _ := emit (EvSleep
                       (MEMPOOL_RETRY_DELAY (configuration self) * inject_Z (attempt + 1))) in
           ret None
       end).

(** The body of [for attempt in range(1, max_retries + 1)], with
    [remaining] iterations left. *)
Fixpoint execute_loop (tx : Dict) (remaining : nat) (attempt : Z) : M (option string) :=
  match remaining with
  | O => ret None
  | S k =>
      let* sent := execute_attempt tx attempt in
      match sent with
      | Some h => ret (Some h)
      | None =>
          let* gas_price_gwei :=
            lift (py_Decimal (parse_decimal self)
                    (default (PInt DEFAULT_GAS_PRICE_GWEI) (tx !! "gasPrice"))) in
          if Qltb (MAX_GAS_PRICE_GWEI (configuration self)) (Dval gas_price_gwei)
          then ret None
          else execute_loop tx k (attempt + 1)
      end
  end.

Definition execute_transaction (tx : Dict) : M (option string) :=
  execute_loop tx (Z.to_nat (MEMPOOL_MAX_RETRIES (configuration self))) 1.

(** *** Flashloan amount *)

(** [v > 0] *)
Definition py_gt0 (v : pyval) : res bool :=
  match v with
  | PBool b => Ret b
  | PInt z => Ret (0 <? z)
  | PFloat m _ => Ret (0 <? m)
  | PNone | PStr _ | PList _ => Raise TypeError
  end.

Definition calculate_flashloan_amount (target_tx : Dict) : res Z :=
  let estimated_profit := default (PInt 0) (target_tx !! "profit") in
  match py_gt0 estimated_profit with
  | Raise e => Raise e
  | Ret true =>
      let flashloan_percentage :=
        FLASHLOAN_BACK_RUN_PROFIT_PERCENTAGE (configuration self) in
      match py_Decimal (parse_decimal self) estimated_profit with
      | Raise e => Raise e
      | Ret p =>
          Ret (to_int (Decimal.mul (Decimal.mul p flashloan_percentage) d1e18))
      end
  | Ret false => Ret 0
  end.

(** *** Simulation *)

Definition simulate_transaction (transaction : Dict) : M bool :=
  try_except
    (let* _ := call (EvEthCall transaction)
                    (fun t => eth_call_pending (web3 self) t transaction) in
     ret true)
    (fun e =>
       match e with
       | ContractLogicError =>
           let* _ := handle_error e "simulate_transaction" in ret false
       | _ =>
           let* _ := handle_error e "simulate_transaction" in ret false
       end).

(** *** Gas model and transaction builder *)

(** [x * f] for a float [f]: a Decimal operand is a [TypeError]. *)
Definition py_mul_float (x : pynum) (f : Q) : res Q :=
  match x with
  | NInt z => Ret (inject_Z z * f)%Q
  | NFloat q => Ret (q * f)%Q
  | NDec _ => Raise TypeError
  end.

Definition _get_dynamic_gas_parameters : M Dict :=
  let* gas_price_gwei :=
    try_except
      (call EvDynamicGasPrice (get_dynamic_gas_price (safetynet self)))
      (fun e =>
         let* _ := handle_error e "_get_dynamic_gas_parameters" in
         ret (NDec (of_int DEFAULT_GAS_PRICE_GWEI))) in
  let* scaled := lift (py_mul_float gas_price_gwei (gas_price_multiplier self)) in
  let* gas_price := lift (to_wei_gwei (web3 self) scaled) in
  ret ({[ "gasPrice" := PInt gas_price ]} : Dict).

Definition estimate_gas_smart (tx : Dict) : M Z :=
  try_except
    (call (EvEstimateGas tx) (fun t => eth_estimate_gas (web3 self) t tx))
    (fun e =>
       match e with
       | ContractLogicError | TransactionNotFound =>
           let* _ := handle_error e "estimate_gas_smart" in ret DEFAULT_GAS_LIMIT
       | _ =>
           let* _ := handle_error e "estimate_gas_smart" in ret DEFAULT_GAS_LIMIT
       end).

(** [int(x * 1.1)] *)
Definition pad_gas (estimated_gas : Z) : Z :=
  Qfloor (inject_Z estimated_gas * (11 # 10)).

Definition build_transaction (function_call : FunctionCall)
    (additional_params : Dict) : M Dict :=
  try_except
    (let* chain_id := call EvChainId (eth_chain_id (web3 self)) in
     let* latest_block := call EvGetBlock (eth_get_block_latest (web3 self)) in
     let* nonce := call EvGetNonce (get_nonce (noncecore self)) in
     let tx_params : Dict :=
       <["from" := PStr (account_address self)]>
         (<["nonce" := PInt nonce]> {[ "chainId" := PInt chain_id ]}) in
     let* tx_params :=
       match baseFeePerGas latest_block with
       | Some base_fee =>
           let* priority_fee :=
             call EvMaxPriorityFee (eth_max_priority_fee (web3 self)) in
           ret (<["maxPriorityFeePerGas" := PInt priority_fee]>
                  (<["maxFeePerGas" := PInt (base_fee * 2)]> tx_params))
       | None =>
           let* gas_params := _get_dynamic_gas_parameters in
           ret (gas_params ∪ tx_params)
       end in
     let* tx_details :=
       call (EvBuildTransaction function_call)
            (fun t => buildTransaction (web3 self) t function_call tx_params) in
     let tx_details := additional_params ∪ tx_details in
     let* estimated_gas := estimate_gas_smart tx_details in
     ret (<["gas" := PInt (pad_gas estimated_gas)]> tx_details))
    (fun e => let* _ := handle_error e "build_transaction" in raise e).

(** What [build_transaction] hands back was produced by [buildTransaction]
    from the very function call it was given. *)
Definition built_from (fc : FunctionCall) (tx : Dict) : Prop :=
  exists t tx_params built gas,
    buildTransaction (web3 self) t fc tx_params = Ret built
    /\ tx = <["gas" := PInt gas]> (∅ ∪ built).

(** [getattr(contract.functions, fname)] applied to its arguments. *)
Definition contract_call (c : Contract) (fname : string)
    (args : list pyval) (kwargs : Dict) : res FunctionCall :=
  if bool_decide (fname ∈ functions c) then
    match check_call_args (web3 self) (address c) fname args kwargs with
    | Some e => Raise e
    | None => Ret (mkCall (address c) fname args kwargs)
    end
  else Raise AttributeError.

Definition prepare_flashloan_transaction (flashloan_asset : string)
    (flashloan_amount : Z) : M (option Dict) :=
  if flashloan_amount <=? 0 then ret None
  else
    try_except
      (let* function_call :=
         lift (contract_call (aave_flashloan self) "fn_RequestFlashLoan"
                 [PStr flashloan_asset; PInt flashloan_amount] ∅) in
       let* tx := build_transaction function_call ∅ in
       ret (Some tx))
      (fun e =>
         match e with
         | ContractLogicError =>
             let* _ := handle_error e "prepare_flashloan_transaction" in ret None
         | _ =>
             let* _ := handle_error e "prepare_flashloan_transaction" in ret None
         end).

Definition _prepare_flashloan (asset : pyval) (target_tx : Dict) : M (option Dict) :=
  let* flashloan_amount := lift (calculate_flashloan_amount target_tx) in
  if flashloan_amount <=? 0 then ret None
  else
    let* checksum := lift (to_checksum_address (web3 self) asset) in
    prepare_flashloan_transaction checksum flashloan_amount.

(** *** Bundle submitter *)

Inductive post_outcome := Accepted | Aborted | Retry.

(** The body of [for attempt in range(1, max_retries + 1)] for one
    builder; the result tells whether the builder joined [successes]. *)
Fixpoint post_loop (builder : MevBuilder) (txs : list string) (block_number : Z)
    (remaining : nat) (attempt : Z) : M bool :=
  let max_retries := MEMPOOL_MAX_RETRIES (configuration self) in
  let retry_delay := MEMPOOL_RETRY_DELAY (configuration self) in
  match remaining with
  | O => ret false
  | S k =>
      let* outcome :=
        try_except
          (let* response_data :=
             call_at (fun t => EvPost builder attempt t txs block_number)
                     (fun t => post (relays self) t builder txs block_number) in
           if bool_decide (is_Some (response_data !! "error")) then
             let* _ := handle_error ValueError "send_bundle" in
             raise ValueError
           else ret Accepted)
          (fun e =>
             match e with
             | ClientResponseError =>
                 let* _ := handle_error e "send_bundle" in
                 let* _ := (if attempt <? max_retries
                            then emit (EvSleep (retry_delay * inject_Z attempt))
                            else ret tt) in
                 ret Retry
             | ValueError =>
                 let* _ := handle_error e "send_bundle" in
                 ret Aborted
             | _ =>
                 let* _ := handle_error e "send_bundle" in
                 let* _ := (if attempt <? max_retries
                            then emit (EvSleep (retry_delay * inject_Z attempt))
                            else ret tt) in
                 ret Retry
             end) in
      match outcome with
      | Accepted => ret true
      | Aborted => ret false
      | Retry => post_loop builder txs block_number k (attempt + 1)
      end
  end.

(** [for builder in mev_builders], accumulating [successes]. *)
Fixpoint builders_loop (mev_builders : list MevBuilder) (txs : list string)
    (block_number : Z) (successes : list string) : M (list string) :=
  match mev_builders with
  | [] => ret successes
  | builder :: rest =>
      let* ok := post_loop builder txs block_number
                   (Z.to_nat (MEMPOOL_MAX_RETRIES (configuration self))) 1 in
      builders_loop rest txs block_number
        (if ok then successes ++ [name builder] else successes)
  end.

(** [[await self.sign_transaction(tx) for tx in transactions]] *)
Fixpoint sign_all (transactions : list Dict) : M (list string) :=
  match transactions with
  | [] => ret []
  | tx :: rest =>
      let* signed_tx := sign_transaction tx in
      let* others := sign_all rest in
      ret (signed_tx :: others)
  end.

Definition send_bundle (transactions : list Dict) : M bool :=
  let* _ := emit (EvSendBundle transactions) in
  try_except
    (let* signed_txs := sign_all transactions in
     let* block_number := call EvBlockNumber (eth_block_number (web3 self)) in
     let* successes :=
       builders_loop (MEV_BUILDERS (configuration self)) signed_txs
                     (block_number + 1) [] in
     match successes with
     | _ :: _ =>
         let* _ := call EvRefreshNonce (refresh_nonce (noncecore self)) in
         ret true
     | [] => ret false
     end)
    (fun e => let* _ := handle_error e "send_bundle" in ret false).

(** A response that the engine counts as an acceptance: a JSON body
    without an ["error"] member. *)
Definition ok_response (r : res Dict) : Prop :=
  exists d, r = Ret d /\ d !! "error" = None.

(** Some POST logged in [evs] was answered with an acceptance. *)
Definition accepted_in (evs : list event) : Prop :=
  exists b a t txs bn,
    In (EvPost b a t txs bn) evs /\ ok_response (post (relays self) t b txs bn).

Definition simulation_failed (result : res bool) : bool :=
  match result with
  | Raise _ => true
  | Ret b => negb b
  end.

Definition _validate_and_send_bundle (transactions : list Dict) : M bool :=
  let* simulations := gather (map simulate_transaction transactions) in
  if existsb simulation_failed simulations then ret false
  else send_bundle transactions.

(** *** Calldata decoding and validation *)

(** [for abi_type, abi in self.abiregistry.abis.items()] *)
Fixpoint decode_loop (abi_types : list string) (method_name selector : string)
    (input_data : pyval) (contract_address : string) : M (option DecodedTx) :=
  match abi_types with
  | [] => ret None
  | abi_type :: rest =>
      let attempt :=
        match to_checksum_address (web3 self) (PStr contract_address) with
        | Raise e => Raise e
        | Ret a => decode_function_input (web3 self) abi_type a input_data
        end in
      match attempt with
      | Ret decoded_params =>
          let* l := alloc decoded_params in
          ret (Some {| function_name := Some method_name;
                       params := Some l;
                       signature := selector;
                       abi_type := abi_type |})
      | Raise _ => decode_loop rest method_name selector input_data contract_address
      end
  end.

Definition decode_transaction_input (input_data : pyval)
    (contract_address : string) : M (option DecodedTx) :=
  try_except
    (let* selector :=
       match input_data with
       | PStr s => ret (str_slice 2 10 s)
       | _ => raise TypeError
       end in
     match get_method_selector (abiregistry self) selector with
     | None => ret None
     | Some method_name =>
         if String.eqb method_name "" then ret None
         else decode_loop (abis (abiregistry self)) method_name selector
                          input_data contract_address
     end)
    (fun e => let* _ := handle_error e "decode_transaction_input" in ret None).

Definition required_fields : list string := ["input"; "to"; "value"; "gasPrice"].

Definition is_list (v : pyval) : bool :=
  match v with PList _ => true | _ => false end.

Definition list_of (v : pyval) : list pyval :=
  match v with PList l => l | _ => [] end.

(** [not path or not isinstance(path, list) or len(path) < 2] *)
Definition invalid_path (path : pyval) : bool :=
  negb (truthy path) || negb (is_list path)
  || (length (list_of path) <? 2)%nat.

Definition rejected : bool * option DecodedTx * option string := (false, None, None).

Definition _validate_transaction (tx : pyobj) (operation : string)
    (min_value : Q) : M (bool * option DecodedTx * option string) :=
  match tx with
  | OOther _ => ret rejected
  | ODict tx =>
      if negb (forallb (fun field => bool_decide (is_Some (tx !! field)))
                       required_fields)
      then ret rejected
      else
        try_except
          (let* to_ := lift (to_checksum_address (web3 self)
                               (default (PStr "") (tx !! "to"))) in
           let* decoded_tx :=
             decode_transaction_input (default (PStr "0x") (tx !! "input")) to_ in
           match decoded_tx with
           | None => ret rejected
           | Some decoded =>
               match params decoded with
               | None => ret rejected
               | Some l =>
                   let* decoded_params := deref l in
                   let path := default (PList []) (decoded_params !! "path") in
                   if invalid_path path then ret rejected
                   else
                     let token := default PNone (head (list_of path)) in
                     let* token_symbol :=
                       call (EvGetTokenSymbol token)
                            (fun t => get_token_symbol (apiconfig self) t token) in
                     match token_symbol with
                     | None => ret rejected
                     | Some symbol =>
                         if String.eqb symbol "" then ret rejected
                         else
                           let* value :=
                             lift (py_float (parse_float self)
                                     (default (PInt 0) (tx !! "value"))) in
                           if Qltb value min_value then ret rejected
                           else ret (true, Some decoded, Some symbol)
                     end
               end
           end)
          (fun e =>
             let* _ := handle_error e "_validate_transaction" in
             ret rejected)
  end.

(** The checks a transaction has passed when [_validate_transaction]
    accepts it. *)
Definition qualifies (tx : pyobj) (min_value : Q) (s : State)
    (r : bool * option DecodedTx * option string) : Prop :=
  exists d to_ decoded l path symbol value s1,
    tx = ODict d
    /\ (forall field, In field required_fields -> is_Some (d !! field))
    /\ to_checksum_address (web3 self) (default (PStr "") (d !! "to")) = Ret to_
    /\ decode_transaction_input (default (PStr "0x") (d !! "input")) to_ s
       = (Ret (Some decoded), s1)
    /\ params decoded = Some l
    /\ default ∅ (heap s1 !! l) !! "path" = Some (PList path)
    /\ (2 <= length path)%nat
    /\ get_token_symbol (apiconfig self) (now s1) (default PNone (head path))
       = Ret (Some symbol)
    /\ symbol <> ""%string
    /\ py_float (parse_float self) (default (PInt 0) (d !! "value")) = Ret value
    /\ (min_value <= value)%Q
    /\ r = (true, Some decoded, Some symbol).

(** *** Companion transactions *)

(** The dict literal [routers]; the later key wins when both addresses
    coincide. *)
Definition routers : gmap string (option Contract * string) :=
  <[SUSHISWAP_ADDRESS (configuration self) :=
      (sushiswap_router_contract self, "Sushiswap")]>
    {[ UNISWAP_ADDRESS (configuration self) :=
         (uniswap_router_contract self, "Uniswap") ]}.

(** [decoded_tx.get("params", {})]: the dict object of the decoded
    call, or a fresh empty dict. *)
Definition get_params (decoded_tx : DecodedTx) : M nat :=
  match params decoded_tx with
  | Some l => ret l
  | None => alloc ∅
  end.

(** The tail shared by both preparations: router lookup, binding of the
    router function to [function_params], transaction build. *)
Definition build_router_call (target_tx : Dict) (fname : string)
    (function_params : nat) : M (option Dict) :=
  let* to_address := lift (to_checksum_address (web3 self)
                             (default (PStr "") (target_tx !! "to"))) in
  match routers !! to_address with
  | None => ret None
  | Some (router_contract, exchange_name) =>
      match router_contract with
      | None => ret None
      | Some router =>
          let* kwargs := deref function_params in
          match contract_call router fname [] kwargs with
          | Raise AttributeError => ret None
          | Raise e => raise e
          | Ret router_function =>
              let* tx := build_transaction router_function ∅ in
              ret (Some tx)
          end
      end
  end.

Definition _prepare_front_run_transaction (target_tx : Dict) : M (option Dict) :=
  try_except
    (let* to_ := lift (to_checksum_address (web3 self)
                         (default (PStr "") (target_tx !! "to"))) in
     let* decoded_tx :=
       decode_transaction_input (default (PStr "0x") (target_tx !! "input")) to_ in
     match decoded_tx with
     | None => ret None
     | Some decoded_tx =>
         match function_name decoded_tx with
         | None => ret None
         | Some fname =>
             if String.eqb fname "" then ret None
             else
               let* function_params := get_params decoded_tx in
               build_router_call target_tx fname function_params
         end
     end)
    (fun e =>
       let* _ := handle_error e "_prepare_front_run_transaction" in ret None).

Definition _prepare_back_run_transaction (target_tx : Dict)
    (decoded_tx : DecodedTx) : M (option Dict) :=
  try_except
    (match function_name decoded_tx with
     | None => ret None
     | Some fname =>
         if String.eqb fname "" then ret None
         else
           let* function_params := get_params decoded_tx in
           let* d := deref function_params in
           let path := default (PList []) (d !! "path") in
           if invalid_path path then ret None
           else
             (* function_params["path"] = path[::-1] *)
             let* _ := setitem function_params "path"
                               (PList (rev (list_of path))) in
             build_router_call target_tx fname function_params
     end)
    (fun e =>
       let* _ := handle_error e "_prepare_back_run_transaction" in ret None).

(** *** Base strategies *)

(** [decoded_tx["params"]["path"]] *)
Definition decoded_path (decoded_tx : option DecodedTx) : M pyval :=
  match decoded_tx with
  | None => raise TypeError
  | Some decoded =>
      match params decoded with
      | None => raise KeyError
      | Some l =>
          let* decoded_params := deref l in
          match decoded_params !! "path" with
          | None => raise KeyError
          | Some path => ret path
          end
      end
  end.

(** [v[0]] *)
Definition py_index0 (v : pyval) : res pyval :=
  match v with
  | PList (x :: _) => Ret x
  | PList [] => Raise IndexError
  | PStr s => if String.eqb s "" then Raise IndexError
              else Ret (PStr (String.substring 0 1 s))
  | _ => Raise TypeError
  end.

Definition front_run (target_tx : Dict) : M bool :=
  let* (valid, decoded_tx, _) :=
    _validate_transaction (ODict target_tx) "front-run" 0 in
  if negb valid then ret false
  else
    try_except
      (let* path := decoded_path decoded_tx in
       let* asset := lift (py_index0 path) in
       let* flashloan_tx := _prepare_flashloan asset target_tx in
       let* front_run_tx := _prepare_front_run_transaction target_tx in
       if negb (forallb tx_truthy [flashloan_tx; front_run_tx]) then ret false
       else
         let* sent := _validate_and_send_bundle
                        (omap id [flashloan_tx; front_run_tx]) in
         if sent then ret true else ret false)
      (fun e => let* _ := handle_error e "front_run" in ret false).

Definition back_run (target_tx : Dict) : M bool :=
  let* (valid, decoded_tx, _) :=
    _validate_transaction (ODict target_tx) "back-run" 0 in
  if negb valid then ret false
  else
    try_except
      (let* back_run_tx :=
         match decoded_tx with
         | Some decoded => _prepare_back_run_transaction target_tx decoded
         | None => ret None (* the callee's own handler answers None *)
         end in
       if negb (tx_truthy back_run_tx) then ret false
       else
         let* sent := _validate_and_send_bundle (omap id [back_run_tx]) in
         if sent then ret true else ret false)
      (fun e => let* _ := handle_error e "back_run" in ret false).

(** [target_tx["to"]] *)
Definition tx_to (target_tx : Dict) : M pyval :=
  match target_tx !! "to" with
  | Some v => ret v
  | None => raise KeyError
  end.

Definition _analyze_price_momentum (historical_prices : list Q) : res Q :=
  if (length historical_prices <? 2)%nat then Ret 0%Q
  else
    let first := hd 0%Q historical_prices in
    if Qeq_bool first 0 then Raise ZeroDivisionError
    else Ret ((List.last historical_prices 0%Q / first - 1) * 100)%Q.

Definition _check_sandwich_strategy (strategy : string) (target_tx : Dict)
    (token_symbol : string) (decoded_tx : option DecodedTx) : M bool :=
  if String.eqb strategy "flash_profit" then
    (* [await] is applied to the int that the synchronous
       calculate_flashloan_amount returns *)
    let* estimated_amount := lift (calculate_flashloan_amount target_tx) in
    raise TypeError
  else if String.eqb strategy "price_boost" then
    let* historical_prices :=
      call (EvTokenPriceData token_symbol)
           (fun t => get_token_price_data (apiconfig self) t token_symbol) in
    match historical_prices with
    | None | Some [] => ret false
    | Some prices =>
        let* momentum := lift (_analyze_price_momentum prices) in
        ret (Qltb (PRICE_BOOST_SANDWICH_MOMENTUM_THRESHOLD (configuration self))
                  momentum)
    end
  else if String.eqb strategy "arbitrage" then
    call (EvIsArbitrageOpportunity target_tx)
         (fun t => _is_arbitrage_opportunity (marketmonitor self) t target_tx)
  else if String.eqb strategy "advanced" then
    let* to_ := tx_to target_tx in
    let* market_conditions :=
      call (EvCheckMarketConditions to_)
           (fun t => check_market_conditions (marketmonitor self) t to_) in
    match market_conditions with
    | None => raise AttributeError
    | Some mc => ret (flag mc "high_volatility" false && flag mc "bullish_trend" false)
    end
  else ret true.

Definition execute_sandwich_attack (target_tx : Dict) (strategy : string) : M bool :=
  let* (valid, decoded_tx, token_symbol) :=
    _validate_transaction (ODict target_tx) "sandwich_attack" 0 in
  if negb valid then ret false
  else
    try_except
      (let* should_execute :=
         _check_sandwich_strategy strategy target_tx
           (default "" token_symbol) decoded_tx in
       if negb should_execute then ret false
       else
         let* path := decoded_path decoded_tx in
         let* asset := lift (py_index0 path) in
         let* flashloan_tx := _prepare_flashloan asset target_tx in
         let* front_tx := _prepare_front_run_transaction target_tx in
         let* back_tx :=
           match decoded_tx with
           | Some decoded => _prepare_back_run_transaction target_tx decoded
           | None => ret None (* the callee's own handler answers None *)
           end in
         if negb (forallb tx_truthy [flashloan_tx; front_tx; back_tx]) then ret false
         else _validate_and_send_bundle (omap id [flashloan_tx; front_tx; back_tx]))
      (fun e => let* _ := handle_error e "execute_sandwich_attack" in ret false).

(** *** Scoring *)

Definition np_mean (l : list Q) : Q := (Qsum l / Qlen l)%Q.

Definition np_std (l : list Q) : Q :=
  np_sqrt self (np_mean (map (fun x => (x - np_mean l) * (x - np_mean l))%Q l)).

(** [if historical_prices:] *)
Definition nonempty (historical_prices : option (list Q)) : option (list Q) :=
  match historical_prices with
  | Some (x :: r) => Some (x :: r)
  | _ => None
  end.

Definition _calculate_opportunity_score (price_change : Q) (volatility : npfloat)
    (market_conditions : option (gmap string bool)) (current_price : Q)
    (historical_prices : option (list Q)) : res Z :=
  let score := 0 in
  let score :=
    if Qltb 5 price_change then score + 40
    else if Qltb 3 price_change then score + 30
    else if Qltb 1 price_change then score + 20
    else if Qltb (1 # 2) price_change then score + 10
    else score in
  let score :=
    match nonempty historical_prices with
    | Some prices =>
        let avg_price := (Qsum prices / Qlen prices)%Q in
        if Qltb (avg_price * (11 # 10)) current_price then score + 10
        else if Qltb (avg_price * (105 # 100)) current_price then score + 5
        else score
    | None => score
    end in
  let score :=
    if np_lt volatility (2 # 100) then score + 20
    else if np_lt volatility (5 # 100) then score + 15
    else if np_lt volatility (8 # 100) then score + 10
    else score in
  match market_conditions with
  | None => Raise AttributeError
  | Some mc =>
      let score := if flag mc "bullish_trend" false then score + 10 else score in
      let score := if negb (flag mc "high_volatility" true) then score + 5 else score in
      let score := if negb (flag mc "low_liquidity" true) then score + 5 else score in
      match nonempty historical_prices with
      | Some prices =>
          if (1 <? length prices)%nat then
            let first := hd 0%Q prices in
            if Qeq_bool first 0 then Raise ZeroDivisionError
            else
              let recent_trend := ((List.last prices 0%Q / first - 1) * 100)%Q in
              if Qltb 0 recent_trend then Ret (score + 20)
              else if Qltb (-1) recent_trend then Ret (score + 10)
              else Ret score
          else Ret score
      | None => Ret score
      end
  end.

(** The definition in force: the second one in the class body, which
    is textually the same as the first. *)
Definition _calculate_volatility_score (historical_prices : option (list Q))
    (current_price : option Q)
    (market_conditions : option (gmap string bool)) : res Z :=
  let score := 0 in
  let score :=
    match nonempty historical_prices with
    | Some prices =>
        if (1 <? length prices)%nat then
          let historical_volatility := np_div (np_std prices) (np_mean prices) in
          if np_gt historical_volatility (1 # 10) then score + 40
          else if np_gt historical_volatility (8 # 100) then score + 30
          else if np_gt historical_volatility (5 # 100) then score + 20
          else if np_gt historical_volatility (3 # 100) then score + 10
          else score
        else score
    | None => score
    end in
  let score :=
    match nonempty historical_prices with
    | Some prices =>
        let price_range :=
          np_div (Qmax_list prices - Qmin_list prices) (np_mean prices) in
        if np_gt price_range (2 # 10) then score + 30
        else if np_gt price_range (15 # 100) then score + 20
        else if np_gt price_range (1 # 10) then score + 10
        else score
    | None => score
    end in
  match market_conditions with
  | None => Raise AttributeError
  | Some mc =>
      let score := if flag mc "high_volatility" false then score + 20 else score in
      let score := if flag mc "low_liquidity" false then score + 10 else score in
      Ret score
  end.

(** [x > t] for a number handed back by the safety gate. *)
Definition pynum_gt (x : pynum) (t : Q) : bool :=
  match x with
  | NInt z => Qltb t (inject_Z z)
  | NFloat q => Qltb t q
  | NDec d => Qltb t (Dval d)
  end.

(** The first definition of [_calculate_risk_score] in the class body.
    It is rebound by the second definition below and never runs. *)
Definition _calculate_risk_score_first (target_tx : Dict) (price_change : Q)
    : M (Q * gmap string bool) :=
  let score := 0 in
  let score :=
    if Qltb 10 price_change then score + 40
    else if Qltb 7 price_change then score + 30
    else if Qltb 4 price_change then score + 20
    else if Qltb 2 price_change then score + 10
    else score in
  let* gas_price := call EvDynamicGasPrice (get_dynamic_gas_price (safetynet self)) in
  let score :=
    if pynum_gt gas_price 200 then score + 30
    else if pynum_gt gas_price 150 then score + 20
    else if pynum_gt gas_price 100 then score + 10
    else score in
  let* to_ := tx_to target_tx in
  let* market_conditions :=
    call (EvCheckMarketConditions to_)
         (fun t => check_market_conditions (marketmonitor self) t to_) in
  match market_conditions with
  | None => raise AttributeError
  | Some mc =>
      let score := if flag mc "high_volatility" false then score + 20 else score in
      let score := if flag mc "low_liquidity" false then score + 10 else score in
      ret ((inject_Z score / 100)%Q, mc)
  end.

(** The second definition, the one bound to the name once the class
    body has run: its body is [pass], so it returns [None]. *)
Definition _calculate_risk_score (target_tx : Dict) (price_change : Q)
    : M (option (Q * gmap string bool)) :=
  ret None.

(** *** Strategy variants

    Where the class body defines a method twice, the definition below
    is the second one, which is the one bound at run time. *)

Definition aggressive_front_run (target_tx : Dict) : M bool :=
  let* (valid, decoded_tx, token_symbol) :=
    _validate_transaction (ODict target_tx) "front_run"
      (AGGRESSIVE_FRONT_RUN_MIN_VALUE_ETH (configuration self)) in
  if negb valid then ret false
  else
    let token_symbol := default "" token_symbol in
    let* price_change :=
      call (EvPriceChange24h token_symbol)
           (fun t => get_price_change_24h (apiconfig self) t token_symbol) in
    let* scored := _calculate_risk_score target_tx price_change in
    (* risk_score, market_conditions = <the value returned> *)
    match scored with
    | None => raise TypeError
    | Some (risk_score, market_conditions) =>
        if Qle_bool (AGGRESSIVE_FRONT_RUN_RISK_SCORE_THRESHOLD (configuration self))
                    risk_score
        then front_run target_tx
        else ret false
    end.

Definition predictive_front_run (target_tx : Dict) : M bool :=
  let* (valid, decoded_tx, token_symbol) :=
    _validate_transaction (ODict target_tx) "front_run" 0 in
  if negb valid then ret false
  else
    let token_symbol := default "" token_symbol in
    let* data :=
      try_except
        (let* to_ := tx_to target_tx in
         let* predicted_price :=
           settle (call (EvPredictPriceMovement token_symbol)
                     (fun t => predict_price_movement (marketmonitor self) t token_symbol)) in
         let* current_price :=
           settle (call (EvRealTimePrice token_symbol)
                     (fun t => get_real_time_price (apiconfig self) t token_symbol)) in
         let* market_conditions :=
           settle (call (EvCheckMarketConditions to_)
                     (fun t => check_market_conditions (marketmonitor self) t to_)) in
         let* historical_prices :=
           settle (call (EvTokenPriceData token_symbol)
                     (fun t => get_token_price_data (apiconfig self) t token_symbol)) in
         (* any(isinstance(x, Exception) for x in data)
            or current_price is None or predicted_price is None *)
         match predicted_price, current_price, market_conditions, historical_prices with
         | Ret (Some predicted), Ret (Some current), Ret mc, Ret prices =>
             ret (Some (predicted, current, mc, prices))
         | _, _, _, _ => ret None
         end)
        (fun e => ret None) in
    match data with
    | None => ret false
    | Some (predicted_price, current_price, market_conditions, historical_prices) =>
        let* price_change :=
          if Qeq_bool current_price 0 then raise ZeroDivisionError
          else ret ((predicted_price / current_price - 1) * 100)%Q in
        let volatility :=
          match nonempty historical_prices with
          | Some prices => np_div (np_std prices) (np_mean prices)
          | None => NpFin 0
          end in
        let* opportunity_score :=
          lift (_calculate_opportunity_score price_change volatility
                  market_conditions current_price historical_prices) in
        if Qle_bool (FRONT_RUN_OPPORTUNITY_SCORE_THRESHOLD (configuration self))
                    (inject_Z opportunity_score)
        then front_run target_tx
        else ret false
    end.

Definition volatility_front_run (target_tx : Dict) : M bool :=
  let* (valid, decoded_tx, token_symbol) :=
    _validate_transaction (ODict target_tx) "front_run" 0 in
  if negb valid then ret false
  else
    let token_symbol := default "" token_symbol in
    let* results :=
      try_except
        (let* to_ := tx_to target_tx in
         let* market_conditions :=
           settle (call (EvCheckMarketConditions to_)
                     (fun t => check_market_conditions (marketmonitor self) t to_)) in
         let* current_price :=
           settle (call (EvRealTimePrice token_symbol)
                     (fun t => get_real_time_price (apiconfig self) t token_symbol)) in
         let* historical_prices :=
           settle (call (EvTokenPriceData token_symbol)
                     (fun t => get_token_price_data (apiconfig self) t token_symbol)) in
         (* any(isinstance(result, Exception) for result in results) *)
         match market_conditions, current_price, historical_prices with
         | Ret mc, Ret current, Ret prices => ret (Some (mc, current, prices))
         | _, _, _ => ret None
         end)
        (fun e => ret None) in
    match results with
    | None => ret false
    | Some (market_conditions, current_price, historical_prices) =>
        let* volatility_score :=
          lift (_calculate_volatility_score historical_prices current_price
                  market_conditions) in
        (* the log line evaluates min(historical_prices) and
           max(historical_prices) *)
        let* _ :=
          match historical_prices with
          | None => raise TypeError
          | Some [] => raise ValueError
          | Some (_ :: _) => ret tt
          end in
        if Qle_bool (VOLATILITY_FRONT_RUN_SCORE_THRESHOLD (configuration self))
                    (inject_Z volatility_score)
        then front_run target_tx
        else ret false
    end.

Definition price_dip_back_run (target_tx : Dict) : M bool :=
  let* (valid, decoded_tx, token_symbol) :=
    _validate_transaction (ODict target_tx) "back_run" 0 in
  if negb valid then ret false
  else
    let token_symbol := default "" token_symbol in
    let* current_price :=
      call (EvRealTimePrice token_symbol)
           (fun t => get_real_time_price (apiconfig self) t token_symbol) in
    match current_price with
    | None => ret false
    | Some current =>
        let* predicted_price :=
          call (EvPredictPriceMovement token_symbol)
               (fun t => predict_price_movement (marketmonitor self) t token_symbol) in
        match predicted_price with
        | None => raise TypeError
        | Some predicted =>
            if Qltb predicted
                 (current * PRICE_DIP_BACK_RUN_THRESHOLD (configuration self))
            then back_run target_tx
            else ret false
        end
    end.

Definition flashloan_back_run (target_tx : Dict) : M bool :=
  (* [await] is applied to the int that the synchronous
     calculate_flashloan_amount returns *)
  let* estimated_amount := lift (calculate_flashloan_amount target_tx) in
  raise TypeError.

Definition _get_volume_threshold (token_symbol : string) : Q :=
  let volume_thresholds : gmap string Q :=
    <["ETH" := 1000000%Q]> (<["BTC" := 500000%Q]> (<["USDT" := 200000%Q]>
      (<["BNB" := 100000%Q]> {[ "ADA" := 50000%Q ]}))) in
  default 10000%Q (volume_thresholds !! token_symbol).

Definition high_volume_back_run (target_tx : Dict) : M bool :=
  let* (valid, decoded_tx, token_symbol) :=
    _validate_transaction (ODict target_tx) "back_run" 0 in
  if negb valid then ret false
  else
    let token_symbol := default "" token_symbol in
    let* volume_24h :=
      call (EvTokenVolume token_symbol)
           (fun t => get_token_volume (apiconfig self) t token_symbol) in
    let volume_threshold := _get_volume_threshold token_symbol in
    match volume_24h with
    | None => raise TypeError
    | Some volume =>
        if Qltb volume_threshold volume then back_run target_tx
        else ret false
    end.

Definition advanced_sandwich_attack (target_tx : Dict) : M bool :=
  let* (valid, decoded_tx, token_symbol) :=
    _validate_transaction (ODict target_tx) "sandwich_attack" 0 in
  if negb valid then ret false
  else
    let* to_ := tx_to target_tx in
    let* market_conditions :=
      call (EvCheckMarketConditions to_)
           (fun t => check_market_conditions (marketmonitor self) t to_) in
    match market_conditions with
    | None => raise AttributeError
    | Some mc =>
        if flag mc "high_volatility" false && flag mc "bullish_trend" false
        then execute_sandwich_attack target_tx "default"
        else ret false
    end.

End Engine.

(** ** The flashloan amount as the specification words it *)

(** [floor(estimatedProfit * backRunProfitPercentage * 10^18)] if the
    estimated profit is positive, else [0]. *)
Definition spec_flashloan_amount (estimatedProfit backRunProfitPercentage : Q) : Z :=
  if Qltb 0 estimatedProfit
  then Qfloor (estimatedProfit * backRunProfitPercentage * 10 ^ 18)
  else 0.

(** ** The price-change bands as the specification words them

    40, 30, 20 and 10 points above 5, 3, 1 and 0.5 per cent; only the
    highest band reached counts. *)
Definition price_change_band (price_change : Q) : Z :=
  if Qltb 5 price_change then 40
  else if Qltb 3 price_change then 30
  else if Qltb 1 price_change then 20
  else if Qltb (1 # 2) price_change then 10
  else 0.

(** ** Observations on traces *)

(** The state reached from [s1] by the external calls [evs] alone. *)
Definition after_calls (s1 : State) (evs : list event) : State :=
  mkState (heap s1) (trace s1 ++ evs) (length evs + now s1).


Definition is_send_bundle (ev : event) : bool :=
  match ev with EvSendBundle _ => true | _ => false end.

Definition is_refresh_nonce (ev : event) : bool :=
  match ev with EvRefreshNonce => true | _ => false end.

Definition is_sign (ev : event) : bool :=
  match ev with EvSignTransaction _ => true | _ => false end.

Definition is_post (ev : event) : bool :=
  match ev with EvPost _ _ _ _ _ => true | _ => false end.

(** The events that signing and posting a bundle to [builders] may log. *)
Definition submit_event (builders : list MevBuilder) (ev : event) : Prop :=
  match ev with
  | EvSignTransaction _ | EvBlockNumber | EvSleep _ => True
  | EvPost b _ _ _ _ => In b builders
  | _ => False
  end.

Definition count (p : event -> bool) (tr : list event) : nat :=
  length (List.filter p tr).

(** ** A concrete deployment

    One fixed, well-behaved environment and a few variations of it, on
    which the engine can be run. *)

Module Sample.

Definition WETH : string := "0xC02aaA39b223FE8D0A0e5C4F27eAD9083C756Cc2".
Definition DAI : string := "0x6B175474E89094C44Da98b954EedeAC495271d0F".
Definition UNISWAP : string := "0x7a250d5630B4cF539739dF2C5dAcb4c659F2488D".
Definition SUSHISWAP : string := "0xd9e1cE17f2641f24aE83637ab66a2cca9C378B9F".
Definition AAVE : string := "0x87870Bca3F3fD6335C3F4ce8392D69350B4fA4E2".

Definition swap_params : Dict :=
  <["path" := PList [PStr WETH; PStr DAI]]> {[ "amountIn" := PInt 1000 ]}.

(** A chain client that accepts everything, except that a read-only call
    of a transaction carrying a ["revert"] member reverts, and that
    signing fails whenever [sign_fails] is set. *)
Definition chain (sign_fails : bool) : Web3 := {|
  to_checksum_address := fun v =>
    match v with PStr a => Ret a | _ => Raise TypeError end;
  to_wei_gwei := fun q => Ret (Qfloor (q * 1000000000));
  eth_chain_id := fun _ => Ret 1;
  eth_get_block_latest := fun _ => Ret {| baseFeePerGas := Some 30 |};
  eth_block_number := fun _ => Ret 100;
  eth_max_priority_fee := fun _ => Ret 2;
  eth_estimate_gas := fun _ _ => Ret 21000;
  eth_call_pending := fun _ tx =>
    match tx !! "revert" with
    | Some _ => Raise ContractLogicError
    | None => Ret tt
    end;
  eth_send_raw_transaction := fun _ _ => Ret "0xhash";
  eth_account_sign_transaction := fun _ _ =>
    if sign_fails then Raise ValueError else Ret "0xsigned";
  buildTransaction := fun _ fc tx_params =>
    Ret (<["to" := PStr (fc_contract fc)]> tx_params);
  check_call_args := fun _ _ _ _ => None;
  decode_function_input := fun _ _ _ => Ret swap_params
|}.

Definition builder_a : MevBuilder :=
  {| name := "relay-a"; url := "https://a.example"; auth_header := "X-Auth" |}.
Definition builder_b : MevBuilder :=
  {| name := "relay-b"; url := "https://b.example"; auth_header := "X-Auth" |}.

Definition config : Configuration := {|
  MEMPOOL_MAX_RETRIES := 3;
  MEMPOOL_RETRY_DELAY := 1;
  MAX_GAS_PRICE_GWEI := 100;
  MEV_BUILDERS := [builder_a; builder_b];
  FLASHLOAN_BACK_RUN_PROFIT_PERCENTAGE := mkDec false 5 (-1);
  UNISWAP_ADDRESS := UNISWAP;
  SUSHISWAP_ADDRESS := SUSHISWAP;
  AGGRESSIVE_FRONT_RUN_MIN_VALUE_ETH := 0;
  AGGRESSIVE_FRONT_RUN_RISK_SCORE_THRESHOLD := (1 # 2);
  FRONT_RUN_OPPORTUNITY_SCORE_THRESHOLD := 25;
  VOLATILITY_FRONT_RUN_SCORE_THRESHOLD := 25;
  PRICE_BOOST_SANDWICH_MOMENTUM_THRESHOLD := 1;
  PRICE_DIP_BACK_RUN_THRESHOLD := (99 # 100)
|}.

Definition nonces : NonceCore := {|
  get_nonce := fun _ => Ret 7;
  refresh_nonce := fun _ => Ret tt
|}.

Definition gate : SafetyNet := {|
  get_dynamic_gas_price := fun _ => Ret (NInt 40)
|}.

Definition market : gmap string bool :=
  <["high_volatility" := true]> {[ "low_liquidity" := true ]}.

(** The price service; [price] and [history] are what it reports. *)
Definition api (price : option Q) (history : option (list Q)) : APIConfig := {|
  get_token_symbol := fun _ _ => Ret (Some "WETH");
  get_real_time_price := fun _ _ => Ret price;
  get_token_price_data := fun _ _ => Ret history;
  get_price_change_24h := fun _ _ => Ret 12%Q;
  get_token_volume := fun _ _ => Ret (Some 2000000%Q)
|}.

Definition monitor : MarketMonitor := {|
  check_market_conditions := fun _ _ => Ret (Some market);
  predict_price_movement := fun _ _ => Ret (Some 110%Q);
  _is_arbitrage_opportunity := fun _ _ => Ret true
|}.

Definition registry : ABIRegistry := {|
  get_method_selector := fun _ => Some "swapExactTokensForTokens";
  abis := ["uniswap"]
|}.

(** Relay A fails at the transport level on every attempt, relay B
    accepts at once. *)
Definition relay_net : Relays := {|
  post := fun _ builder _ _ =>
    if String.eqb (name builder) "relay-a" then Raise ClientError
    else Ret ∅
|}.

Definition router (a : string) : Contract :=
  {| address := a; functions := ["swapExactTokensForTokens"] |}.

Definition core_with (w : Web3) (a : APIConfig) (nc : NonceCore) : TransactionCore := {|
  web3 := w;
  account_address := "0xAgent";
  configuration := config;
  apiconfig := a;
  marketmonitor := monitor;
  noncecore := nc;
  safetynet := gate;
  abiregistry := registry;
  relays := relay_net;
  gas_price_multiplier := (11 # 10);
  aave_flashloan := {| address := AAVE; functions := ["fn_RequestFlashLoan"] |};
  uniswap_router_contract := Some (router UNISWAP);
  sushiswap_router_contract := Some (router SUSHISWAP);
  parse_float := fun _ => None;
  parse_decimal := fun _ => None;
  np_sqrt := fun q => if Qeq_bool q 0 then 0%Q else 1%Q
|}.

Definition core : TransactionCore :=
  core_with (chain false) (api (Some 100%Q) (Some [100%Q; 100%Q])) nonces.

Definition s0 : State := mkState ∅ [] 0.

(** A pending swap through the Uniswap router. *)
Definition target_tx : Dict :=
  <["input" := PStr "0x38ed1739000000"]>
    (<["to" := PStr UNISWAP]>
       (<["value" := PInt 5]>
          (<["gasPrice" := PInt 20]> {[ "profit" := PFloat 1 1 ]}))).

Definition good_tx : Dict :=
  <["nonce" := PInt 7]> {[ "gasPrice" := PInt 20 ]}.

Definition reverting_tx : Dict := <["revert" := PBool true]> good_tx.

Definition pricey_tx : Dict :=
  <["nonce" := PInt 7]> {[ "gasPrice" := PInt 500 ]}.

(** The float 1.0000057415887562, i.e. [4503625485187479 * 2^-52]. *)
Definition odd_profit : pyval := PFloat 4503625485187479 (-52).

Definition odd_profit_tx : Dict := {[ "profit" := odd_profit ]}.

(** The decoded form of [target_tx], with its parameters at location 0. *)
Definition decoded : DecodedTx :=
  {| function_name := Some "swapExactTokensForTokens";
     params := Some 0%nat;
     signature := "38ed1739";
     abi_type := "uniswap" |}.

Definition s_decoded : State := mkState {[ 0%nat := swap_params ]} [] 0.

(** A call that is not a transaction dict, and one without a gas price. *)
Definition not_a_dict : pyobj := OOther (PStr "0xdeadbeef").

Definition no_gas_price_tx : Dict :=
  <["input" := PStr "0x38ed1739000000"]>
    (<["to" := PStr UNISWAP]> {[ "value" := PInt 5 ]}).

(** A price service whose historical data cannot be fetched. *)
Definition api_down : APIConfig := {|
  get_token_symbol := fun _ _ => Ret (Some "WETH");
  get_real_time_price := fun _ _ => Ret (Some 100%Q);
  get_token_price_data := fun _ _ => Raise ClientError;
  get_price_change_24h := fun _ _ => Ret 12%Q;
  get_token_volume := fun _ _ => Ret (Some 2000000%Q)
|}.

Definition core_api_down : TransactionCore := core_with (chain false) api_down nonces.

(** Deployments where the price service reports no current price, and no
    price history. *)
Definition core_no_price : TransactionCore :=
  core_with (chain false) (api None (Some [100%Q; 100%Q])) nonces.

Definition core_no_history : TransactionCore :=
  core_with (chain false) (api (Some 100%Q) None) nonces.

(** A nonce service whose refresh fails. *)
Definition nonces_down : NonceCore := {|
  get_nonce := fun _ => Ret 7;
  refresh_nonce := fun _ => Raise RuntimeError
|}.

Definition core_nonces_down : TransactionCore :=
  core_with (chain false) (api (Some 100%Q) (Some [100%Q; 100%Q])) nonces_down.

(** The same deployment with a signer that always fails. *)
Definition core_unsigned : TransactionCore :=
  core_with (chain true) (api (Some 100%Q) (Some [100%Q; 100%Q])) nonces.

End Sample.

(** ** Maintenance operations

    The operations of the engine beside the strategies: plain ETH
    transfers, cancellation, withdrawal and profit transfer, gas
    parameters and contract validation.  A product of an int and a float
    is taken on rationals, as in [pad_gas]. *)

(** What [eth.get_code] hands back: a bytes object (web3's [HexBytes]) or,
    from a client that answers in text, a string. *)
Inductive code :=
| CodeBytes (b : list Byte.byte)
| CodeStr (s : string).

(** [bool(code)] *)
Definition code_truthy (c : code) : bool :=
  match c with
  | CodeBytes b => match b with [] => false | _ => true end
  | CodeStr s => negb (String.eqb s "")
  end.

(** [code != '0x']: a bytes object never equals a string. *)
Definition code_ne_0x (c : code) : bool :=
  match c with
  | CodeBytes _ => true
  | CodeStr s => negb (String.eqb s "0x")
  end.

(** The outcome of calling a contract function read-only.
    [OverflowError] can only arise there and is caught on the spot, so it
    is kept apart from the exceptions of [exn]. *)
Inductive probe :=
| Answered
| Overflowed
| Failed (e : exn).

(** Further attributes of the chain client and of the configuration. *)
Record Auxiliary := {
  eth_get_code : nat -> string -> res code;
  (** [getattr(contract.functions, m)] applied to [args], then [.call()] *)
  call_function : nat -> Contract -> string -> list pyval -> probe;
  (** the attribute [web3.eth.chain_id], read without [await] *)
  chain_id_attribute : pyval;
  (** [web3.from_wei(v, "ether")], of which only the failure matters *)
  from_wei_ether : pyval -> res unit;
  (** the parser behind [int(s)] for a string *)
  parse_int : string -> option Z;
  ETH_TX_GAS_PRICE_MULTIPLIER : Q;
  DEFAULT_CANCEL_GAS_PRICE_GWEI : Q
}.

(** A call to a collaborator for which the trace has no entry: the oracle
    is asked at the current time and the clock advances. *)
Definition ask {A} (oracle : nat -> A) : M A :=
  fun s => (Ret (oracle (now s)), mkState (heap s) (trace s) (S (now s))).

(** [v <= 0] *)
Definition py_le0 (v : pyval) : res bool :=
  match v with
  | PBool b => Ret (negb b)
  | PInt z => Ret (z <=? 0)
  | PFloat m _ => Ret (m <=? 0)
  | PNone | PStr _ | PList _ => Raise TypeError
  end.

(** [int(x)] for a float: truncation towards zero. *)
Definition Qtrunc (q : Q) : Z :=
  if Qle_bool 0 q then Qfloor q else Qceiling q.

(** [int(v)] *)
Definition py_int (parse : string -> option Z) (v : pyval) : res Z :=
  match v with
  | PNone => Raise TypeError
  | PBool b => Ret (if b then 1 else 0)
  | PInt z => Ret z
  | PFloat m e => Ret (Qtrunc (float_val m e))
  | PStr s => match parse s with Some z => Ret z | None => Raise ValueError end
  | PList _ => Raise TypeError
  end.

(** [bool(tx_hash)] for the optional hex string of a transaction hash. *)
Definition hash_truthy (tx_hash : option string) : bool :=
  match tx_hash with
  | Some h => negb (String.eqb h "")
  | None => false
  end.

(** [sub in s] for strings. *)
Fixpoint contains (sub s : string) : bool :=
  String.prefix sub s
  || match s with
     | EmptyString => false
     | String _ rest => contains sub rest
     end.

Definition lending_pool_methods : list (string * list pyval) :=
  [("implementation", []); ("admin", []); ("getReservesList", []);
   ("getReserveData", [PStr "0xC02aaA39b223FE8D0A0e5C4F27eAD9083C756Cc2"]);
   ("ADDRESSES_PROVIDER", [])].

Definition flashloan_methods : list (string * list pyval) :=
  [("ADDRESSES_PROVIDER", []); ("owner", []); ("POOL", []);
   ("FLASHLOAN_PREMIUM_TOTAL", [])].

Definition router_methods : list (string * list pyval) :=
  [("factory", []); ("WETH", [])].

Definition methods_to_try (name abi_type : string) : list (string * list pyval) :=
  if contains "Lending Pool" name then lending_pool_methods
  else if contains "Flashloan" name then flashloan_methods
  else if bool_decide (abi_type ∈ ["uniswap"; "sushiswap"]) then router_methods
  else [].

Section Operations.

Context (self : TransactionCore) (aux : Auxiliary).

(** The dict literal [tx_details] of [handle_eth_transaction]. *)
Definition eth_tx_details (target_tx : Dict) (eth_value : pyval) (nonce : Z) : Dict :=
  <["from" := PStr (account_address self)]>
    (<["chainId" := chain_id_attribute aux]>
       (<["nonce" := PInt nonce]>
          (<["gas" := PInt 21000]>
             (<["value" := eth_value]>
                {[ "to" := default (PStr "") (target_tx !! "to") ]})))).

Definition handle_eth_transaction (target_tx : Dict) : M bool :=
  try_except
    (let eth_value := default (PInt 0) (target_tx !! "value") in
     let* skip := lift (py_le0 eth_value) in
     if skip then ret false
     else
       let* nonce := call EvGetNonce (get_nonce (noncecore self)) in
       let tx_details := eth_tx_details target_tx eth_value nonce in
       let* original_gas_price :=
         lift (py_int (parse_int aux) (default (PInt 0) (target_tx !! "gasPrice"))) in
       if original_gas_price <=? 0 then ret false
       else
         let tx_details :=
           <["gasPrice" := PInt (Qtrunc (inject_Z original_gas_price
                                         * ETH_TX_GAS_PRICE_MULTIPLIER aux))]>
             tx_details in
         (* the log line converts the value to ether *)
         let* _ := lift (from_wei_ether aux eth_value) in
         let* tx_hash_executed := execute_transaction self tx_details in
         if hash_truthy tx_hash_executed then ret true else ret false)
    (fun e => let* _ := handle_error e "handle_eth_transaction" in ret false).

(** The dict literal [cancel_tx]. *)
Definition cancel_tx (nonce gas_price chain_id : Z) : Dict :=
  <["from" := PStr (account_address self)]>
    (<["chainId" := PInt chain_id]>
       (<["nonce" := PInt nonce]>
          (<["gasPrice" := PInt gas_price]>
             (<["gas" := PInt 21000]>
                (<["value" := PInt 0]>
                   {[ "to" := PStr (account_address self) ]}))))).

Definition cancel_transaction (nonce : Z) : M bool :=
  let* gas_price :=
    lift (to_wei_gwei (web3 self) (DEFAULT_CANCEL_GAS_PRICE_GWEI aux)) in
  let* chain_id := call EvChainId (eth_chain_id (web3 self)) in
  try_except
    (let* signed_cancel_tx := sign_transaction self (cancel_tx nonce gas_price chain_id) in
     let* tx_hash :=
       call (EvSendRawTransaction signed_cancel_tx)
            (fun t => eth_send_raw_transaction (web3 self) t signed_cancel_tx) in
     ret true)
    (fun e => let* _ := handle_error e "cancel_transaction" in ret false).

(** Deprecated alias. *)
Definition estimate_gas_limit (tx : Dict) : M Z := estimate_gas_smart self tx.

Definition withdraw_eth : M bool :=
  try_except
    (let* withdraw_function :=
       lift (contract_call self (aave_flashloan self) "withdrawETH" [] ∅) in
     let* tx := build_transaction self withdraw_function ∅ in
     let* tx_hash := execute_transaction self tx in
     if hash_truthy tx_hash then ret true else ret false)
    (fun e => let* _ := handle_error e "withdraw_eth" in ret false).

(** [int(amount * Decimal(DEFAULT_PROFIT_TRANSFER_MULTIPLIER))] *)
Definition transfer_units (amount : decimal) : Z :=
  to_int (Decimal.mul amount (of_int (10 ^ 18))).

Definition transfer_profit_to_account (amount : decimal) (account : pyval) : M bool :=
  try_except
    (let* _ := (if bool_decide ("transfer"%string ∈ functions (aave_flashloan self))
                then ret tt else raise AttributeError) in
     let* to_ := lift (to_checksum_address (web3 self) account) in
     let* transfer_function :=
       lift (contract_call self (aave_flashloan self) "transfer"
               [PStr to_; PInt (transfer_units amount)] ∅) in
     let* tx := build_transaction self transfer_function ∅ in
     let* tx_hash := execute_transaction self tx in
     if hash_truthy tx_hash then ret true else ret false)
    (fun e => let* _ := handle_error e "transfer_profit_to_account" in ret false).

Definition calculate_gas_parameters (tx : Dict) (gas_limit : option Z) : M Dict :=
  try_except
    (let* gas_params := _get_dynamic_gas_parameters self in
     (* gas_limit or await self.estimate_gas_smart(tx) *)
     let* estimated_gas :=
       match gas_limit with
       | Some g => if g =? 0 then estimate_gas_smart self tx else ret g
       | None => estimate_gas_smart self tx
       end in
     match gas_params !! "gasPrice" with
     | None => raise KeyError
     | Some gas_price =>
         ret (<["gas" := PInt (pad_gas estimated_gas)]>
                ({[ "gasPrice" := gas_price ]} : Dict))
     end)
    (fun e =>
       let* _ := handle_error e "calculate_gas_parameters" in
       let* gas_price :=
         lift (to_wei_gwei (web3 self)
                 (inject_Z DEFAULT_GAS_PRICE_GWEI * gas_price_multiplier self)) in
       ret (<["gas" := PInt DEFAULT_GAS_LIMIT]>
              ({[ "gasPrice" := PInt gas_price ]} : Dict))).

(** [tx.update(gas_params)] makes the entries of [gas_params] win. *)
Definition execute_transaction_with_gas_parameters (tx gas_params : Dict)
    : M (option string) :=
  try_except
    (execute_transaction self (gas_params ∪ tx))
    (fun e =>
       let* _ := handle_error e "execute_transaction_with_gas_parameters" in
       ret None).

(** [for method_name, args in methods_to_try]: true once a method has
    answered, false when the list is exhausted. *)
Fixpoint try_methods (contract : Contract) (methods : list (string * list pyval))
    : M bool :=
  match methods with
  | [] => ret false
  | (method_name, args) :: rest =>
      if bool_decide (method_name ∈ functions contract) then
        let* outcome := ask (fun t => call_function aux t contract method_name args) in
        match outcome with
        | Answered => ret true
        | Overflowed | Failed ContractLogicError => try_methods contract rest
        | Failed e => raise e
        end
      else try_methods contract rest
  end.

Definition _validate_contract (contract : Contract) (name abi_type : string) : M unit :=
  try_except
    (let* validated := try_methods contract (methods_to_try name abi_type) in
     if validated then ret tt
     else
       let* answer := ask (fun t => eth_get_code aux t (address contract)) in
       let* code := lift answer in
       if code_truthy code && code_ne_0x code then ret tt
       else raise ValueError)
    (fun e => let* _ := handle_error e "_validate_contract" in raise e).

Definition _is_contract_address (address : pyval) : M bool :=
  let* checksum := lift (to_checksum_address (web3 self) address) in
  let* answer := ask (fun t => eth_get_code aux t checksum) in
  let* code := lift answer in
  ret (code_ne_0x code).

Definition _validate_contract_interaction (tx : Dict) : M bool :=
  let to_address := default (PStr "") (tx !! "to") in
  if negb (truthy to_address) then ret false
  else
    let* is_contract := _is_contract_address to_address in
    if negb is_contract then ret false else ret true.

End Operations.

(** ** Further observations on traces *)

(** The events by which the engine signs, sends or submits. *)
Definition outward (ev : event) : bool :=
  match ev with
  | EvSignTransaction _ | EvSendRawTransaction _ | EvSendBundle _
  | EvPost _ _ _ _ _ | EvRefreshNonce => true
  | _ => false
  end.

Definition is_send_raw (ev : event) : bool :=
  match ev with EvSendRawTransaction _ => true | _ => false end.

(** What one bundle submission may log while it posts: a POST to one of
    [builders] carrying [txs] and [block_number] at an attempt numbered
    from [lo] up to, not including, [hi], or a pause. *)
Definition post_event (builders : list MevBuilder) (txs : list string)
    (block_number lo hi : Z) (ev : event) : Prop :=
  match ev with
  | EvSleep _ => True
  | EvPost b a _ txs' bn' =>
      In b builders /\ lo <= a < hi /\ txs' = txs /\ bn' = block_number
  | _ => False
  end.

(** ** Further deployments *)

Module Scenario.

(** The sample deployment with another chain client and safety net. *)
Definition core_on (w : Web3) (g : SafetyNet) : TransactionCore := {|
  web3 := w;
  account_address := account_address Sample.core;
  configuration := Sample.config;
  apiconfig := apiconfig Sample.core;
  marketmonitor := Sample.monitor;
  noncecore := Sample.nonces;
  safetynet := g;
  abiregistry := Sample.registry;
  relays := Sample.relay_net;
  gas_price_multiplier := (11 # 10);
  aave_flashloan := aave_flashloan Sample.core;
  uniswap_router_contract := uniswap_router_contract Sample.core;
  sushiswap_router_contract := sushiswap_router_contract Sample.core;
  parse_float := fun _ => None;
  parse_decimal := fun _ => None;
  np_sqrt := np_sqrt Sample.core
|}.

(** A chain whose blocks carry no base fee. *)
Definition legacy_chain : Web3 := {|
  to_checksum_address := to_checksum_address (Sample.chain false);
  to_wei_gwei := to_wei_gwei (Sample.chain false);
  eth_chain_id := fun _ => Ret 1;
  eth_get_block_latest := fun _ => Ret {| baseFeePerGas := None |};
  eth_block_number := fun _ => Ret 100;
  eth_max_priority_fee := fun _ => Ret 2;
  eth_estimate_gas := fun _ _ => Raise ContractLogicError;
  eth_call_pending := eth_call_pending (Sample.chain false);
  eth_send_raw_transaction := fun _ _ => Ret "0xhash";
  eth_account_sign_transaction := fun _ _ => Ret "0xsigned";
  buildTransaction := buildTransaction (Sample.chain false);
  check_call_args := fun _ _ _ _ => None;
  decode_function_input := decode_function_input (Sample.chain false)
|}.

(** A safety net whose gas-price call fails. *)
Definition gate_down : SafetyNet := {|
  get_dynamic_gas_price := fun _ => Raise ClientError
|}.

Definition core_legacy : TransactionCore := core_on legacy_chain Sample.gate.

Definition core_gate_down : TransactionCore := core_on legacy_chain gate_down.

(** A call of the flashloan contract. *)
Definition request : FunctionCall :=
  mkCall Sample.AAVE "fn_RequestFlashLoan" [PStr Sample.WETH; PInt 1000] ∅.

(** The chain as the maintenance operations see it: no code at any
    address, every probe reverts. *)
Definition bare : Auxiliary := {|
  eth_get_code := fun _ _ => Ret (CodeBytes []);
  call_function := fun _ _ _ _ => Failed ContractLogicError;
  chain_id_attribute := PNone;
  from_wei_ether := fun _ => Ret tt;
  parse_int := fun _ => None;
  ETH_TX_GAS_PRICE_MULTIPLIER := (12 # 10);
  DEFAULT_CANCEL_GAS_PRICE_GWEI := 60
|}.

(** The sample swap without an estimated profit. *)
Definition no_profit_tx : Dict := delete "profit" Sample.target_tx.

(** Services that have no prediction, and no volume, to report. *)
Definition monitor_blind : MarketMonitor := {|
  check_market_conditions := fun _ _ => Ret (Some Sample.market);
  predict_price_movement := fun _ _ => Ret None;
  _is_arbitrage_opportunity := fun _ _ => Ret true
|}.

Definition api_no_volume : APIConfig := {|
  get_token_symbol := fun _ _ => Ret (Some "WETH");
  get_real_time_price := fun _ _ => Ret (Some 100%Q);
  get_token_price_data := fun _ _ => Ret (Some [100%Q; 100%Q]);
  get_price_change_24h := fun _ _ => Ret 12%Q;
  get_token_volume := fun _ _ => Ret None
|}.

Definition core_blind : TransactionCore := {|
  web3 := Sample.chain false;
  account_address := account_address Sample.core;
  configuration := Sample.config;
  apiconfig := api_no_volume;
  marketmonitor := monitor_blind;
  noncecore := Sample.nonces;
  safetynet := Sample.gate;
  abiregistry := Sample.registry;
  relays := Sample.relay_net;
  gas_price_multiplier := (11 # 10);
  aave_flashloan := aave_flashloan Sample.core;
  uniswap_router_contract := uniswap_router_contract Sample.core;
  sushiswap_router_contract := sushiswap_router_contract Sample.core;
  parse_float := fun _ => None;
  parse_decimal := fun _ => None;
  np_sqrt := np_sqrt Sample.core
|}.

(** A transaction whose gas price is [None]. *)
Definition unpriced_tx : Dict := <["gasPrice" := PNone]> Sample.good_tx.

(** A plain transfer of 5 wei offered at a gas price of 20, and the same
    without a gas price. *)
Definition transfer_tx : Dict :=
  <["to" := PStr "0xFriend"]> (<["value" := PInt 5]> {[ "gasPrice" := PInt 20 ]}).

Definition free_transfer_tx : Dict :=
  <["to" := PStr "0xFriend"]> {[ "value" := PInt 5 ]}.

(** A flashloan contract that also offers withdrawal and transfer. *)
Definition core_treasury : TransactionCore := {|
  web3 := Sample.chain false;
  account_address := account_address Sample.core;
  configuration := Sample.config;
  apiconfig := apiconfig Sample.core;
  marketmonitor := Sample.monitor;
  noncecore := Sample.nonces;
  safetynet := Sample.gate;
  abiregistry := Sample.registry;
  relays := Sample.relay_net;
  gas_price_multiplier := (11 # 10);
  aave_flashloan := {| address := Sample.AAVE;
                       functions := ["fn_RequestFlashLoan"; "withdrawETH"; "transfer"] |};
  uniswap_router_contract := uniswap_router_contract Sample.core;
  sushiswap_router_contract := sushiswap_router_contract Sample.core;
  parse_float := fun _ => None;
  parse_decimal := fun _ => None;
  np_sqrt := np_sqrt Sample.core
|}.

(** A chain on which the lending pool answers [getReservesList] only, and
    the contract at [Sample.DAI] has code. *)
Definition probed : Auxiliary := {|
  eth_get_code := fun _ a =>
    if String.eqb a Sample.DAI then Ret (CodeBytes [Byte.x60]) else Ret (CodeBytes []);
  call_function := fun _ _ m _ =>
    if String.eqb m "getReservesList" then Answered else Failed ContractLogicError;
  chain_id_attribute := PNone;
  from_wei_ether := fun _ => Ret tt;
  parse_int := fun _ => None;
  ETH_TX_GAS_PRICE_MULTIPLIER := (12 # 10);
  DEFAULT_CANCEL_GAS_PRICE_GWEI := 60
|}.

Definition pool : Contract :=
  {| address := Sample.AAVE; functions := ["admin"; "getReservesList"] |}.

End Scenario.

(** * Properties *)

Ltac unfold_m :=
  unfold bind, ret, raise, try_except, lift, emit, call, settle, handle_error in *.

Lemma count_app p tr1 tr2 : count p (tr1 ++ tr2) = (count p tr1 + count p tr2)%nat.
Proof. unfold count. rewrite List.filter_app, length_app. reflexivity. Qed.

(** ** The bundle submitter *)

Lemma count_snoc p tr ev :
  count p (tr ++ [ev]) = (count p tr + (if p ev then 1 else 0))%nat.
Proof. rewrite count_app. unfold count. simpl. destruct (p ev); reflexivity. Qed.

Lemma count_submit_events p builders evs :
  (forall tx, p (EvSignTransaction tx) = false) ->
  p EvBlockNumber = false ->
  (forall d, p (EvSleep d) = false) ->
  (forall b a t txs bn, p (EvPost b a t txs bn) = false) ->
  Forall (submit_event builders) evs -> count p evs = 0%nat.
Proof.
  intros Hsign Hblock Hsleep Hpost Hall. unfold count.
  induction Hall as [|ev evs Hev _ IH]; [reflexivity|].
  simpl. destruct ev; simpl in Hev; try contradiction;
    rewrite ?Hsign, ?Hblock, ?Hsleep, ?Hpost; exact IH.
Qed.

Lemma submit_event_mono bs1 bs2 ev :
  (forall b, In b bs1 -> In b bs2) -> submit_event bs1 ev -> submit_event bs2 ev.
Proof. intros Hsub. destruct ev; simpl; auto. Qed.

Section SendBundle.

Context (self : TransactionCore).

Lemma accepted_in_app evs1 evs2 :
  accepted_in self (evs1 ++ evs2)
  <-> accepted_in self evs1 \/ accepted_in self evs2.
Proof.
  unfold accepted_in. split.
  - intros (b & a & t & txs & bn & Hin & Hok). apply in_app_or in Hin.
    destruct Hin as [Hin|Hin]; [left | right]; exists b, a, t, txs, bn; split; assumption.
  - intros [(b & a & t & txs & bn & Hin & Hok)|(b & a & t & txs & bn & Hin & Hok)];
      exists b, a, t, txs, bn; (split; [apply in_or_app; auto | assumption]).
Qed.

Lemma not_accepted_without_builders evs :
  Forall (submit_event []) evs -> ~ accepted_in self evs.
Proof.
  intros Hall (b & a & t & txs & bn & Hin & _).
  rewrite List.Forall_forall in Hall. apply (Hall _ Hin).
Qed.

Lemma sign_transaction_events tx s r s' :
  sign_transaction self tx s = (r, s') ->
  trace s' = trace s ++ [EvSignTransaction tx] /\ now s' = S (now s).
Proof.
  unfold sign_transaction. unfold_m.
  destruct (eth_account_sign_transaction _ _ _); [destruct (tx !! "nonce")|];
    intros [= <- <-]; split; reflexivity.
Qed.

Lemma sign_all_events txs : forall s r s',
  sign_all self txs s = (r, s') ->
  exists evs, trace s' = trace s ++ evs /\ Forall (submit_event []) evs.
Proof.
  induction txs as [|tx txs IH]; intros s r s'; simpl.
  - unfold_m. intros [= <- <-]. exists []. rewrite app_nil_r. split; constructor.
  - unfold bind at 1. destruct (sign_transaction self tx s) as [[sg|e] s1] eqn:Hs;
      apply sign_transaction_events in Hs; destruct Hs as [Htr _].
    + unfold bind at 1. destruct (sign_all self txs s1) as [[l|e] s2] eqn:Hl;
        apply IH in Hl; destruct Hl as (evs & Htr2 & Hall);
        unfold_m; intros [= <- <-];
        exists (EvSignTransaction tx :: evs);
        (split; [rewrite Htr2, Htr, <- app_assoc; reflexivity
                | constructor; [exact I | exact Hall]]).
    + intros [= <- <-]. exists [EvSignTransaction tx].
      split; [exact Htr | repeat constructor].
Qed.

Lemma post_loop_spec builder txs bn remaining : forall attempt s,
  exists ok evs s',
    post_loop self builder txs bn remaining attempt s = (Ret ok, s')
    /\ trace s' = trace s ++ evs
    /\ Forall (submit_event [builder]) evs
    /\ (ok = true <-> accepted_in self evs).
Proof.
  induction remaining as [|k IH]; intros attempt s; simpl.
  - exists false, [], s. unfold_m. rewrite app_nil_r. repeat split; try constructor.
    + discriminate.
    + intros (b & a & t & txs' & bn' & [] & _).
  - unfold_m. unfold call_at.
    destruct (post (relays self) (now s) builder txs bn) as [d|e] eqn:Hpost.
    + destruct (d !! "error") as [err|] eqn:Herr; simpl.
      * exists false, [EvPost builder attempt (now s) txs bn]. eexists.
        split; [reflexivity|]. split; [reflexivity|].
        split; [repeat constructor|].
        split; [discriminate|].
        intros (b & a & t & txs' & bn' & [[= <- <- <- <- <-]|[]] & (d' & Hd' & Hnone)).
        rewrite Hpost in Hd'. injection Hd' as <-. congruence.
      * exists true, [EvPost builder attempt (now s) txs bn]. eexists.
        split; [reflexivity|]. split; [reflexivity|].
        split; [repeat constructor|].
        split; [|reflexivity]. intros _.
        exists builder, attempt, (now s), txs, bn. split; [left; reflexivity|].
        exists d. split; assumption.
    + assert (~ accepted_in self [EvPost builder attempt (now s) txs bn]) as Hfirst.
      { intros (b & a & t & txs' & bn' & [[= <- <- <- <- <-]|[]] & (d' & Hd' & _)).
        congruence. }
      destruct e; simpl;
        first
          [ (* the relay is given up *)
            exists false, [EvPost builder attempt (now s) txs bn]; eexists;
            split; [reflexivity|]; split; [reflexivity|];
            split; [repeat constructor|];
            split; [discriminate | intros H; exfalso; exact (Hfirst H)]
          | (* the next attempt is made *)
            destruct (attempt <? MEMPOOL_MAX_RETRIES (configuration self)); simpl;
            match goal with
            | |- context [post_loop self builder txs bn k ?a ?st] =>
                destruct (IH a st) as (ok & evs & s' & Hrun & Htr & Hall & Hiff);
                cbn [trace] in Htr; rewrite <- !app_assoc in Htr;
                exists ok; eexists; exists s'; rewrite Hrun;
                split; [reflexivity|]; split; [exact Htr|];
                split; [repeat (constructor; [simpl; auto|]); exact Hall|];
                rewrite Hiff; split;
                [ intros H; apply (accepted_in_app [_]); right;
                  try (apply (accepted_in_app [_]); right); exact H
                | intros H; apply (accepted_in_app [_]) in H;
                  destruct H as [H|H]; [exfalso; exact (Hfirst H)|];
                  try (apply (accepted_in_app [_]) in H;
                       destruct H as [(b & a0 & t & txs' & bn' & [[=]|[]] & _)|H]);
                  exact H ]
            end ].
Qed.


Lemma builders_loop_spec txs bn builders : forall successes s,
  exists accepted evs s',
    builders_loop self builders txs bn successes s = (Ret (successes ++ accepted), s')
    /\ trace s' = trace s ++ evs
    /\ Forall (submit_event builders) evs
    /\ (accepted <> [] <-> accepted_in self evs).
Proof.
  induction builders as [|b builders IH]; intros successes s; simpl.
  - exists [], [], s. unfold_m. rewrite !app_nil_r. repeat split; try constructor.
    + intros H. contradiction.
    + intros (b & a & t & txs' & bn' & [] & _).
  - unfold bind at 1.
    destruct (post_loop_spec b txs bn
                (Z.to_nat (MEMPOOL_MAX_RETRIES (configuration self))) 1 s)
      as (ok & evs1 & s1 & Hrun & Htr1 & Hall1 & Hiff1).
    rewrite Hrun.
    destruct (IH (if ok then successes ++ [name b] else successes) s1)
      as (l & evs2 & s' & Hl & Htr2 & Hall2 & Hiff2).
    exists ((if ok then [name b] else []) ++ l), (evs1 ++ evs2), s'.
    split; [rewrite Hl; destruct ok; rewrite <- ?app_assoc; reflexivity|].
    split; [rewrite Htr2, Htr1, <- app_assoc; reflexivity|].
    split.
    { apply Forall_app. split.
      - eapply Forall_impl; [exact Hall1|]. intros ev.
        apply submit_event_mono. intros b0 [<-|[]]. left. reflexivity.
      - eapply Forall_impl; [exact Hall2|]. intros ev.
        apply submit_event_mono. intros b0 Hin. right. exact Hin. }
    rewrite accepted_in_app, <- Hiff1, <- Hiff2.
    destruct ok; simpl; split.
    + intros _. left. reflexivity.
    + intros _. discriminate.
    + intros H. right. exact H.
    + intros [H|H]; [discriminate | exact H].
Qed.

(** What [send_bundle] logs and returns: the entry marker, the signing
    and posting events, and a call to [refresh_nonce] exactly when some
    POST was accepted. *)
Lemma send_bundle_events txs s :
  exists r sub tail s',
    send_bundle self txs s = (Ret r, s')
    /\ trace s' = trace s ++ [EvSendBundle txs] ++ sub ++ tail
    /\ Forall (submit_event (MEV_BUILDERS (configuration self))) sub
    /\ ((accepted_in self sub
         /\ tail = [EvRefreshNonce]
         /\ (r = true <->
             refresh_nonce (noncecore self) (Nat.pred (now s')) = Ret tt))
        \/ (~ accepted_in self sub /\ tail = [] /\ r = false)).
Proof.
  unfold send_bundle. unfold bind at 1, emit at 1. unfold try_except, bind at 1.
  destruct (sign_all self txs _) as [[signed|e] s1] eqn:Hsign;
    apply sign_all_events in Hsign; destruct Hsign as (evs0 & Htr0 & Hall0);
    cbn [trace] in Htr0.
  2: { exists false, evs0, [], s1. unfold_m.
       split; [reflexivity|]. rewrite app_nil_r, Htr0, <- app_assoc.
       split; [reflexivity|].
       split; [eapply Forall_impl; [exact Hall0|]; intros ev;
               apply submit_event_mono; intros b []|].
       right. split; [apply not_accepted_without_builders; exact Hall0|].
       split; reflexivity. }
  unfold bind at 1, call at 1.
  destruct (eth_block_number (web3 self) (now s1)) as [bn|e].
  2: { exists false, (evs0 ++ [EvBlockNumber]). eexists [], _. unfold_m.
       split; [reflexivity|]. cbn [trace]. rewrite app_nil_r, Htr0, <- !app_assoc.
       split; [reflexivity|].
       assert (Forall (submit_event []) (evs0 ++ [EvBlockNumber])) as Hall
         by (apply Forall_app; split; [exact Hall0 | repeat constructor]).
       split; [eapply Forall_impl; [exact Hall|]; intros ev;
               apply submit_event_mono; intros b []|].
       right. split; [apply not_accepted_without_builders; exact Hall|].
       split; reflexivity. }
  unfold bind at 1.
  match goal with
  | |- context [builders_loop self ?bs ?t ?n ?acc ?st] =>
      destruct (builders_loop_spec t n bs acc st)
        as (l & evs & s2 & Hl & Htr & Hall & Hiff)
  end.
  rewrite Hl. cbn [app trace] in *.
  assert (Forall (submit_event (MEV_BUILDERS (configuration self)))
            (evs0 ++ [EvBlockNumber] ++ evs)) as Hsub.
  { apply Forall_app. split.
    - eapply Forall_impl; [exact Hall0|]. intros ev.
      apply submit_event_mono. intros b [].
    - constructor; [exact I | exact Hall]. }
  assert (accepted_in self (evs0 ++ [EvBlockNumber] ++ evs)
          <-> l <> []) as Hacc.
  { rewrite Hiff, accepted_in_app, (accepted_in_app [_]). split.
    - intros [H|[H|H]]; [| |exact H].
      + exfalso. exact (not_accepted_without_builders _ Hall0 H).
      + destruct H as (b & a & t & txs' & bn' & [[=]|[]] & _).
    - intros H. right. right. exact H. }
  exists (match l with
          | [] => false
          | _ :: _ => match refresh_nonce (noncecore self) (now s2) with
                      | Ret _ => true
                      | Raise _ => false
                      end
          end), (evs0 ++ [EvBlockNumber] ++ evs),
         (match l with [] => [] | _ :: _ => [EvRefreshNonce] end).
  destruct l as [|n l].
  - exists s2. unfold_m. split; [reflexivity|].
    split; [rewrite Htr, Htr0, app_nil_r, <- !app_assoc; reflexivity|].
    split; [exact Hsub|]. right.
    split; [rewrite Hacc; intros H; apply H; reflexivity | split; reflexivity].
  - eexists _. unfold_m.
    split; [destruct (refresh_nonce (noncecore self) (now s2)); reflexivity|].
    cbn [trace now Nat.pred].
    split; [rewrite Htr, Htr0, <- !app_assoc; reflexivity|].
    split; [exact Hsub|]. left.
    split; [apply Hacc; discriminate|]. split; [reflexivity|].
    destruct (refresh_nonce (noncecore self) (now s2)) as [[]|e];
      split; try reflexivity; discriminate.
Qed.

Lemma send_bundle_enters txs s r s' :
  send_bundle self txs s = (r, s') ->
  count is_send_bundle (trace s') = S (count is_send_bundle (trace s)).
Proof.
  intros Hrun.
  destruct (send_bundle_events txs s)
    as (r0 & sub & tail & s0 & Hrun0 & Htr & Hsub & Htail).
  rewrite Hrun in Hrun0. injection Hrun0 as -> <-.
  rewrite Htr, !count_app.
  rewrite (count_submit_events is_send_bundle _ sub) by (try exact Hsub; reflexivity).
  destruct Htail as [(_ & -> & _)|(_ & -> & _)]; unfold count; simpl; lia.
Qed.

(** C5 (amended).  [send_bundle] never raises.  It returns true if and
    only if at least one POST it made to a configured relay was answered
    without an error and the call to [refresh_nonce] that follows returned
    normally.  [refresh_nonce] is invoked exactly once when some relay
    accepted and not at all otherwise; when no relay accepted the result is
    false.  Only configured relays are contacted. *)
Theorem send_bundle_at_least_one_relay (transactions : list Dict) (s : State) :
  exists r evs s',
    send_bundle self transactions s = (Ret r, s')
    /\ trace s' = trace s ++ evs
    /\ (r = true <->
        accepted_in self evs
        /\ refresh_nonce (noncecore self) (Nat.pred (now s')) = Ret tt)
    /\ (accepted_in self evs -> count is_refresh_nonce evs = 1%nat)
    /\ (~ accepted_in self evs ->
        r = false /\ count is_refresh_nonce evs = 0%nat)
    /\ (forall b a t txs bn,
          In (EvPost b a t txs bn) evs ->
          In b (MEV_BUILDERS (configuration self))).
Proof.
  destruct (send_bundle_events transactions s)
    as (r & sub & tail & s' & Hrun & Htr & Hsub & Htail).
  exists r, ([EvSendBundle transactions] ++ sub ++ tail), s'.
  split; [exact Hrun|]. split; [exact Htr|].
  assert (count is_refresh_nonce sub = 0%nat) as Hquiet
    by (apply (count_submit_events _ _ _) with (5 := Hsub); reflexivity).
  assert (accepted_in self ([EvSendBundle transactions] ++ sub ++ tail)
          <-> accepted_in self sub) as Hsame.
  { rewrite accepted_in_app, accepted_in_app. split.
    - intros [H|[H|H]]; [|exact H|].
      + destruct H as (b & a & t & txs' & bn' & [[=]|[]] & _).
      + destruct Htail as [(_ & -> & _)|(_ & -> & _)];
          destruct H as (b & a & t & txs' & bn' & Hin & _); simpl in Hin;
          repeat destruct Hin as [Hin|Hin]; try discriminate; contradiction.
    - intros H. right. left. exact H. }
  rewrite Hsame, !count_app, Hquiet.
  split; [|split; [|split]].
  - destruct Htail as [(Hacc & _ & Hiff)|(Hno & _ & ->)].
    + rewrite Hiff. tauto.
    + split; [discriminate | tauto].
  - intros Hacc. destruct Htail as [(_ & -> & _)|(Hno & _)]; [reflexivity | tauto].
  - intros Hno. destruct Htail as [(Hacc & _)|(_ & -> & ->)]; [tauto|].
    split; reflexivity.
  - intros b a t txs bn Hin. simpl in Hin. destruct Hin as [Hin|Hin]; [discriminate|].
    apply in_app_or in Hin. destruct Hin as [Hin|Hin].
    + rewrite List.Forall_forall in Hsub. apply (Hsub _ Hin).
    + destruct Htail as [(_ & -> & _)|(_ & -> & _)]; simpl in Hin;
        repeat destruct Hin as [Hin|Hin]; try discriminate; contradiction.
Qed.

End SendBundle.

(** Relay A fails at the transport level on each of its three attempts,
    relay B accepts at its first: the call returns true and the nonce is
    refreshed once. *)
Lemma send_bundle_at_least_one_relay_witness :
  exists s',
    send_bundle Sample.core [Sample.good_tx] Sample.s0 = (Ret true, s')
    /\ count is_refresh_nonce (trace s') = 1%nat
    /\ count is_post (trace s') = 4%nat.
Proof.
  destruct (send_bundle_at_least_one_relay Sample.core [Sample.good_tx] Sample.s0)
    as (r & evs & s' & Hrun & _).
  assert (fst (send_bundle Sample.core [Sample.good_tx] Sample.s0) = Ret r
          /\ snd (send_bundle Sample.core [Sample.good_tx] Sample.s0) = s') as [Hr Hs]
    by (rewrite Hrun; split; reflexivity).
  vm_compute in Hr. injection Hr as <-.
  exists s'. split; [exact Hrun|]. subst s'. split; vm_compute; reflexivity.
Defined.

(** With a nonce service whose refresh raises, relay B accepts the bundle
    (its POST at time 5 is answered without an error) and [send_bundle]
    still returns false. *)
Lemma send_bundle_false_though_accepted :
  let run := send_bundle Sample.core_nonces_down [Sample.good_tx] Sample.s0 in
  fst run = Ret false
  /\ trace (snd run) !! 8%nat
     = Some (EvPost Sample.builder_b 1 5 ["0xsigned"%string] 101)
  /\ ok_response (post (relays Sample.core_nonces_down) 5 Sample.builder_b
                    ["0xsigned"%string] 101)
  /\ accepted_in Sample.core_nonces_down (trace (snd run)).
Proof.
  intros run.
  assert (trace (snd run) !! 8%nat
          = Some (EvPost Sample.builder_b 1 5 ["0xsigned"%string] 101)) as Hev
    by (vm_compute; reflexivity).
  assert (ok_response (post (relays Sample.core_nonces_down) 5 Sample.builder_b
                         ["0xsigned"%string] 101)) as Hok
    by (exists ∅; split; reflexivity).
  split; [vm_compute; reflexivity|]. split; [exact Hev|]. split; [exact Hok|].
  exists Sample.builder_b, 1, 5%nat, ["0xsigned"%string], 101.
  split; [|exact Hok].
  apply list_elem_of_In. eapply list_elem_of_lookup_2. exact Hev.
Qed.


(** ** Simulation before submission *)

Section BundleGate.

Context (self : TransactionCore).

(** A simulation never raises; it performs exactly one read-only call. *)
Lemma simulate_transaction_spec tx s :
  exists b,
    simulate_transaction self tx s =
      (Ret b, mkState (heap s) (trace s ++ [EvEthCall tx]) (S (now s)))
    /\ (b = true <-> exists u, eth_call_pending (web3 self) (now s) tx = Ret u).
Proof.
  unfold simulate_transaction. unfold_m.
  destruct (eth_call_pending (web3 self) (now s) tx) as [u|e] eqn:E.
  - exists true. split; [reflexivity|].
    split; [intros _; exists u; reflexivity | reflexivity].
  - exists false. destruct e; (split; [reflexivity|]);
      (split; [discriminate | intros [u Hu]; discriminate]).
Qed.

Lemma gather_simulations txs : forall s,
  exists sims s1,
    gather (map (simulate_transaction self) txs) s = (Ret sims, s1)
    /\ length sims = length txs
    /\ count is_send_bundle (trace s1) = count is_send_bundle (trace s).
Proof.
  induction txs as [|tx txs IH]; intros s.
  - exists [], s. repeat split.
  - destruct (simulate_transaction_spec tx s) as (b & Hb & _).
    destruct (IH (mkState (heap s) (trace s ++ [EvEthCall tx]) (S (now s))))
      as (sims & s1 & Hg & Hlen & Hcnt).
    exists (Ret b :: sims), s1. simpl. unfold_m. rewrite Hb, Hg.
    repeat split; [simpl; congruence|].
    rewrite Hcnt. simpl. rewrite count_app.
    change (count is_send_bundle [EvEthCall tx]) with 0%nat. lia.
Qed.

(** C1. If the simulation of any member of the bundle returns false or
    raises, [_validate_and_send_bundle] returns false and [send_bundle]
    is not entered.  When every member simulated successfully the result is
    that of [send_bundle], which is entered exactly once.  Hence
    [send_bundle] is entered only when every member simulated
    successfully. *)
Theorem validate_and_send_bundle_gate (transactions : list Dict) (s : State)
    (simulations : list (res bool)) (s1 : State)
    (Hsim : gather (map (simulate_transaction self) transactions) s
            = (Ret simulations, s1)) :
  (existsb simulation_failed simulations = true ->
     _validate_and_send_bundle self transactions s = (Ret false, s1)
     /\ count is_send_bundle (trace s1) = count is_send_bundle (trace s))
  /\ (existsb simulation_failed simulations = false ->
      _validate_and_send_bundle self transactions s = send_bundle self transactions s1
      /\ count is_send_bundle (trace (snd (send_bundle self transactions s1)))
         = S (count is_send_bundle (trace s)))
  /\ (forall r s',
        _validate_and_send_bundle self transactions s = (r, s') ->
        count is_send_bundle (trace s') <> count is_send_bundle (trace s) ->
        Forall (fun x => x = Ret true) simulations).
Proof.
  destruct (gather_simulations transactions s) as (sims & s1' & Hg & _ & Hcnt).
  rewrite Hsim in Hg. injection Hg as <- <-.
  unfold _validate_and_send_bundle. unfold_m. rewrite Hsim.
  destruct (existsb simulation_failed simulations) eqn:Hex.
  - split; [intros _; split; [reflexivity | exact Hcnt]|].
    split; [discriminate|].
    intros r s' [= <- <-] Hne. contradiction.
  - split; [discriminate|]. split.
    + intros _. split; [reflexivity|].
      destruct (send_bundle self transactions s1) as [r s'] eqn:Hrun.
      apply send_bundle_enters in Hrun. cbn [snd]. congruence.
    + intros r s' Hrun _.
      apply List.Forall_forall. intros x Hx.
      destruct x as [[|]|e]; try reflexivity; exfalso;
        (assert (existsb simulation_failed simulations = true) as Habs;
         [apply existsb_exists; eexists; split; [exact Hx | reflexivity]
         | congruence]).
Qed.

End BundleGate.

Lemma validate_and_send_bundle_gate_witness :
  let s1 := snd (gather (map (simulate_transaction Sample.core)
                           [Sample.good_tx; Sample.reverting_tx]) Sample.s0) in
  gather (map (simulate_transaction Sample.core)
            [Sample.good_tx; Sample.reverting_tx]) Sample.s0
    = (Ret [Ret true; Ret false], s1)
  /\ _validate_and_send_bundle Sample.core
       [Sample.good_tx; Sample.reverting_tx] Sample.s0 = (Ret false, s1)
  /\ count is_send_bundle (trace s1) = count is_send_bundle (trace Sample.s0).
Proof.
  intros s1.
  assert (gather (map (simulate_transaction Sample.core)
                    [Sample.good_tx; Sample.reverting_tx]) Sample.s0
          = (Ret [Ret true; Ret false], s1)) as Hsim
    by (vm_compute; reflexivity).
  split; [exact Hsim|].
  apply (validate_and_send_bundle_gate Sample.core _ _ _ _ Hsim).
  reflexivity.
Defined.

(** ** The retry loop *)

Section ExecuteTransaction.

Context (self : TransactionCore).

(** The [try] block of the retry loop never lets an exception out. *)
Lemma execute_attempt_total tx attempt s :
  exists r s', execute_attempt self tx attempt s = (Ret r, s').
Proof.
  unfold execute_attempt, sign_transaction, call_contract_function. unfold_m.
  destruct (eth_account_sign_transaction (web3 self) (now s) tx) as [sg|e].
  - destruct (tx !! "nonce").
    + destruct (eth_send_raw_transaction _ _ _) as [h|e]; [eauto|].
      destruct e; eauto.
    + eauto.
  - destruct e; eauto.
Qed.

Lemma execute_loop_exhausted tx (d : decimal) :
  py_Decimal (parse_decimal self)
    (default (PInt DEFAULT_GAS_PRICE_GWEI) (tx !! "gasPrice")) = Ret d ->
  Qltb (MAX_GAS_PRICE_GWEI (configuration self)) (Dval d) = false ->
  (forall attempt s0, exists s0', execute_attempt self tx attempt s0 = (Ret None, s0')) ->
  forall remaining attempt s,
    exists s', execute_loop self tx remaining attempt s = (Ret None, s').
Proof.
  intros Hd Hle Hfail. induction remaining as [|k IH]; intros attempt s; simpl.
  - eexists. reflexivity.
  - unfold bind at 1. destruct (Hfail attempt s) as [s0 Hs0]. rewrite Hs0.
    unfold_m. rewrite Hd, Hle. apply IH.
Qed.

Lemma execute_loop_total tx (d : decimal) :
  py_Decimal (parse_decimal self)
    (default (PInt DEFAULT_GAS_PRICE_GWEI) (tx !! "gasPrice")) = Ret d ->
  forall remaining attempt s,
    exists r s', execute_loop self tx remaining attempt s = (Ret r, s').
Proof.
  intros Hd. induction remaining as [|k IH]; intros attempt s; simpl.
  - eexists _, _. reflexivity.
  - unfold bind at 1.
    destruct (execute_attempt_total tx attempt s) as (sent & s1 & ->).
    destruct sent as [h|]; [eexists _, _; reflexivity|].
    unfold_m. rewrite Hd.
    destruct (Qltb _ _); [eexists _, _; reflexivity | apply IH].
Qed.

(** C3. When the gas price configured in the transaction exceeds
    [MAX_GAS_PRICE_GWEI], [execute_transaction] returns [None] right after
    the first failed attempt, whatever the number of attempts left: the
    final state is the state that attempt left behind.  When every attempt
    fails and the ceiling is respected, the loop runs out and the result is
    [None].  In no case does an exception leave [execute_transaction]. *)
Theorem execute_transaction_gas_ceiling (tx : Dict) (d : decimal)
    (Hprice : py_Decimal (parse_decimal self)
                (default (PInt DEFAULT_GAS_PRICE_GWEI) (tx !! "gasPrice")) = Ret d) :
  (Qlt (MAX_GAS_PRICE_GWEI (configuration self)) (Dval d) ->
   1 <= MEMPOOL_MAX_RETRIES (configuration self) ->
   forall s s1,
     execute_attempt self tx 1 s = (Ret None, s1) ->
     execute_transaction self tx s = (Ret None, s1))
  /\ (Qle (Dval d) (MAX_GAS_PRICE_GWEI (configuration self)) ->
      (forall attempt s0, exists s0',
          execute_attempt self tx attempt s0 = (Ret None, s0')) ->
      forall s, exists s', execute_transaction self tx s = (Ret None, s'))
  /\ (forall s, exists r s', execute_transaction self tx s = (Ret r, s')).
Proof.
  split; [|split].
  - intros Hgt Hmax s s1 Hfirst. unfold execute_transaction.
    destruct (Z.to_nat (MEMPOOL_MAX_RETRIES (configuration self))) as [|k] eqn:Hk;
      [lia|].
    simpl. unfold bind at 1. rewrite Hfirst. unfold_m. rewrite Hprice.
    assert (Qltb (MAX_GAS_PRICE_GWEI (configuration self)) (Dval d) = true) as ->;
      [|reflexivity].
    unfold Qltb. apply negb_true_iff. apply not_true_is_false.
    intros Hle. apply Qle_bool_iff in Hle. apply Qle_not_lt in Hle. contradiction.
  - intros Hle Hfail s. unfold execute_transaction.
    apply (execute_loop_exhausted tx d Hprice); [|exact Hfail].
    unfold Qltb. apply negb_false_iff. apply Qle_bool_iff. exact Hle.
  - intros s. unfold execute_transaction. apply (execute_loop_total tx d Hprice).
Qed.

End ExecuteTransaction.

Lemma execute_transaction_gas_ceiling_witness :
  (let s1 := snd (execute_attempt Sample.core_unsigned Sample.pricey_tx 1 Sample.s0) in
   execute_transaction Sample.core_unsigned Sample.pricey_tx Sample.s0 = (Ret None, s1)
   /\ count is_sign (trace s1) = 1%nat)
  /\ exists s', execute_transaction Sample.core_unsigned Sample.good_tx Sample.s0
               = (Ret None, s').
Proof.
  split.
  - intros s1. split; [|vm_compute; reflexivity].
    apply (execute_transaction_gas_ceiling Sample.core_unsigned Sample.pricey_tx
             (of_int 500)).
    + reflexivity.
    + vm_compute. reflexivity.
    + vm_compute. discriminate.
    + vm_compute. reflexivity.
  - apply (execute_transaction_gas_ceiling Sample.core_unsigned Sample.good_tx
             (of_int 20)).
    + reflexivity.
    + vm_compute. discriminate.
    + intros attempt s. eexists. reflexivity.
Defined.

(** ** Decimal arithmetic *)

Section DecimalFacts.

Lemma Dval_repr c e : (Dval (mkDec false c e) == inject_Z c * 10 ^ e)%Q.
Proof.
  unfold Dval. simpl. destruct (0 <=? e) eqn:He.
  - apply Z.leb_le in He. rewrite inject_Z_mult, Zpower_Qpower by lia. reflexivity.
  - apply Z.leb_gt in He. rewrite Qmake_Qdiv.
    rewrite Z2Pos.id by (apply Z.pow_pos_nonneg; lia).
    rewrite Zpower_Qpower by lia. 
    replace e with (- - e) at 2 by lia. rewrite (Qpower_opp _ (- e)).
    reflexivity.
Qed.

Lemma to_int_floor c e : to_int (mkDec false c e) = Qfloor (Dval (mkDec false c e)).
Proof.
  unfold to_int, Dval. simpl. destruct (0 <=? e) eqn:He.
  - rewrite Qfloor_Z. reflexivity.
  - apply Z.leb_gt in He. simpl.
    rewrite Z2Pos.id by (apply Z.pow_pos_nonneg; lia). reflexivity.
Qed.

Lemma mul_exact a b :
  ndigits (dcoef a * dcoef b) <= prec ->
  Decimal.mul a b
  = mkDec (xorb (dsign a) (dsign b)) (dcoef a * dcoef b) (dexp a + dexp b).
Proof.
  intros H. unfold Decimal.mul, fix_prec. simpl.
  apply Z.leb_le in H. rewrite H. reflexivity.
Qed.

Lemma flashloan_product p pct :
  dsign p = false -> dsign pct = false ->
  ndigits (dcoef p * dcoef pct) <= prec ->
  to_int (Decimal.mul (Decimal.mul p pct) d1e18)
  = Qfloor (Dval p * Dval pct * 10 ^ 18)%Q.
Proof.
  intros Hp Hq Hd. rewrite (mul_exact p pct Hd). rewrite Hp, Hq.
  destruct p as [sp cp ep], pct as [sq cq eq]. cbn [dsign dcoef dexp xorb] in *. subst.
  rewrite mul_exact; cbn [dsign dcoef dexp xorb d1e18];
    [|rewrite Z.mul_1_r; exact Hd].
  rewrite to_int_floor.
  apply Qfloor_comp.
  rewrite !Dval_repr. rewrite Z.mul_1_r, inject_Z_mult.
  rewrite !Qpower_plus by discriminate. ring.
Qed.

Lemma Dval_of_int_pos z : (0 < Dval (of_int z))%Q <-> 0 < z.
Proof.
  unfold of_int, Dval. cbn [dsign dcoef dexp]. change (0 <=? 0) with true. cbn iota.
  rewrite Z.pow_0_r, Z.mul_1_r.
  destruct (z <? 0) eqn:Hz.
  - apply Z.ltb_lt in Hz. unfold Qlt. simpl. lia.
  - apply Z.ltb_ge in Hz. unfold Qlt. simpl. lia.
Qed.

Lemma Dval_of_float_pos m e : (0 < Dval (of_float m e))%Q <-> 0 < m.
Proof.
  unfold of_float. destruct (0 <=? e) eqn:He.
  - apply Z.leb_le in He. unfold Dval. cbn [dsign dcoef dexp]. change (0 <=? 0) with true.
    cbn iota. rewrite Z.pow_0_r, Z.mul_1_r.
    assert (0 < 2 ^ e) by (apply Z.pow_pos_nonneg; lia).
    destruct (m <? 0) eqn:Hm; [apply Z.ltb_lt in Hm | apply Z.ltb_ge in Hm];
      unfold Qlt; simpl; nia.
  - unfold Dval. cbn [dsign dcoef dexp]. rewrite He. apply Z.leb_gt in He.
    assert (0 < 5 ^ (- e)) by (apply Z.pow_pos_nonneg; lia).
    destruct (m <? 0) eqn:Hm; [apply Z.ltb_lt in Hm | apply Z.ltb_ge in Hm];
      unfold Qlt; simpl; nia.
Qed.

Lemma py_gt0_Decimal parse v b p :
  py_gt0 v = Ret b -> py_Decimal parse v = Ret p ->
  (b = true <-> (0 < Dval p)%Q) /\ (b = true -> dsign p = false).
Proof.
  destruct v as [|c|z|m e|str|l]; simpl; try discriminate.
  - intros [= <-] [= <-]. split.
    + rewrite Dval_of_int_pos. destruct c; split; (lia || discriminate || reflexivity).
    + intros ->. reflexivity.
  - intros [= <-] [= <-]. split.
    + rewrite Dval_of_int_pos. apply Z.ltb_lt.
    + intros H. apply Z.ltb_lt in H. unfold of_int. simpl. apply Z.ltb_ge. lia.
  - intros [= <-] [= <-]. split.
    + rewrite Dval_of_float_pos. apply Z.ltb_lt.
    + intros H. apply Z.ltb_lt in H. unfold of_float.
      destruct (0 <=? e); simpl; apply Z.ltb_ge; lia.
Qed.

End DecimalFacts.

Section Flashloan.

Context (self : TransactionCore).

(** C7 (amended). With [p] the Decimal of the target's estimated profit:
    when the profit is positive, the configured percentage is not
    negative and the product of the two coefficients fits the 28
    significant digits of the Decimal context,
    [calculate_flashloan_amount] returns
    [floor(profit * percentage * 10^18)]; when the profit is not positive
    it returns 0.  A float profit of 2.0 with percentage 0.5 yields
    exactly [10^18].  Whenever the amount is [<= 0], neither
    [prepare_flashloan_transaction] nor [_prepare_flashloan] prepares a
    transaction: both return [None] and leave the state untouched. *)
Theorem calculate_flashloan_amount_spec (target_tx : Dict) (p : decimal) (b : bool)
    (Hgt : py_gt0 (default (PInt 0) (target_tx !! "profit")) = Ret b)
    (Hdec : py_Decimal (parse_decimal self)
              (default (PInt 0) (target_tx !! "profit")) = Ret p)
    (Hfit : b = true ->
            dsign (FLASHLOAN_BACK_RUN_PROFIT_PERCENTAGE (configuration self)) = false
            /\ ndigits (dcoef p
                        * dcoef (FLASHLOAN_BACK_RUN_PROFIT_PERCENTAGE
                                   (configuration self))) <= prec) :
  calculate_flashloan_amount self target_tx
    = Ret (spec_flashloan_amount (Dval p)
             (Dval (FLASHLOAN_BACK_RUN_PROFIT_PERCENTAGE (configuration self))))
  /\ (target_tx !! "profit" = Some (PFloat 1 1) ->
      FLASHLOAN_BACK_RUN_PROFIT_PERCENTAGE (configuration self) = mkDec false 5 (-1) ->
      calculate_flashloan_amount self target_tx = Ret (10 ^ 18))
  /\ (forall asset amount s,
        amount <= 0 ->
        prepare_flashloan_transaction self asset amount s = (Ret None, s))
  /\ (forall asset amount s,
        calculate_flashloan_amount self target_tx = Ret amount ->
        amount <= 0 ->
        _prepare_flashloan self asset target_tx s = (Ret None, s)).
Proof.
  destruct (py_gt0_Decimal _ _ _ _ Hgt Hdec) as [Hpos Hsign].
  split; [|split; [|split]].
  - unfold calculate_flashloan_amount, spec_flashloan_amount.
    rewrite Hgt, Hdec. destruct b.
    + destruct (Hfit eq_refl) as [Hq Hd].
      rewrite (flashloan_product p _ (Hsign eq_refl) Hq Hd).
      assert (Qltb 0 (Dval p) = true) as ->; [|reflexivity].
      unfold Qltb. apply negb_true_iff. apply not_true_is_false.
      intros Hle. apply Qle_bool_iff in Hle. apply Qle_not_lt in Hle.
      apply Hle. apply Hpos. reflexivity.
    + assert (Qltb 0 (Dval p) = false) as ->; [|reflexivity].
      unfold Qltb. apply negb_false_iff. apply Qle_bool_iff.
      apply Qnot_lt_le. intros H. apply Hpos in H. discriminate.
  - intros Hprofit Hpct. unfold calculate_flashloan_amount.
    rewrite Hprofit, Hpct. reflexivity.
  - intros asset amount s Hle. unfold prepare_flashloan_transaction.
    apply Z.leb_le in Hle. rewrite Hle. reflexivity.
  - intros asset amount s Hamt Hle. unfold _prepare_flashloan. unfold_m.
    rewrite Hamt. apply Z.leb_le in Hle. rewrite Hle. reflexivity.
Qed.

End Flashloan.

Lemma calculate_flashloan_amount_spec_witness :
  calculate_flashloan_amount Sample.core Sample.target_tx = Ret (10 ^ 18)
  /\ calculate_flashloan_amount Sample.core Sample.target_tx
     = Ret (spec_flashloan_amount (Dval (of_float 1 1)) (Dval (mkDec false 5 (-1)))).
Proof.
  assert (py_gt0 (default (PInt 0) (Sample.target_tx !! "profit")) = Ret true) as Hgt
    by reflexivity.
  assert (py_Decimal (parse_decimal Sample.core)
            (default (PInt 0) (Sample.target_tx !! "profit")) = Ret (of_float 1 1)) as Hdec
    by reflexivity.
  assert (true = true ->
          dsign (FLASHLOAN_BACK_RUN_PROFIT_PERCENTAGE (configuration Sample.core)) = false
          /\ ndigits (dcoef (of_float 1 1)
                      * dcoef (FLASHLOAN_BACK_RUN_PROFIT_PERCENTAGE
                                 (configuration Sample.core))) <= prec) as Hfit
    by (intros _; split; [reflexivity | vm_compute; discriminate]).
  destruct (calculate_flashloan_amount_spec Sample.core Sample.target_tx
              (of_float 1 1) true Hgt Hdec Hfit) as (Hspec & Hexample & _).
  split; [apply Hexample; reflexivity | exact Hspec].
Defined.

(** The amount is not the floor of the exact product for every float
    profit: at profit 1.0000057415887562 and percentage 0.5 the engine
    returns 500002870794378107 while the floor is 500002870794378106. *)
Lemma calculate_flashloan_amount_not_floor :
  calculate_flashloan_amount Sample.core Sample.odd_profit_tx
    = Ret 500002870794378107
  /\ spec_flashloan_amount (float_val 4503625485187479 (-52))
       (Dval (FLASHLOAN_BACK_RUN_PROFIT_PERCENTAGE (configuration Sample.core)))
     = 500002870794378106
  /\ calculate_flashloan_amount Sample.core Sample.odd_profit_tx
     <> Ret (spec_flashloan_amount (float_val 4503625485187479 (-52))
               (Dval (FLASHLOAN_BACK_RUN_PROFIT_PERCENTAGE
                        (configuration Sample.core)))).
Proof.
  repeat split; try (vm_compute; reflexivity).
  vm_compute. discriminate.
Qed.

(** ** Validation *)

Section Validation.

Context (self : TransactionCore).

Lemma decode_loop_total abi_types method_name selector input_data addr : forall s,
  exists r s', decode_loop self abi_types method_name selector input_data addr s
               = (Ret r, s').
Proof.
  induction abi_types as [|a rest IH]; intros s; simpl.
  - eexists _, _. reflexivity.
  - destruct (to_checksum_address (web3 self) (PStr addr)) as [c|e]; [|apply IH].
    destruct (decode_function_input (web3 self) a c input_data) as [d|e]; [|apply IH].
    unfold_m. unfold alloc. eexists _, _. reflexivity.
Qed.

Lemma decode_transaction_input_total input_data addr s :
  exists r s', decode_transaction_input self input_data addr s = (Ret r, s').
Proof.
  unfold decode_transaction_input. unfold_m.
  destruct input_data; try (eexists _, _; reflexivity).
  destruct (get_method_selector (abiregistry self) _) as [m|];
    [|eexists _, _; reflexivity].
  destruct (String.eqb m ""); [eexists _, _; reflexivity|].
  match goal with
  | |- context [decode_loop self ?a ?b ?c ?d ?e ?st] =>
      destruct (decode_loop_total a b c d e st) as (r & s' & ->)
  end.
  eexists _, _. reflexivity.
Qed.

Lemma invalid_path_false path :
  invalid_path path = false <-> exists l, path = PList l /\ (2 <= length l)%nat.
Proof.
  unfold invalid_path. split.
  - destruct path as [| | | | |l]; simpl; try discriminate;
      try (destruct (negb _); discriminate).
    destruct l as [|a [|b l]]; simpl; try discriminate.
    intros _. eexists. split; [reflexivity | simpl; lia].
  - intros (l & -> & Hl). destruct l as [|a [|b l]]; simpl in *; try lia. reflexivity.
Qed.

Lemma validate_transaction_cases (tx : pyobj) (operation : string)
    (min_value : Q) (s : State) :
  exists r s',
    _validate_transaction self tx operation min_value s = (Ret r, s')
    /\ (r = rejected \/ qualifies self tx min_value s r).
Proof.
  unfold _validate_transaction.
  destruct tx as [d|v]; [|exists rejected, s; split; [reflexivity | left; reflexivity]].
  destruct (forallb _ required_fields) eqn:Hreq; simpl;
    [|exists rejected, s; split; [reflexivity | left; reflexivity]].
  unfold try_except, bind at 1, lift at 1.
  destruct (to_checksum_address (web3 self) (default (PStr "") (d !! "to")))
    as [to_|e] eqn:Hto;
    [|exists rejected, s; split; [reflexivity | left; reflexivity]].
  unfold bind at 1.
  destruct (decode_transaction_input_total (default (PStr "0x") (d !! "input")) to_ s)
    as (dec & s1 & Hdec).
  rewrite Hdec.
  destruct dec as [decoded|];
    [|exists rejected, s1; split; [reflexivity | left; reflexivity]].
  destruct (params decoded) as [l|] eqn:Hparams;
    [|exists rejected, s1; split; [reflexivity | left; reflexivity]].
  unfold bind at 1, deref at 1.
  destruct (invalid_path (default (PList []) (default ∅ (heap s1 !! l) !! "path")))
    eqn:Hpath;
    [exists rejected, s1; split; [reflexivity | left; reflexivity]|].
  apply invalid_path_false in Hpath. destruct Hpath as (path & Hp & Hlen).
  rewrite Hp. cbn [list_of].
  unfold bind at 1, call at 1.
  destruct (get_token_symbol (apiconfig self) (now s1) (default PNone (head path)))
    as [[symbol|]|e] eqn:Hsym; unfold_m;
    try (eexists rejected, _; split; [reflexivity | left; reflexivity]).
  destruct (String.eqb symbol "") eqn:Hne;
    [eexists rejected, _; split; [reflexivity | left; reflexivity]|].
  destruct (py_float (parse_float self) (default (PInt 0) (d !! "value")))
    as [value|e] eqn:Hval;
    [|eexists rejected, _; split; [reflexivity | left; reflexivity]].
  destruct (Qltb value min_value) eqn:Hmin;
    [eexists rejected, _; split; [reflexivity | left; reflexivity]|].
  eexists _, _. split; [reflexivity|]. right.
  exists d, to_, decoded, l, path, symbol, value, s1.
  repeat split; try assumption.
  - intros field Hin.
    rewrite forallb_forall in Hreq. specialize (Hreq field Hin).
    apply bool_decide_eq_true in Hreq. exact Hreq.
  - destruct (default ∅ (heap s1 !! l) !! "path") as [p|] eqn:Hk; simpl in Hp.
    + congruence.
    + injection Hp as <-. simpl in Hlen. lia.
  - intros ->. discriminate.
  - unfold Qltb in Hmin. apply negb_false_iff in Hmin. apply Qle_bool_iff. exact Hmin.
Qed.


End Validation.

(** The three outcomes on the sample deployment: a qualifying swap, an
    input that is not a dict and a dict without [gasPrice]. *)
Example validate_transaction_samples :
  fst (_validate_transaction Sample.core (ODict Sample.target_tx) "front-run" 0 Sample.s0)
    = Ret (true, Some Sample.decoded, Some "WETH"%string)
  /\ _validate_transaction Sample.core Sample.not_a_dict "front-run" 0 Sample.s0
     = (Ret rejected, Sample.s0)
  /\ _validate_transaction Sample.core (ODict Sample.no_gas_price_tx) "front-run" 0 Sample.s0
     = (Ret rejected, Sample.s0).
Proof. repeat split; vm_compute; reflexivity. Qed.

(** ** Back-run preparation *)

Section BackRun.

Context (self : TransactionCore).

Ltac step_oracles :=
  repeat match goal with
         | |- context [match ?x with _ => _ end] =>
             match type of x with
             | res _ => destruct x eqn:?
             | option _ => destruct x eqn:?
             | exn => destruct x
             | pynum => destruct x
             end; cbn [fst snd heap trace now]
         end.

Lemma build_transaction_spec fc s r s' :
  build_transaction self fc ∅ s = (r, s') ->
  heap s' = heap s /\ (forall tx, r = Ret tx -> built_from self fc tx).
Proof.
  unfold build_transaction, _get_dynamic_gas_parameters, estimate_gas_smart.
  unfold_m. unfold built_from.
  step_oracles; intros [= <- <-]; (split; [reflexivity|]);
    intros tx [= <-]; eexists _, _, _, _; (split; [eassumption | reflexivity]).
Qed.

Lemma routers_lookup a rc nm :
  routers self !! a = Some (rc, nm) ->
  rc = uniswap_router_contract self \/ rc = sushiswap_router_contract self.
Proof.
  unfold routers. rewrite lookup_insert. case_decide.
  - intros [= <- <-]. right. reflexivity.
  - rewrite lookup_singleton. case_decide; [|discriminate].
    intros [= <- <-]. left. reflexivity.
Qed.

Lemma build_router_call_spec target_tx fname l s r s' :
  build_router_call self target_tx fname l s = (r, s') ->
  heap s' = heap s
  /\ (forall tx, r = Ret (Some tx) ->
        exists router,
          (Some router = uniswap_router_contract self
           \/ Some router = sushiswap_router_contract self)
          /\ built_from self (mkCall (address router) fname []
                           (default ∅ (heap s !! l))) tx).
Proof.
  unfold build_router_call. unfold bind at 1, lift at 1.
  destruct (to_checksum_address _ _) as [a|e];
    [|intros [= <- <-]; split; [reflexivity | discriminate]].
  destruct (routers self !! a) as [[rc nm]|] eqn:Hr;
    [|intros [= <- <-]; split; [reflexivity | discriminate]].
  destruct rc as [router|];
    [|intros [= <- <-]; split; [reflexivity | discriminate]].
  apply routers_lookup in Hr.
  unfold bind at 1, deref at 1. unfold contract_call.
  destruct (bool_decide _);
    [|intros [= <- <-]; split; [reflexivity | discriminate]].
  destruct (check_call_args _ _ _ _ _) as [e|].
  - destruct e; intros [= <- <-]; (split; [reflexivity | discriminate]).
  - unfold bind at 1.
    destruct (build_transaction self _ ∅ s) as [[tx|e] s1] eqn:Hb;
      apply build_transaction_spec in Hb; destruct Hb as [Hh Hb];
      unfold_m; intros [= <- <-]; (split; [exact Hh|]); [|discriminate].
    intros tx' [= <-]. exists router. split; [|apply Hb; reflexivity].
    destruct Hr as [<-|<-]; [left | right]; reflexivity.
Qed.

(** The effect of one preparation on a decoded call whose parameters hold
    a path of at least two tokens. *)
Lemma prepare_back_run_effect target_tx decoded fname l ps path s :
  function_name decoded = Some fname -> fname <> ""%string ->
  params decoded = Some l ->
  heap s !! l = Some ps ->
  ps !! "path" = Some (PList path) ->
  (2 <= length path)%nat ->
  exists o s',
    _prepare_back_run_transaction self target_tx decoded s = (Ret o, s')
    /\ heap s' = <[l := <["path" := PList (rev path)]> ps]> (heap s)
    /\ (forall tx, o = Some tx ->
          exists router,
            (Some router = uniswap_router_contract self
             \/ Some router = sushiswap_router_contract self)
            /\ built_from self (mkCall (address router) fname []
                             (<["path" := PList (rev path)]> ps)) tx).
Proof.
  intros Hname Hne Hparams Hheap Hpath Hlen.
  unfold _prepare_back_run_transaction, get_params.
  rewrite Hname, Hparams.
  assert (String.eqb fname "" = false) as -> by (apply String.eqb_neq; exact Hne).
  unfold try_except, bind at 1, ret at 1. unfold bind at 1, deref at 1.
  rewrite Hheap. cbn [default from_option id]. rewrite Hpath. cbn [default from_option id].
  assert (invalid_path (PList path) = false) as ->.
  { destruct path as [|a [|b p]]; simpl in *; try lia. reflexivity. }
  unfold bind at 1, setitem at 1. rewrite Hheap. cbn [default from_option id list_of].
  match goal with
  | |- context [build_router_call self target_tx fname l ?st] =>
      destruct (build_router_call self target_tx fname l st) as [[o|e] s1] eqn:Hb;
      apply build_router_call_spec in Hb; destruct Hb as [Hh Hb];
      cbn [heap] in Hh, Hb
  end.
  - exists o, s1. split; [reflexivity|]. split; [exact Hh|].
    intros tx ->. destruct (Hb tx eq_refl) as (router & Hr & Hbuilt).
    exists router. split; [exact Hr|].
    rewrite lookup_insert_eq in Hbuilt. exact Hbuilt.
  - exists None, s1. unfold_m. split; [reflexivity|]. split; [exact Hh | discriminate].
Qed.

(** C6. For a decoded call whose parameters hold a path list of at least
    two tokens, [_prepare_back_run_transaction] never raises, and a
    transaction it returns was built from the router function applied to
    the decoded parameters with [path] replaced by exactly its reverse, the
    other parameters being untouched.  The reverse has the same length and
    the same elements, a path of two tokens has its tokens swapped, and
    reversing twice gives the path back. *)
Theorem back_run_uses_reversed_path (target_tx : Dict) (decoded : DecodedTx)
    (fname : string) (l : nat) (ps : Dict) (path : list pyval) (s : State)
    (Hname : function_name decoded = Some fname) (Hne : fname <> ""%string)
    (Hparams : params decoded = Some l)
    (Hheap : heap s !! l = Some ps)
    (Hpath : ps !! "path" = Some (PList path))
    (Hlen : (2 <= length path)%nat) :
  (exists o s',
     _prepare_back_run_transaction self target_tx decoded s = (Ret o, s')
     /\ forall tx, o = Some tx ->
          exists fc,
            built_from self fc tx
            /\ fc_name fc = fname
            /\ fc_kwargs fc !! "path" = Some (PList (rev path))
            /\ forall k, k <> "path"%string -> fc_kwargs fc !! k = ps !! k)
  /\ length (rev path) = length path
  /\ Permutation path (rev path)
  /\ (forall a b, path = [a; b] -> rev path = [b; a])
  /\ rev (rev path) = path.
Proof.
  split; [|split; [apply length_rev | split; [apply Permutation_rev | split]]].
  - destruct (prepare_back_run_effect target_tx decoded fname l ps path s
                Hname Hne Hparams Hheap Hpath Hlen) as (o & s' & Hrun & _ & Hbuilt).
    exists o, s'. split; [exact Hrun|].
    intros tx Htx. destruct (Hbuilt tx Htx) as (router & _ & Hb).
    eexists. split; [exact Hb|]. cbn [fc_name fc_kwargs].
    split; [reflexivity|]. split; [apply lookup_insert_eq|].
    intros k Hk. apply lookup_insert_ne. congruence.
  - intros a b ->. reflexivity.
  - apply rev_involutive.
Qed.

(** C10. [_prepare_back_run_transaction] overwrites the path inside the
    caller's decoded-parameters dict: once it has returned (with or without
    a transaction) that dict holds the reversed path and every other dict
    object is unchanged.  A second preparation from the same decoded call
    therefore starts from the reversed path: it binds the router function
    to the path in its original order and leaves that order in the dict. *)
Theorem back_run_mutates_decoded_params (target_tx : Dict) (decoded : DecodedTx)
    (fname : string) (l : nat) (ps : Dict) (path : list pyval) (s : State)
    (Hname : function_name decoded = Some fname) (Hne : fname <> ""%string)
    (Hparams : params decoded = Some l)
    (Hheap : heap s !! l = Some ps)
    (Hpath : ps !! "path" = Some (PList path))
    (Hlen : (2 <= length path)%nat) :
  exists o s',
    _prepare_back_run_transaction self target_tx decoded s = (Ret o, s')
    /\ heap s' !! l = Some (<["path" := PList (rev path)]> ps)
    /\ (forall l', l' <> l -> heap s' !! l' = heap s !! l')
    /\ exists o2 s'',
         _prepare_back_run_transaction self target_tx decoded s' = (Ret o2, s'')
         /\ heap s'' !! l = Some (<["path" := PList path]> ps)
         /\ forall tx, o2 = Some tx ->
              exists router,
                built_from self (mkCall (address router) fname []
                                   (<["path" := PList path]> ps)) tx.
Proof.
  destruct (prepare_back_run_effect target_tx decoded fname l ps path s
              Hname Hne Hparams Hheap Hpath Hlen) as (o & s' & Hrun & Hh & _).
  exists o, s'. split; [exact Hrun|].
  assert (heap s' !! l = Some (<["path" := PList (rev path)]> ps)) as Hheap'.
  { rewrite Hh. apply lookup_insert_eq. }
  split; [exact Hheap'|]. split.
  { intros l' Hl'. rewrite Hh. apply lookup_insert_ne. congruence. }
  destruct (prepare_back_run_effect target_tx decoded fname l
              (<["path" := PList (rev path)]> ps) (rev path) s'
              Hname Hne Hparams Hheap') as (o2 & s'' & Hrun2 & Hh2 & Hb2).
  { apply lookup_insert_eq. }
  { rewrite length_rev. exact Hlen. }
  rewrite rev_involutive, insert_insert_eq in Hh2, Hb2.
  exists o2, s''. split; [exact Hrun2|]. split.
  - rewrite Hh2. apply lookup_insert_eq.
  - intros tx Htx. destruct (Hb2 tx Htx) as (router & _ & Hb). exists router. exact Hb.
Qed.

End BackRun.

Lemma back_run_uses_reversed_path_witness :
  exists tx s',
    _prepare_back_run_transaction Sample.core Sample.target_tx Sample.decoded
      Sample.s_decoded = (Ret (Some tx), s')
    /\ exists fc,
         built_from Sample.core fc tx
         /\ fc_kwargs fc !! "path"
            = Some (PList [PStr Sample.DAI; PStr Sample.WETH]).
Proof.
  destruct (back_run_uses_reversed_path Sample.core Sample.target_tx Sample.decoded
              "swapExactTokensForTokens" 0%nat Sample.swap_params
              [PStr Sample.WETH; PStr Sample.DAI] Sample.s_decoded)
    as ((o & s' & Hrun & Hbuilt) & _).
  { reflexivity. }
  { discriminate. }
  { reflexivity. }
  { vm_compute. reflexivity. }
  { vm_compute. reflexivity. }
  { vm_compute. lia. }
  assert (exists tx, o = Some tx) as [tx ->].
  { assert (fst (_prepare_back_run_transaction Sample.core Sample.target_tx
                   Sample.decoded Sample.s_decoded) = Ret o) as Ho
      by (rewrite Hrun; reflexivity).
    vm_compute in Ho. injection Ho as <-. eexists. reflexivity. }
  exists tx, s'. split; [exact Hrun|].
  destruct (Hbuilt tx eq_refl) as (fc & Hfc & _ & Hp & _).
  exists fc. split; [exact Hfc | exact Hp].
Defined.

Lemma back_run_mutates_decoded_params_witness :
  exists o s',
    _prepare_back_run_transaction Sample.core Sample.target_tx Sample.decoded
      Sample.s_decoded = (Ret o, s')
    /\ heap s' !! 0%nat
       = Some (<["path" := PList [PStr Sample.DAI; PStr Sample.WETH]]> Sample.swap_params).
Proof.
  destruct (back_run_mutates_decoded_params Sample.core Sample.target_tx Sample.decoded
              "swapExactTokensForTokens" 0%nat Sample.swap_params
              [PStr Sample.WETH; PStr Sample.DAI] Sample.s_decoded)
    as (o & s' & Hrun & Hheap & _).
  { reflexivity. }
  { discriminate. }
  { reflexivity. }
  { vm_compute. reflexivity. }
  { vm_compute. reflexivity. }
  { vm_compute. lia. }
  exists o, s'. split; [exact Hrun | exact Hheap].
Defined.

(** ** Scoring *)

Lemma opportunity_score_decompose pc v mc cp hp :
  _calculate_opportunity_score pc v mc cp hp =
  match _calculate_opportunity_score 0 v mc cp hp with
  | Ret base => Ret (base + price_change_band pc)
  | Raise e => Raise e
  end.
Proof.
  unfold _calculate_opportunity_score, price_change_band.
  change (Qltb 5 0) with false. change (Qltb 3 0) with false.
  change (Qltb 1 0) with false. change (Qltb (1 # 2) 0) with false. cbv iota.
  destruct mc as [mc|]; [|reflexivity].
  repeat match goal with
         | |- context [if ?c then _ else _] => destruct c
         | |- context [match nonempty ?h with _ => _ end] => destruct (nonempty h)
         end; try reflexivity; f_equal; lia.
Qed.

Lemma Qltb_true x y : Qltb x y = true <-> (x < y)%Q.
Proof.
  unfold Qltb. rewrite negb_true_iff. split.
  - intros H. apply Qnot_le_lt. intros Hle. apply Qle_bool_iff in Hle. congruence.
  - intros H. apply not_true_is_false. intros Hle. apply Qle_bool_iff in Hle. lra.
Qed.

Lemma Qltb_false x y : Qltb x y = false <-> (y <= x)%Q.
Proof.
  unfold Qltb. rewrite negb_false_iff. apply Qle_bool_iff.
Qed.

Ltac band_cases :=
  unfold price_change_band;
  repeat match goal with
         | |- context [Qltb ?a ?b] =>
             let H := fresh "H" in
             destruct (Qltb a b) eqn:H;
             [apply Qltb_true in H | apply Qltb_false in H]
         end.

Lemma price_change_band_mono pc1 pc2 :
  (pc1 <= pc2)%Q -> price_change_band pc1 <= price_change_band pc2.
Proof. intros Hle. band_cases; solve [lia | exfalso; lra]. Qed.

Lemma price_change_band_values pc :
  ((5 < pc)%Q -> price_change_band pc = 40)
  /\ ((3 < pc)%Q /\ (pc <= 5)%Q -> price_change_band pc = 30)
  /\ ((1 < pc)%Q /\ (pc <= 3)%Q -> price_change_band pc = 20)
  /\ ((1 # 2 < pc)%Q /\ (pc <= 1)%Q -> price_change_band pc = 10)
  /\ ((pc <= 1 # 2)%Q -> price_change_band pc = 0).
Proof.
  repeat split; intros H; band_cases; solve [reflexivity | exfalso; lra].
Qed.



(** ** Strategy variants *)

Section Variants.

Context (self : TransactionCore).

Lemma validated_has_to target_tx operation min_value s decoded symbol s1 :
  _validate_transaction self (ODict target_tx) operation min_value s
    = (Ret (true, decoded, symbol), s1) ->
  (exists to_, target_tx !! "to" = Some to_) /\ exists sym, symbol = Some sym.
Proof.
  intros Hrun.
  destruct (validate_transaction_cases self (ODict target_tx) operation min_value s)
    as (r & s' & Hrun' & Hcases).
  rewrite Hrun in Hrun'. injection Hrun' as <- <-.
  destruct Hcases as [Hrej|Hq]; [discriminate|].
  destruct Hq as (d & to_ & dec & l & path & sym & value & s2 & [= <-] & Hreq & _ & _
                  & _ & _ & _ & _ & _ & _ & _ & Heq).
  injection Heq as -> ->.
  split; [|eexists; reflexivity].
  apply (Hreq "to"%string). simpl. tauto.
Qed.

Lemma try_except_false_total (m : M bool) (fn : string) s :
  exists r s',
    try_except m (fun e => let* _ := handle_error e fn in ret false) s = (Ret r, s').
Proof.
  unfold_m. destruct (m s) as [[b|e] s1]; eexists _, _; reflexivity.
Qed.

(** The three base strategies keep the promise: nothing escapes them. *)
Lemma base_strategies_never_raise target_tx strategy s :
  (exists r s', front_run self target_tx s = (Ret r, s'))
  /\ (exists r s', back_run self target_tx s = (Ret r, s'))
  /\ (exists r s', execute_sandwich_attack self target_tx strategy s = (Ret r, s')).
Proof.
  unfold front_run, back_run, execute_sandwich_attack.
  repeat split;
    match goal with
    | |- context [_validate_transaction self ?tx ?op ?mv] =>
        unfold bind at 1;
        destruct (validate_transaction_cases self tx op mv s)
          as ([[valid decoded] symbol] & s1 & -> & _)
    end;
    (destruct valid; cbn [negb];
     [apply try_except_false_total | eexists _, _; reflexivity]).
Qed.

(** C2 (the code at the failing input).  Whenever the target transaction
    passes validation, [aggressive_front_run] raises: the value returned by
    [_calculate_risk_score] is [None], and unpacking it into
    [risk_score, market_conditions] is a [TypeError] that no handler
    catches.  (Should the 24h price-change lookup itself raise, that
    exception escapes instead.) *)
Theorem aggressive_front_run_raises (target_tx : Dict) (s : State)
    (decoded : option DecodedTx) (symbol : option string) (s1 : State)
    (Hvalid : _validate_transaction self (ODict target_tx) "front_run"
                (AGGRESSIVE_FRONT_RUN_MIN_VALUE_ETH (configuration self)) s
              = (Ret (true, decoded, symbol), s1)) :
  exists e,
    aggressive_front_run self target_tx s
      = (Raise e,
         mkState (heap s1) (trace s1 ++ [EvPriceChange24h (default "" symbol)])
                 (S (now s1)))
    /\ (forall price_change,
          get_price_change_24h (apiconfig self) (now s1) (default "" symbol)
            = Ret price_change -> e = TypeError).
Proof.
  unfold aggressive_front_run. unfold bind at 1. rewrite Hvalid. cbn [negb].
  unfold_m. unfold _calculate_risk_score. unfold_m.
  destruct (get_price_change_24h _ _ _) as [pc|e].
  - exists TypeError. split; [reflexivity | reflexivity].
  - exists e. split; [reflexivity | discriminate].
Qed.

(** [flashloan_back_run] raises on every input: it awaits the int returned
    by the synchronous [calculate_flashloan_amount]. *)
Lemma flashloan_back_run_raises target_tx s :
  exists e, flashloan_back_run self target_tx s = (Raise e, s).
Proof.
  unfold flashloan_back_run. unfold_m.
  destruct (calculate_flashloan_amount self target_tx); eexists; reflexivity.
Qed.

(** C8 (amended).  Once the target has passed validation,
    [predictive_front_run] returns false when any of its four gathered calls
    raises or when the predicted or the current price is [None], and
    [volatility_front_run] returns false when any of its three gathered
    calls raises.  In both cases nothing happens after the gathered calls:
    [front_run] is not entered. *)
Theorem gathered_failure_rejects (target_tx : Dict) (s : State)
    (decoded : option DecodedTx) (symbol : string) (to_ : pyval) (s1 : State)
    (Hvalid : _validate_transaction self (ODict target_tx) "front_run" 0 s
              = (Ret (true, decoded, Some symbol), s1))
    (Hto : target_tx !! "to" = Some to_) :
  let t := now s1 in
  (raises (predict_price_movement (marketmonitor self) t symbol)
   \/ raises (get_real_time_price (apiconfig self) (S t) symbol)
   \/ raises (check_market_conditions (marketmonitor self) (S (S t)) to_)
   \/ raises (get_token_price_data (apiconfig self) (S (S (S t))) symbol)
   \/ predict_price_movement (marketmonitor self) t symbol = Ret None
   \/ get_real_time_price (apiconfig self) (S t) symbol = Ret None ->
   predictive_front_run self target_tx s
     = (Ret false,
        after_calls s1 [EvPredictPriceMovement symbol; EvRealTimePrice symbol;
                        EvCheckMarketConditions to_; EvTokenPriceData symbol]))
  /\ (raises (check_market_conditions (marketmonitor self) t to_)
      \/ raises (get_real_time_price (apiconfig self) (S t) symbol)
      \/ raises (get_token_price_data (apiconfig self) (S (S t)) symbol) ->
      volatility_front_run self target_tx s
        = (Ret false,
           after_calls s1 [EvCheckMarketConditions to_; EvRealTimePrice symbol;
                           EvTokenPriceData symbol])).
Proof.
  intros t. subst t. split.
  - intros H. unfold predictive_front_run. unfold bind at 1. rewrite Hvalid. cbn [negb].
    unfold tx_to. rewrite Hto. unfold_m. cbn [default from_option id heap trace now].
    unfold after_calls. cbn [length Nat.add]. rewrite <- !app_assoc. cbn [app].
    destruct (predict_price_movement _ _ _) as [[p|]|e1];
      destruct (get_real_time_price _ _ _) as [[c|]|e2];
      destruct (check_market_conditions _ _ _) as [mc|e3];
      destruct (get_token_price_data _ _ _) as [hp|e4];
      try reflexivity;
      exfalso; destruct H as [[e H]|[[e H]|[[e H]|[[e H]|[H|H]]]]]; discriminate.
  - intros H. unfold volatility_front_run. unfold bind at 1. rewrite Hvalid. cbn [negb].
    unfold tx_to. rewrite Hto. unfold_m. cbn [default from_option id heap trace now].
    unfold after_calls. cbn [length Nat.add]. rewrite <- !app_assoc. cbn [app].
    destruct (check_market_conditions _ _ _) as [mc|e3];
      destruct (get_real_time_price _ _ _) as [c|e2];
      destruct (get_token_price_data _ _ _) as [hp|e4];
      try reflexivity;
      exfalso; destruct H as [[e H]|[[e H]|[e H]]]; discriminate.
Qed.

End Variants.

Lemma aggressive_front_run_raises_witness :
  fst (aggressive_front_run Sample.core Sample.target_tx Sample.s0) = Raise TypeError.
Proof.
  destruct (aggressive_front_run_raises Sample.core Sample.target_tx Sample.s0
              (Some Sample.decoded) (Some "WETH"%string)
              (snd (_validate_transaction Sample.core (ODict Sample.target_tx)
                      "front_run" 0 Sample.s0)))
    as (e & Hrun & Htype).
  - vm_compute. reflexivity.
  - rewrite Hrun. cbn [fst]. f_equal. apply (Htype 12%Q). reflexivity.
Defined.

Lemma gathered_failure_rejects_witness :
  fst (predictive_front_run Sample.core_api_down Sample.target_tx Sample.s0) = Ret false
  /\ fst (volatility_front_run Sample.core_api_down Sample.target_tx Sample.s0) = Ret false
  /\ fst (predictive_front_run Sample.core_no_price Sample.target_tx Sample.s0) = Ret false.
Proof.
  destruct (gathered_failure_rejects Sample.core_api_down Sample.target_tx Sample.s0
              (Some Sample.decoded) "WETH" (PStr Sample.UNISWAP)
              (snd (_validate_transaction Sample.core_api_down (ODict Sample.target_tx)
                      "front_run" 0 Sample.s0)))
    as [Hpred Hvol]; [vm_compute; reflexivity | reflexivity |].
  destruct (gathered_failure_rejects Sample.core_no_price Sample.target_tx Sample.s0
              (Some Sample.decoded) "WETH" (PStr Sample.UNISWAP)
              (snd (_validate_transaction Sample.core_no_price (ODict Sample.target_tx)
                      "front_run" 0 Sample.s0)))
    as [Hnone _]; [vm_compute; reflexivity | reflexivity |].
  split; [|split].
  - rewrite Hpred; [reflexivity|].
    right. right. right. left. exists ClientError. reflexivity.
  - rewrite Hvol; [reflexivity|].
    right. right. exists ClientError. reflexivity.
  - rewrite Hnone; [reflexivity|].
    right. right. right. right. right. reflexivity.
Defined.

(** A gathered call that returns [None] does not always stop the trade.
    With no price history, [predictive_front_run] scores the remaining
    signals and submits a bundle; with no current price,
    [volatility_front_run] does the same. *)
Lemma absent_signal_still_trades :
  (get_token_price_data (apiconfig Sample.core_no_history) 4 "WETH" = Ret None
   /\ fst (predictive_front_run Sample.core_no_history Sample.target_tx Sample.s0)
      = Ret true
   /\ count is_send_bundle
        (trace (snd (predictive_front_run Sample.core_no_history Sample.target_tx
                       Sample.s0))) = 1%nat)
  /\ (get_real_time_price (apiconfig Sample.core_no_price) 2 "WETH" = Ret None
      /\ fst (volatility_front_run Sample.core_no_price Sample.target_tx Sample.s0)
         = Ret true
      /\ count is_send_bundle
           (trace (snd (volatility_front_run Sample.core_no_price Sample.target_tx
                          Sample.s0))) = 1%nat).
Proof. repeat split; vm_compute; reflexivity. Qed.

(** * Further properties *)

(** Case analysis on every oracle answer met in the goal. *)
Ltac run_oracles :=
  repeat match goal with
         | |- context [match ?x with _ => _ end] =>
             match type of x with
             | res _ => destruct x eqn:?
             | option _ => destruct x eqn:?
             | exn => destruct x
             | pynum => destruct x
             end; cbn [fst snd heap trace now]
         end.

Lemma count_nil p : count p [] = 0%nat.
Proof. reflexivity. Qed.

Lemma count_cons p ev tr :
  count p (ev :: tr) = ((if p ev then 1 else 0) + count p tr)%nat.
Proof. unfold count. simpl. destruct (p ev); reflexivity. Qed.

(** ** Gas parameters and the transaction builder *)

Section GasModel.

Context (self : TransactionCore).

(** A gas price is handed back only for an int or float answer of the
    safety net: it is that answer, scaled and converted to wei. *)
Lemma dynamic_gas_parameters_ret s gas_params s' :
  _get_dynamic_gas_parameters self s = (Ret gas_params, s') ->
  exists gwei wei,
    (get_dynamic_gas_price (safetynet self) (now s) = Ret (NFloat gwei)
     \/ exists z, get_dynamic_gas_price (safetynet self) (now s) = Ret (NInt z)
                  /\ gwei = inject_Z z)
    /\ to_wei_gwei (web3 self) (gwei * gas_price_multiplier self) = Ret wei
    /\ gas_params = {[ "gasPrice" := PInt wei ]}.
Proof.
  unfold _get_dynamic_gas_parameters. unfold handle_error. unfold_m.
  destruct (get_dynamic_gas_price (safetynet self) (now s)) as [x|e]; simpl.
  - destruct x as [z|q|d]; simpl; try discriminate;
      destruct (to_wei_gwei _ _) as [wei|e] eqn:Hwei; intros [= <- <-];
      eexists _, _; (split; [|split; [exact Hwei | reflexivity]]).
    + right. eexists. split; reflexivity.
    + left. reflexivity.
  - discriminate.
Qed.

(** X1. The default gas price of [_get_dynamic_gas_parameters] is never
    used.  When the safety net's price call raises, the handler sets the
    price to [Decimal(50)], and the product of that Decimal with the float
    multiplier is a [TypeError]; the same happens when the safety net
    answers with a Decimal.  Hence whenever a gas price is handed back, the
    safety net answered with an int or a float. *)
Theorem dynamic_gas_price_no_fallback (s : State) :
  (raises (get_dynamic_gas_price (safetynet self) (now s))
   \/ (exists d, get_dynamic_gas_price (safetynet self) (now s) = Ret (NDec d)) ->
   _get_dynamic_gas_parameters self s
   = (Raise TypeError,
      mkState (heap s) (trace s ++ [EvDynamicGasPrice]) (S (now s))))
  /\ (forall gas_params s',
        _get_dynamic_gas_parameters self s = (Ret gas_params, s') ->
        exists x,
          get_dynamic_gas_price (safetynet self) (now s) = Ret x
          /\ (forall d, x <> NDec d)
          /\ exists wei, gas_params = {[ "gasPrice" := PInt wei ]}).
Proof.
  split.
  - unfold _get_dynamic_gas_parameters. unfold handle_error. unfold_m.
    intros [[e He]|[d Hd]].
    + rewrite He. reflexivity.
    + rewrite Hd. reflexivity.
  - intros gas_params s' Hrun.
    destruct (dynamic_gas_parameters_ret _ _ _ Hrun)
      as (gwei & wei & [Hx|(z & Hx & _)] & _ & ->);
      eexists; (split; [exact Hx|]); (split; [discriminate|]);
      exists wei; reflexivity.
Qed.

(** The parameters every build starts from. *)
Lemma build_transaction_run fc extra s tx s' :
  build_transaction self fc extra s = (Ret tx, s') ->
  exists chain_id block nonce tx_params t built estimated_gas,
    eth_chain_id (web3 self) (now s) = Ret chain_id
    /\ eth_get_block_latest (web3 self) (S (now s)) = Ret block
    /\ get_nonce (noncecore self) (S (S (now s))) = Ret nonce
    /\ (let base : Dict :=
          <["from" := PStr (account_address self)]>
            (<["nonce" := PInt nonce]> {[ "chainId" := PInt chain_id ]}) in
        match baseFeePerGas block with
        | Some base_fee =>
            exists priority_fee,
              eth_max_priority_fee (web3 self) (S (S (S (now s)))) = Ret priority_fee
              /\ tx_params = <["maxPriorityFeePerGas" := PInt priority_fee]>
                               (<["maxFeePerGas" := PInt (base_fee * 2)]> base)
        | None =>
            exists gas_price, tx_params = {[ "gasPrice" := PInt gas_price ]} ∪ base
        end)
    /\ buildTransaction (web3 self) t fc tx_params = Ret built
    /\ (eth_estimate_gas (web3 self) (S t) (extra ∪ built) = Ret estimated_gas
        \/ (raises (eth_estimate_gas (web3 self) (S t) (extra ∪ built))
            /\ estimated_gas = DEFAULT_GAS_LIMIT))
    /\ tx = <["gas" := PInt (pad_gas estimated_gas)]> (extra ∪ built).
Proof.
  unfold build_transaction, _get_dynamic_gas_parameters, estimate_gas_smart.
  unfold handle_error. unfold_m.
  destruct (eth_chain_id (web3 self) (now s)) as [chain_id|e] eqn:Hc;
    cbn [heap trace now]; [|discriminate].
  destruct (eth_get_block_latest (web3 self) (S (now s))) as [block|e] eqn:Hb;
    cbn [heap trace now]; [|discriminate].
  destruct (get_nonce (noncecore self) (S (S (now s)))) as [nonce|e] eqn:Hn;
    cbn [heap trace now]; [|discriminate].
  destruct (baseFeePerGas block) as [base_fee|] eqn:Hfee; cbn [heap trace now].
  - destruct (eth_max_priority_fee (web3 self) (S (S (S (now s)))))
      as [priority_fee|e] eqn:Hp; cbn [heap trace now]; [|discriminate].
    destruct (buildTransaction (web3 self) _ fc _) as [built|e] eqn:Hbuilt;
      cbn [heap trace now]; [|discriminate].
    destruct (eth_estimate_gas (web3 self) _ _) as [g|e] eqn:Hg; cbn [heap trace now].
    + intros [= <- <-].
      eexists chain_id, block, nonce, _, _, built, g.
      rewrite ?Hfee. repeat split; try eassumption; try reflexivity.
      * exists priority_fee. split; reflexivity.
      * left. exact Hg.
    + destruct e; intros [= <- <-];
        eexists chain_id, block, nonce, _, _, built, DEFAULT_GAS_LIMIT;
        rewrite ?Hfee; (repeat split; try eassumption; try reflexivity);
        try (exists priority_fee; split; reflexivity);
        right; (split; [eexists; exact Hg | reflexivity]).
  - destruct (get_dynamic_gas_price (safetynet self) _) as [x|e] eqn:Hx;
      cbn [heap trace now].
    + destruct (py_mul_float x _) as [scaled|e] eqn:Hs; cbn [heap trace now];
        [|discriminate].
      destruct (to_wei_gwei (web3 self) scaled) as [wei|e] eqn:Hw; cbn [heap trace now];
        [|discriminate].
      destruct (buildTransaction (web3 self) _ fc _) as [built|e] eqn:Hbuilt;
        cbn [heap trace now]; [|discriminate].
      destruct (eth_estimate_gas (web3 self) _ _) as [g|e] eqn:Hg; cbn [heap trace now].
      * intros [= <- <-].
        eexists chain_id, block, nonce, _, _, built, g.
        rewrite ?Hfee. repeat split; try eassumption; try reflexivity.
        -- exists wei. reflexivity.
        -- left. exact Hg.
      * destruct e; intros [= <- <-];
          eexists chain_id, block, nonce, _, _, built, DEFAULT_GAS_LIMIT;
          rewrite ?Hfee; (repeat split; try eassumption; try reflexivity);
          try (exists wei; reflexivity);
          right; (split; [eexists; exact Hg | reflexivity]).
    + discriminate.
Qed.


(** X3. Every built transaction starts from the chain id, a nonce fetched
    for this build and the engine's own address.  On a chain whose latest
    block carries a base fee the fee fields are [maxFeePerGas], twice the
    base fee, and [maxPriorityFeePerGas], with no [gasPrice]; otherwise
    the only fee field is [gasPrice]. *)
Theorem build_transaction_fee_model (fc : FunctionCall) (extra : Dict)
    (s : State) (tx : Dict) (s' : State)
    (Hrun : build_transaction self fc extra s = (Ret tx, s')) :
  exists chain_id block nonce t tx_params built,
    eth_chain_id (web3 self) (now s) = Ret chain_id
    /\ eth_get_block_latest (web3 self) (S (now s)) = Ret block
    /\ get_nonce (noncecore self) (S (S (now s))) = Ret nonce
    /\ buildTransaction (web3 self) t fc tx_params = Ret built
    /\ tx_params !! "chainId" = Some (PInt chain_id)
    /\ tx_params !! "nonce" = Some (PInt nonce)
    /\ tx_params !! "from" = Some (PStr (account_address self))
    /\ match baseFeePerGas block with
       | Some base_fee =>
           tx_params !! "maxFeePerGas" = Some (PInt (base_fee * 2))
           /\ (exists priority_fee,
                 eth_max_priority_fee (web3 self) (S (S (S (now s)))) = Ret priority_fee
                 /\ tx_params !! "maxPriorityFeePerGas" = Some (PInt priority_fee))
           /\ tx_params !! "gasPrice" = None
       | None =>
           tx_params !! "maxFeePerGas" = None
           /\ tx_params !! "maxPriorityFeePerGas" = None
           /\ exists gas_price, tx_params !! "gasPrice" = Some (PInt gas_price)
       end.
Proof.
  destruct (build_transaction_run fc extra s tx s' Hrun)
    as (chain_id & block & nonce & tx_params & t & built & g & Hc & Hb & Hn & Hfees
        & Hbuilt & _ & _).
  exists chain_id, block, nonce, t, tx_params, built.
  repeat (split; [assumption|]).
  cbv zeta in Hfees. destruct (baseFeePerGas block) as [base_fee|].
  - destruct Hfees as (priority_fee & Hp & ->).
    repeat split; try reflexivity.
    exists priority_fee. split; [exact Hp | reflexivity].
  - destruct Hfees as (gas_price & ->).
    repeat split; try reflexivity.
    exists gas_price. reflexivity.
Qed.


End GasModel.

Lemma dynamic_gas_price_no_fallback_witness :
  fst (_get_dynamic_gas_parameters Scenario.core_gate_down Sample.s0) = Raise TypeError.
Proof.
  destruct (dynamic_gas_price_no_fallback Scenario.core_gate_down Sample.s0) as [H _].
  rewrite H; [reflexivity|]. left. exists ClientError. reflexivity.
Defined.


(** On the sample chain, whose blocks carry a base fee of 30, the
    parameters handed to [buildTransaction] offer at most 60 per gas. *)
Lemma build_transaction_fee_model_witness :
  exists tx,
    fst (build_transaction Sample.core Scenario.request ∅ Sample.s0) = Ret tx
    /\ exists t (tx_params built : Dict),
         buildTransaction (web3 Sample.core) t Scenario.request tx_params = Ret built
         /\ tx_params !! "maxFeePerGas" = Some (PInt 60)
         /\ tx_params !! "gasPrice" = None.
Proof.
  destruct (build_transaction Sample.core Scenario.request ∅ Sample.s0)
    as [[tx|e] s'] eqn:Hrun; [|vm_compute in Hrun; discriminate].
  exists tx. split; [reflexivity|].
  destruct (build_transaction_fee_model Sample.core _ _ _ _ _ Hrun)
    as (chain_id & block & nonce & t & tx_params & built & _ & Hb & _ & Hbuilt & _ & _ & _
        & Hfees).
  exists t, tx_params, built. split; [exact Hbuilt|].
  vm_compute in Hb. injection Hb as <-.
  destruct Hfees as (Hmax & _ & Hnone). split; [exact Hmax | exact Hnone].
Defined.


(** ** Calldata decoding *)

Section Decoding.

Context (self : TransactionCore).

Lemma decode_loop_first_match method_name selector input_data addr :
  forall abi_types s,
  exists r,
    (r = None
     /\ decode_loop self abi_types method_name selector input_data addr s = (Ret None, s))
    \/ (exists pre abi post checksum decoded_params,
          abi_types = pre ++ abi :: post
          /\ to_checksum_address (web3 self) (PStr addr) = Ret checksum
          /\ decode_function_input (web3 self) abi checksum input_data
             = Ret decoded_params
          /\ Forall (fun a => raises (decode_function_input (web3 self) a checksum
                                        input_data)) pre
          /\ r = Some {| function_name := Some method_name;
                         params := Some (fresh (dom (heap s)));
                         signature := selector;
                         abi_type := abi |}
          /\ decode_loop self abi_types method_name selector input_data addr s
             = (Ret r,
                mkState (<[fresh (dom (heap s)) := decoded_params]> (heap s))
                        (trace s) (now s))).
Proof.
  induction abi_types as [|a rest IH]; intros s; simpl.
  - exists None. left. split; reflexivity.
  - destruct (to_checksum_address (web3 self) (PStr addr)) as [c|e] eqn:Hc.
    + destruct (decode_function_input (web3 self) a c input_data) as [ps|e] eqn:Hd.
      * eexists. right. exists [], a, rest, c, ps.
        repeat split; try reflexivity; try assumption. constructor.
      * destruct (IH s) as (r & [[-> Hrun]|Hsome]).
        -- exists None. left. split; [reflexivity | exact Hrun].
        -- destruct Hsome as (pre & abi & post & c' & ps & -> & [= <-] & Hps & Hpre
                              & -> & Hrun).
           eexists. right. exists (a :: pre), abi, post, c, ps.
           repeat split; try reflexivity; try assumption.
           constructor; [exists e; exact Hd | exact Hpre].
    + destruct (IH s) as (r & [[-> Hrun]|Hsome]).
      * exists None. left. split; [reflexivity | exact Hrun].
      * destruct Hsome as (pre & abi & post & c' & ps & _ & [=] & _).
Qed.

(** The two ways a decoding ends. *)
Lemma decode_transaction_input_cases input_data contract_address s :
  decode_transaction_input self input_data contract_address s = (Ret None, s)
  \/ exists input method_name pre abi post checksum decoded_params,
       input_data = PStr input
       /\ get_method_selector (abiregistry self) (str_slice 2 10 input)
          = Some method_name
       /\ method_name <> ""%string
       /\ abis (abiregistry self) = pre ++ abi :: post
       /\ to_checksum_address (web3 self) (PStr contract_address) = Ret checksum
       /\ decode_function_input (web3 self) abi checksum input_data = Ret decoded_params
       /\ Forall (fun a => raises (decode_function_input (web3 self) a checksum
                                     input_data)) pre
       /\ decode_transaction_input self input_data contract_address s
          = (Ret (Some {| function_name := Some method_name;
                          params := Some (fresh (dom (heap s)));
                          signature := str_slice 2 10 input;
                          abi_type := abi |}),
             mkState (<[fresh (dom (heap s)) := decoded_params]> (heap s))
                     (trace s) (now s)).
Proof.
  unfold decode_transaction_input. unfold handle_error. unfold_m.
  destruct input_data as [| | | |input|]; try (left; reflexivity).
  destruct (get_method_selector (abiregistry self) (str_slice 2 10 input))
    as [method_name|] eqn:Hsel; [|left; reflexivity].
  destruct (String.eqb method_name "") eqn:Hne; [left; reflexivity|].
  destruct (decode_loop_first_match method_name (str_slice 2 10 input) (PStr input)
              contract_address (abis (abiregistry self)) s)
    as (r & [[-> Hrun]|Hsome]).
  - rewrite Hrun. left. reflexivity.
  - destruct Hsome as (pre & abi & post & c & ps & Habis & Hc & Hps & Hpre & -> & Hrun).
    rewrite Hrun. right. exists input, method_name, pre, abi, post, c, ps.
    repeat split; try assumption; try reflexivity.
    apply String.eqb_neq. exact Hne.
Qed.

(** The run of a decoding, in the form the callers take it apart. *)
Lemma decode_transaction_input_run (input_data : pyval)
    (contract_address : string) (s : State) :
  exists r s',
    decode_transaction_input self input_data contract_address s = (Ret r, s')
    /\ trace s' = trace s /\ now s' = now s
    /\ match r with
       | None => s' = s
       | Some decoded_tx =>
           exists input method_name pre post checksum decoded_params,
             input_data = PStr input
             /\ get_method_selector (abiregistry self) (str_slice 2 10 input)
                = Some method_name
             /\ function_name decoded_tx = Some method_name
             /\ method_name <> ""%string
             /\ signature decoded_tx = str_slice 2 10 input
             /\ abis (abiregistry self) = pre ++ abi_type decoded_tx :: post
             /\ to_checksum_address (web3 self) (PStr contract_address) = Ret checksum
             /\ decode_function_input (web3 self) (abi_type decoded_tx) checksum
                  input_data = Ret decoded_params
             /\ Forall (fun a => raises (decode_function_input (web3 self) a checksum
                                           input_data)) pre
             /\ params decoded_tx = Some (fresh (dom (heap s)))
             /\ heap s !! fresh (dom (heap s)) = None
             /\ heap s' = <[fresh (dom (heap s)) := decoded_params]> (heap s)
       end.
Proof.
  destruct (decode_transaction_input_cases input_data contract_address s)
    as [Hnone|(input & m & pre & abi & post & c & ps & Hin & Hsel & Hne & Habis & Hc & Hps
               & Hpre & Hrun)].
  - exists None, s. repeat split. exact Hnone.
  - eexists _, _. split; [exact Hrun|].
    split; [reflexivity|]. split; [reflexivity|].
    exists input, m, pre, post, c, ps.
    cbn [function_name signature abi_type params heap].
    repeat split; try assumption.
    apply not_elem_of_dom. apply is_fresh.
Qed.


End Decoding.


(** ** What the preparations leave untouched *)

(** Closes a goal about the number of signing or submitting events once
    the run has been executed symbolically. *)
Ltac count_quiet :=
  intros [= <- <-]; cbn [trace]; rewrite ?count_snoc; cbn [outward]; lia.

Section Quiet.

Context (self : TransactionCore).

Lemma build_transaction_quiet fc extra s r s' :
  build_transaction self fc extra s = (r, s') ->
  count outward (trace s') = count outward (trace s).
Proof.
  unfold build_transaction, _get_dynamic_gas_parameters, estimate_gas_smart.
  unfold handle_error. unfold_m.
  run_oracles; try count_quiet.
Qed.

Lemma decode_transaction_input_quiet input_data addr s r s' :
  decode_transaction_input self input_data addr s = (r, s') ->
  trace s' = trace s.
Proof.
  intros Hrun.
  destruct (decode_transaction_input_run self input_data addr s)
    as (r0 & s0 & Hrun0 & Htr & _).
  rewrite Hrun in Hrun0. injection Hrun0 as -> ->. exact Htr.
Qed.

Lemma validate_transaction_quiet tx operation min_value s r s' :
  _validate_transaction self tx operation min_value s = (r, s') ->
  count outward (trace s') = count outward (trace s).
Proof.
  unfold _validate_transaction.
  destruct tx as [d|v]; [|intros [= <- <-]; reflexivity].
  destruct (negb _); [intros [= <- <-]; reflexivity|].
  unfold try_except, bind at 1, lift at 1.
  destruct (to_checksum_address _ _) as [to_|e];
    [|unfold handle_error; unfold_m; intros [= <- <-]; reflexivity].
  unfold bind at 1.
  destruct (decode_transaction_input self _ to_ s) as [[dec|e] s1] eqn:Hd;
    apply decode_transaction_input_quiet in Hd; rewrite <- Hd;
    [|unfold handle_error; unfold_m; intros [= <- <-]; reflexivity].
  destruct dec as [decoded|]; [|unfold_m; intros [= <- <-]; reflexivity].
  destruct (params decoded) as [l|]; [|unfold_m; intros [= <- <-]; reflexivity].
  unfold handle_error, deref. unfold_m.
  destruct (invalid_path _); [intros [= <- <-]; reflexivity|].
  run_oracles; try count_quiet.
  all: repeat match goal with
              | |- context [if ?c then _ else _] => destruct c
              end; count_quiet.
Qed.

Lemma build_router_call_quiet target_tx fname l s r s' :
  build_router_call self target_tx fname l s = (r, s') ->
  count outward (trace s') = count outward (trace s) /\ heap s' = heap s.
Proof.
  unfold build_router_call. unfold bind at 1, lift at 1.
  destruct (to_checksum_address _ _) as [a|e];
    [|intros [= <- <-]; split; reflexivity].
  destruct (routers self !! a) as [[rc nm]|];
    [|intros [= <- <-]; split; reflexivity].
  destruct rc as [router|]; [|intros [= <- <-]; split; reflexivity].
  unfold bind at 1, deref at 1.
  destruct (contract_call self router fname [] _) as [fc|e].
  - unfold bind at 1.
    destruct (build_transaction self fc ∅ s) as [[tx|e] s1] eqn:Hb;
      pose proof (build_transaction_quiet _ _ _ _ _ Hb) as Hq;
      apply build_transaction_spec in Hb; destruct Hb as [Hh _];
      unfold_m; intros [= <- <-]; split; assumption.
  - destruct e; unfold_m; intros [= <- <-]; split; reflexivity.
Qed.

(** Preparing the front-run never raises, signs nothing, and leaves the
    dict objects that exist alone. *)
Lemma prepare_front_run_quiet target_tx s :
  exists o s',
    _prepare_front_run_transaction self target_tx s = (Ret o, s')
    /\ count outward (trace s') = count outward (trace s)
    /\ (forall l, is_Some (heap s !! l) -> heap s' !! l = heap s !! l).
Proof.
  unfold _prepare_front_run_transaction.
  unfold try_except, bind at 1, lift at 1.
  destruct (to_checksum_address _ _) as [to_|e];
    [|unfold handle_error; unfold_m; eexists _, _; repeat split; reflexivity].
  unfold bind at 1.
  destruct (decode_transaction_input_run self
              (default (PStr "0x") (target_tx !! "input")) to_ s)
    as (dec & s1 & -> & Htr & _ & Hdec).
  destruct dec as [decoded|];
    [|subst s1; unfold_m; eexists _, _; repeat split; reflexivity].
  destruct Hdec as (input & m & pre & post & c & ps & _ & _ & Hname & Hne & _ & _ & _ & _
                    & _ & Hparams & Hfresh & Hheap).
  rewrite Hname. apply String.eqb_neq in Hne. rewrite Hne.
  unfold get_params. rewrite Hparams. unfold bind at 1, ret at 1.
  destruct (build_router_call self target_tx m (fresh (dom (heap s))) s1)
    as [[o|e] s2] eqn:Hb; apply build_router_call_quiet in Hb; destruct Hb as [Hq Hh];
    unfold handle_error; unfold_m; eexists _, _;
    (split; [reflexivity|]); (split; [rewrite Hq, Htr; reflexivity|]);
    intros l [x Hx]; rewrite Hh, Hheap; apply lookup_insert_ne;
    intros <-; rewrite Hfresh in Hx; discriminate.
Qed.

Lemma prepare_back_run_quiet target_tx decoded s :
  exists o s',
    _prepare_back_run_transaction self target_tx decoded s = (Ret o, s')
    /\ count outward (trace s') = count outward (trace s).
Proof.
  unfold _prepare_back_run_transaction. unfold try_except.
  destruct (function_name decoded) as [fname|];
    [|unfold_m; eexists _, _; split; reflexivity].
  destruct (String.eqb fname "");
    [unfold_m; eexists _, _; split; reflexivity|].
  unfold bind at 1.
  assert (exists l s1, get_params decoded s = (Ret l, s1) /\ trace s1 = trace s)
    as (l & s1 & -> & Htr).
  { unfold get_params. destruct (params decoded); unfold_m; unfold alloc;
      eexists _, _; split; reflexivity. }
  unfold bind at 1, deref at 1.
  destruct (invalid_path _);
    [unfold_m; eexists _, _; split; [reflexivity | rewrite Htr; reflexivity]|].
  unfold bind at 1, setitem at 1.
  match goal with
  | |- context [build_router_call self target_tx fname l ?st] =>
      destruct (build_router_call self target_tx fname l st) as [[o|e] s2] eqn:Hb;
      apply build_router_call_quiet in Hb; destruct Hb as [Hq _]; cbn [trace] in Hq
  end; unfold handle_error; unfold_m; eexists _, _;
    (split; [reflexivity | rewrite Hq, Htr; reflexivity]).
Qed.

Lemma check_sandwich_strategy_quiet strategy target_tx symbol decoded s r s' :
  _check_sandwich_strategy self strategy target_tx symbol decoded s = (r, s') ->
  count outward (trace s') = count outward (trace s).
Proof.
  unfold _check_sandwich_strategy, tx_to. unfold_m.
  repeat match goal with
         | |- context [if String.eqb ?a ?b then _ else _] => destruct (String.eqb a b)
         end;
    run_oracles; try count_quiet.
  all: repeat match goal with
              | |- context [match ?x with _ => _ end] => destruct x
              end; count_quiet.
Qed.

Lemma prepare_flashloan_none target_tx asset s :
  (forall a, calculate_flashloan_amount self target_tx = Ret a -> a <= 0) ->
  exists r, _prepare_flashloan self asset target_tx s = (r, s)
            /\ (r = Ret None \/ exists e, r = Raise e).
Proof.
  intros Hle. unfold _prepare_flashloan. unfold_m.
  destruct (calculate_flashloan_amount self target_tx) as [a|e].
  - specialize (Hle a eq_refl). apply Z.leb_le in Hle. rewrite Hle.
    eexists. split; [reflexivity | left; reflexivity].
  - eexists. split; [reflexivity | right; eexists; reflexivity].
Qed.

Lemma decoded_path_state decoded_tx s :
  exists r, decoded_path decoded_tx s = (r, s).
Proof.
  unfold decoded_path. destruct decoded_tx as [d|]; [|eexists; reflexivity].
  destruct (params d); [|eexists; reflexivity].
  unfold deref. unfold_m. destruct (_ !! "path"); eexists; reflexivity.
Qed.

(** X6. Without a positive flashloan amount nothing is front-run.  When
    [calculate_flashloan_amount] does not return a positive amount for the
    target (no ["profit"], a profit that is not positive, or one that is
    not a number), [front_run] and [execute_sandwich_attack] return false
    and neither sign, send nor submit anything: no flashloan transaction
    is prepared, so the bundle is never complete. *)
Theorem no_flashloan_no_front_run (target_tx : Dict) (strategy : string) (s : State)
    (Hamount : forall a, calculate_flashloan_amount self target_tx = Ret a -> a <= 0) :
  (exists s', front_run self target_tx s = (Ret false, s')
              /\ count outward (trace s') = count outward (trace s))
  /\ (exists s', execute_sandwich_attack self target_tx strategy s = (Ret false, s')
                 /\ count outward (trace s') = count outward (trace s)).
Proof.
  split.
  - unfold front_run. unfold bind at 1.
    destruct (validate_transaction_cases self (ODict target_tx) "front-run" 0 s)
      as ([[valid decoded_tx] symbol] & s1 & Hv & _).
    rewrite Hv. apply validate_transaction_quiet in Hv.
    destruct valid; cbn [negb]; [|exists s1; split; [reflexivity | exact Hv]].
    unfold try_except, bind at 1.
    destruct (decoded_path_state decoded_tx s1) as [[path|e] ->];
      [|unfold handle_error; unfold_m; exists s1; split; [reflexivity | exact Hv]].
    unfold bind at 1, lift at 1.
    destruct (py_index0 path) as [asset|e];
      [|unfold handle_error; unfold_m; exists s1; split; [reflexivity | exact Hv]].
    unfold bind at 1.
    destruct (prepare_flashloan_none target_tx asset s1 Hamount) as (r & -> & [->|[e ->]]);
      [|unfold handle_error; unfold_m; exists s1; split; [reflexivity | exact Hv]].
    unfold bind at 1.
    destruct (prepare_front_run_quiet target_tx s1) as (o & s2 & -> & Hq & _).
    cbn [forallb tx_truthy andb negb]. unfold_m.
    exists s2. split; [reflexivity | rewrite Hq; exact Hv].
  - unfold execute_sandwich_attack. unfold bind at 1.
    destruct (validate_transaction_cases self (ODict target_tx) "sandwich_attack" 0 s)
      as ([[valid decoded_tx] symbol] & s1 & Hv & _).
    rewrite Hv. apply validate_transaction_quiet in Hv.
    destruct valid; cbn [negb]; [|exists s1; split; [reflexivity | exact Hv]].
    unfold try_except, bind at 1.
    destruct (_check_sandwich_strategy self strategy target_tx _ decoded_tx s1)
      as [[should|e] s2] eqn:Hc; apply check_sandwich_strategy_quiet in Hc;
      [|unfold handle_error; unfold_m; exists s2; split;
        [reflexivity | rewrite Hc; exact Hv]].
    destruct should; cbn [negb];
      [|unfold_m; exists s2; split; [reflexivity | rewrite Hc; exact Hv]].
    unfold bind at 1.
    destruct (decoded_path_state decoded_tx s2) as [[path|e] ->];
      [|unfold handle_error; unfold_m; exists s2; split;
        [reflexivity | rewrite Hc; exact Hv]].
    unfold bind at 1, lift at 1.
    destruct (py_index0 path) as [asset|e];
      [|unfold handle_error; unfold_m; exists s2; split;
        [reflexivity | rewrite Hc; exact Hv]].
    unfold bind at 1.
    destruct (prepare_flashloan_none target_tx asset s2 Hamount) as (r & -> & [->|[e ->]]);
      [|unfold handle_error; unfold_m; exists s2; split;
        [reflexivity | rewrite Hc; exact Hv]].
    unfold bind at 1.
    destruct (prepare_front_run_quiet target_tx s2) as (o & s3 & -> & Hq & _).
    unfold bind at 1.
    destruct decoded_tx as [decoded|].
    + destruct (prepare_back_run_quiet target_tx decoded s3) as (o2 & s4 & -> & Hq2).
      cbn [forallb tx_truthy andb negb]. unfold_m.
      exists s4. split; [reflexivity | rewrite Hq2, Hq, Hc; exact Hv].
    + cbn [forallb tx_truthy andb negb]. unfold_m.
      exists s3. split; [reflexivity | rewrite Hq, Hc; exact Hv].
Qed.

(** X7. The sandwich sub-strategies by name.  ["flash_profit"] can never
    be met: its check awaits the plain int returned by the synchronous
    [calculate_flashloan_amount], which raises, so
    [execute_sandwich_attack] with that strategy returns false for every
    target and signs or submits nothing.  A strategy name other than the
    four known ones is accepted without any check or call. *)
Theorem sandwich_strategy_names (target_tx : Dict) (token_symbol : string)
    (decoded_tx : option DecodedTx) (s : State) :
  (exists e, _check_sandwich_strategy self "flash_profit" target_tx token_symbol
               decoded_tx s = (Raise e, s))
  /\ (exists s', execute_sandwich_attack self target_tx "flash_profit" s = (Ret false, s')
                 /\ count outward (trace s') = count outward (trace s))
  /\ (forall strategy,
        ~ In strategy ["flash_profit"; "price_boost"; "arbitrage"; "advanced"]%string ->
        _check_sandwich_strategy self strategy target_tx token_symbol decoded_tx s
        = (Ret true, s)).
Proof.
  assert (forall sym dec st,
            exists e, _check_sandwich_strategy self "flash_profit" target_tx sym dec st
                      = (Raise e, st)) as Hflash.
  { intros sym dec st. unfold _check_sandwich_strategy.
    change (String.eqb "flash_profit" "flash_profit") with true. cbv iota.
    unfold_m. destruct (calculate_flashloan_amount self target_tx);
      eexists; reflexivity. }
  split; [apply Hflash|]. split.
  - unfold execute_sandwich_attack. unfold bind at 1.
    destruct (validate_transaction_cases self (ODict target_tx) "sandwich_attack" 0 s)
      as ([[valid dec] symbol] & s1 & Hv & _).
    rewrite Hv. apply validate_transaction_quiet in Hv.
    destruct valid; cbn [negb]; [|exists s1; split; [reflexivity | exact Hv]].
    unfold try_except, bind at 1.
    destruct (Hflash (default "" symbol) dec s1) as [e ->].
    unfold handle_error. unfold_m. exists s1. split; [reflexivity | exact Hv].
  - intros strategy Hnot. unfold _check_sandwich_strategy.
    repeat match goal with
           | |- context [String.eqb strategy ?k] =>
               destruct (String.eqb_spec strategy k) as [->|_];
               [exfalso; apply Hnot; simpl; tauto|]
           end.
    reflexivity.
Qed.

(** [calculate_flashloan_amount] raises nothing but [TypeError]. *)
Lemma calculate_flashloan_amount_raises target_tx e :
  calculate_flashloan_amount self target_tx = Raise e -> e = TypeError.
Proof.
  unfold calculate_flashloan_amount.
  destruct (default (PInt 0) (target_tx !! "profit")) as [|b|z|m ex|str|l]; simpl;
    try (intros [= <-]; reflexivity).
  - destruct b; discriminate.
  - destruct (0 <? z); discriminate.
  - destruct (0 <? m); discriminate.
Qed.


(** X9. The back-run variants check one absent signal and not the others.
    For a target that passed validation, [price_dip_back_run] returns false
    when the current price is [None], but raises [TypeError] when the
    predicted price is [None]; [high_volume_back_run] raises [TypeError]
    when the 24h volume is [None].  In these cases [back_run] is not
    entered. *)
Theorem back_run_variants_unguarded (target_tx : Dict) (s : State)
    (decoded : option DecodedTx) (symbol : string) (s1 : State)
    (Hvalid : _validate_transaction self (ODict target_tx) "back_run" 0 s
              = (Ret (true, decoded, Some symbol), s1)) :
  (get_real_time_price (apiconfig self) (now s1) symbol = Ret None ->
   price_dip_back_run self target_tx s
   = (Ret false, after_calls s1 [EvRealTimePrice symbol]))
  /\ (forall current,
        get_real_time_price (apiconfig self) (now s1) symbol = Ret (Some current) ->
        predict_price_movement (marketmonitor self) (S (now s1)) symbol = Ret None ->
        price_dip_back_run self target_tx s
        = (Raise TypeError,
           after_calls s1 [EvRealTimePrice symbol; EvPredictPriceMovement symbol]))
  /\ (get_token_volume (apiconfig self) (now s1) symbol = Ret None ->
      high_volume_back_run self target_tx s
      = (Raise TypeError, after_calls s1 [EvTokenVolume symbol])).
Proof.
  unfold after_calls. cbn [length Nat.add]. split; [|split].
  - intros Hc. unfold price_dip_back_run. unfold bind at 1. rewrite Hvalid.
    cbn [negb default from_option id]. unfold_m. rewrite Hc. reflexivity.
  - intros current Hc Hp. unfold price_dip_back_run. unfold bind at 1. rewrite Hvalid.
    cbn [negb default from_option id]. unfold_m. rewrite Hc. cbn [now heap trace].
    rewrite Hp. rewrite <- app_assoc. reflexivity.
  - intros Hvol. unfold high_volume_back_run. unfold bind at 1. rewrite Hvalid.
    cbn [negb default from_option id]. unfold_m. rewrite Hvol. reflexivity.
Qed.

End Quiet.

Lemma no_flashloan_no_front_run_witness :
  exists s',
    front_run Sample.core Scenario.no_profit_tx Sample.s0 = (Ret false, s')
    /\ count outward (trace s') = 0%nat.
Proof.
  destruct (no_flashloan_no_front_run Sample.core Scenario.no_profit_tx "default"
              Sample.s0) as [(s' & Hrun & Hq) _].
  - intros a Ha. vm_compute in Ha. injection Ha as <-. lia.
  - exists s'. split; [exact Hrun | exact Hq].
Defined.

Lemma back_run_variants_unguarded_witness :
  fst (price_dip_back_run Scenario.core_blind Sample.target_tx Sample.s0)
  = Raise TypeError
  /\ fst (high_volume_back_run Scenario.core_blind Sample.target_tx Sample.s0)
     = Raise TypeError.
Proof.
  destruct (back_run_variants_unguarded Scenario.core_blind Sample.target_tx Sample.s0
              (Some Sample.decoded) "WETH"
              (snd (_validate_transaction Scenario.core_blind (ODict Sample.target_tx)
                      "back_run" 0 Sample.s0)))
    as (_ & Hdip & Hvol); [vm_compute; reflexivity|].
  split.
  - rewrite (Hdip 100%Q); reflexivity.
  - rewrite Hvol; reflexivity.
Defined.

(** ** Score ranges *)

Ltac split_ifs :=
  repeat match goal with
         | |- context [if ?c then _ else _] => destruct c
         end.

(** X10. The opportunity score lies between 0 and 110 and is a multiple
    of 5; 110 is reached.  The function raises only when the market
    conditions are [None] ([AttributeError]) or when a history of at least
    two prices starts with 0 ([ZeroDivisionError]). *)
Theorem opportunity_score_range (price_change : Q) (volatility : npfloat)
    (market_conditions : option (gmap string bool)) (current_price : Q)
    (historical_prices : option (list Q)) :
  match _calculate_opportunity_score price_change volatility market_conditions
          current_price historical_prices with
  | Ret score => 0 <= score <= 110 /\ score mod 5 = 0
  | Raise e =>
      (market_conditions = None /\ e = AttributeError)
      \/ (e = ZeroDivisionError
          /\ exists p0 p1 rest,
               historical_prices = Some (p0 :: p1 :: rest) /\ (p0 == 0)%Q)
  end
  /\ _calculate_opportunity_score 6 (NpFin 0)
       (Some (<["bullish_trend" := true]>
                (<["high_volatility" := false]> {[ "low_liquidity" := false ]})))
       120 (Some [100%Q; 101%Q]) = Ret 110.
Proof.
  split; [|vm_compute; reflexivity].
  unfold _calculate_opportunity_score.
  destruct market_conditions as [mc|].
  2: { left. split; reflexivity. }
  destruct historical_prices as [[|p0 [|p1 rest]]|]; cbn [nonempty length Nat.ltb Nat.leb hd];
    try (split_ifs; (split; [lia | reflexivity])).
  destruct (Qeq_bool p0 0) eqn:Hz.
  - right. split; [reflexivity|]. exists p0, p1, rest.
    split; [reflexivity | apply Qeq_bool_iff; exact Hz].
  - split_ifs; (split; [lia | reflexivity]).
Qed.

Lemma np_gt_div_zero a b t :
  (a == 0)%Q -> (0 <= t)%Q -> np_gt (np_div a b) t = false.
Proof.
  intros Ha Ht. unfold np_div.
  assert (Qeq_bool a 0 = true) as Hz by (apply Qeq_bool_iff; exact Ha).
  destruct (Qeq_bool b 0) eqn:Hb; [rewrite Hz; reflexivity|].
  cbn [np_gt]. apply Qltb_false. rewrite Ha. unfold Qdiv. rewrite Qmult_0_l. exact Ht.
Qed.

(** X11. The volatility score lies between 0 and 100 and is a multiple
    of 10.  A history of fewer than two prices earns nothing: the score is
    then the market-condition points alone, at most 30.  The function
    raises only when the market conditions are [None]. *)
Theorem volatility_score_range (self : TransactionCore)
    (historical_prices : option (list Q)) (current_price : option Q)
    (market_conditions : option (gmap string bool)) :
  match _calculate_volatility_score self historical_prices current_price
          market_conditions with
  | Ret score =>
      0 <= score <= 100 /\ score mod 10 = 0
      /\ ((length (default [] historical_prices) < 2)%nat ->
          score = (if flag (default ∅ market_conditions) "high_volatility" false
                   then 20 else 0)
                  + (if flag (default ∅ market_conditions) "low_liquidity" false
                     then 10 else 0))
  | Raise e => market_conditions = None /\ e = AttributeError
  end.
Proof.
  unfold _calculate_volatility_score.
  destruct market_conditions as [mc|]; [|split; reflexivity].
  cbn [default from_option id].
  destruct historical_prices as [[|p0 [|p1 rest]]|];
    cbn [nonempty length Nat.ltb Nat.leb default from_option id].
  - split_ifs; (split; [lia | split; [reflexivity | intros _; reflexivity]]).
  - change (Qmax_list [p0]) with p0. change (Qmin_list [p0]) with p0.
    assert (forall t, (0 <= t)%Q ->
              np_gt (np_div (p0 - p0) (np_mean [p0])) t = false) as Hzero.
    { intros t Ht. apply np_gt_div_zero; [ring | exact Ht]. }
    rewrite !Hzero by (unfold Qle; simpl; lia).
    split_ifs; (split; [lia | split; [reflexivity | intros _; reflexivity]]).
  - split_ifs; (split; [lia | split; [reflexivity | simpl; lia]]).
  - split_ifs; (split; [lia | split; [reflexivity | intros _; reflexivity]]).
Qed.


(** ** The shape of a bundle submission *)

(** Hands the rest of a retry loop to the continuation [Hnext]. *)
Ltac next_attempt Hnext Hrun :=
  eapply Hnext; [ | | | exact Hrun ];
  [ cbn [trace]; rewrite <- ?app_assoc; reflexivity
  | repeat constructor
  | reflexivity ].

Section Submission.

Context (self : TransactionCore).

Lemma post_event_mono bs1 bs2 txs bn lo1 hi1 lo2 hi2 ev :
  (forall b, In b bs1 -> In b bs2) -> lo2 <= lo1 -> hi1 <= hi2 ->
  post_event bs1 txs bn lo1 hi1 ev -> post_event bs2 txs bn lo2 hi2 ev.
Proof.
  intros Hb Hlo Hhi. destruct ev; simpl; try tauto.
  intros (Hin & Ha & Ht & Hn). repeat split; auto; lia.
Qed.

Lemma post_loop_posts builder txs bn remaining : forall attempt s r s',
  post_loop self builder txs bn remaining attempt s = (r, s') ->
  exists evs,
    trace s' = trace s ++ evs
    /\ Forall (post_event [builder] txs bn attempt (attempt + Z.of_nat remaining)) evs
    /\ (count is_post evs <= remaining)%nat.
Proof.
  induction remaining as [|k IH]; intros attempt s r s'; simpl post_loop.
  - unfold_m. intros [= <- <-]. exists []. rewrite app_nil_r.
    repeat split; [constructor | reflexivity].
  - assert (post_event [builder] txs bn attempt (attempt + Z.of_nat (S k))
              (EvPost builder attempt (now s) txs bn)) as Hfirst.
    { simpl. repeat split; try tauto; lia. }
    assert (forall (st : State) (pre : list event),
              trace st = trace s ++ EvPost builder attempt (now s) txs bn :: pre ->
              Forall (post_event [builder] txs bn attempt (attempt + Z.of_nat (S k))) pre ->
              count is_post pre = 0%nat ->
              post_loop self builder txs bn k (attempt + 1) st = (r, s') ->
              exists evs,
                trace s' = trace s ++ evs
                /\ Forall (post_event [builder] txs bn attempt
                             (attempt + Z.of_nat (S k))) evs
                /\ (count is_post evs <= S k)%nat) as Hnext.
    { intros st pre Htr Hpre Hcnt Hrun.
      destruct (IH _ _ _ _ Hrun) as (evs & Htr' & Hall & Hle).
      exists (EvPost builder attempt (now s) txs bn :: pre ++ evs).
      split; [rewrite Htr', Htr, <- app_assoc; reflexivity|].
      split.
      - constructor; [exact Hfirst|]. apply Forall_app. split; [exact Hpre|].
        eapply Forall_impl; [exact Hall|]. intros ev.
        apply post_event_mono; [tauto | lia | lia].
      - rewrite count_cons, count_app, Hcnt. cbn [is_post]. lia. }
    unfold handle_error. unfold_m. unfold call_at.
    destruct (post (relays self) (now s) builder txs bn) as [d|e].
    + destruct (d !! "error"); simpl; intros [= <- <-]; cbn [trace];
        (eexists; split; [reflexivity|]);
        (split; [constructor; [exact Hfirst | constructor] | cbn; lia]).
    + destruct e; simpl;
        first
          [ intros [= <- <-]; cbn [trace];
            (eexists; split; [reflexivity|]);
            (split; [constructor; [exact Hfirst | constructor] | cbn; lia])
          | destruct (attempt <? MEMPOOL_MAX_RETRIES (configuration self)); simpl;
            intros Hrun; next_attempt Hnext Hrun ].
Qed.

Lemma builders_loop_posts txs bn builders : forall successes s r s',
  builders_loop self builders txs bn successes s = (r, s') ->
  exists evs,
    trace s' = trace s ++ evs
    /\ Forall (post_event builders txs bn 1
                 (1 + Z.of_nat (Z.to_nat (MEMPOOL_MAX_RETRIES (configuration self)))))
              evs
    /\ (count is_post evs
        <= length builders * Z.to_nat (MEMPOOL_MAX_RETRIES (configuration self)))%nat.
Proof.
  induction builders as [|b builders IH]; intros successes s r s'; simpl builders_loop.
  - unfold_m. intros [= <- <-]. exists []. rewrite app_nil_r.
    repeat split; [constructor | reflexivity].
  - unfold bind at 1.
    destruct (post_loop self b txs bn _ 1 s) as [[ok|e] s1] eqn:Hp;
      apply post_loop_posts in Hp; destruct Hp as (evs1 & Htr1 & Hall1 & Hle1).
    + intros Hrun. apply IH in Hrun. destruct Hrun as (evs2 & Htr2 & Hall2 & Hle2).
      exists (evs1 ++ evs2). split; [rewrite Htr2, Htr1, <- app_assoc; reflexivity|].
      split.
      * apply Forall_app. split.
        -- eapply Forall_impl; [exact Hall1|]. intros ev.
           apply post_event_mono; [intros b0 [<-|[]]; left; reflexivity | lia | lia].
        -- eapply Forall_impl; [exact Hall2|]. intros ev.
           apply post_event_mono; [intros b0 Hin; right; exact Hin | lia | lia].
      * rewrite count_app. simpl length. lia.
    + intros [= <- <-]. exists evs1. split; [exact Htr1|]. split.
      * eapply Forall_impl; [exact Hall1|]. intros ev.
        apply post_event_mono; [intros b0 [<-|[]]; left; reflexivity | lia | lia].
      * simpl length. lia.
Qed.

Lemma sign_transaction_run tx s r s' :
  sign_transaction self tx s = (r, s') ->
  s' = mkState (heap s) (trace s ++ [EvSignTransaction tx]) (S (now s))
  /\ forall signed, r = Ret signed ->
       eth_account_sign_transaction (web3 self) (now s) tx = Ret signed.
Proof.
  unfold sign_transaction. unfold handle_error. unfold_m.
  destruct (eth_account_sign_transaction _ _ _) as [sg|e]; [destruct (tx !! "nonce")|];
    intros [= <- <-]; (split; [reflexivity|]); intros signed [= <-]; reflexivity.
Qed.

Lemma sign_all_run txs : forall s r s',
  sign_all self txs s = (r, s') ->
  match r with
  | Ret signed =>
      trace s' = trace s ++ map EvSignTransaction txs
      /\ now s' = (now s + length txs)%nat
      /\ Forall2 (fun tx sg =>
                    exists t, eth_account_sign_transaction (web3 self) t tx = Ret sg)
                 txs signed
  | Raise _ =>
      exists n, (n < length txs)%nat
                /\ trace s' = trace s ++ map EvSignTransaction (take (S n) txs)
  end.
Proof.
  induction txs as [|tx txs IH]; intros s r s'; simpl sign_all.
  - unfold_m. intros [= <- <-]. rewrite app_nil_r.
    repeat split; [simpl; lia | constructor].
  - unfold bind at 1.
    destruct (sign_transaction self tx s) as [[sg|e] s1] eqn:Hs;
      apply sign_transaction_run in Hs; destruct Hs as [-> Hsg].
    + unfold bind at 1.
      destruct (sign_all self txs _) as [[signed|e] s2] eqn:Hrest;
        apply IH in Hrest; cbn [trace now] in Hrest; unfold_m; intros [= <- <-].
      * destruct Hrest as (Htr & Hnow & Hall).
        split; [rewrite Htr, <- app_assoc; reflexivity|].
        split; [rewrite Hnow; simpl; lia|].
        constructor; [exists (now s); apply Hsg; reflexivity | exact Hall].
      * destruct Hrest as (n & Hn & Htr).
        exists (S n). split; [simpl; lia|].
        rewrite Htr, <- app_assoc. reflexivity.
    + intros [= <- <-]. exists 0%nat. split; [simpl; lia|].
      reflexivity.
Qed.


End Submission.

(** ** Attempts of the retry loop *)

Section Attempts.

Context (self : TransactionCore).

(** One attempt signs once and sends at most once; it yields a hash only
    when the chain client accepted the raw transaction. *)
Lemma execute_attempt_run tx attempt s r s' :
  execute_attempt self tx attempt s = (r, s') ->
  exists evs,
    trace s' = trace s ++ evs
    /\ count is_sign evs = 1%nat
    /\ (count is_send_raw evs <= 1)%nat
    /\ (forall h, r = Ret (Some h) ->
          exists signed,
            evs = [EvSignTransaction tx; EvSendRawTransaction signed]
            /\ eth_account_sign_transaction (web3 self) (now s) tx = Ret signed
            /\ eth_send_raw_transaction (web3 self) (S (now s)) signed = Ret h).
Proof.
  unfold execute_attempt, sign_transaction, call_contract_function.
  unfold handle_error. unfold_m.
  destruct (eth_account_sign_transaction (web3 self) (now s) tx) as [sg|e] eqn:Hs.
  - destruct (tx !! "nonce"); cbn [heap trace now].
    + destruct (eth_send_raw_transaction (web3 self) (S (now s)) sg) as [h|e] eqn:Hh.
      * intros [= <- <-]. cbn [trace]. rewrite <- app_assoc.
        eexists. split; [reflexivity|]. repeat split; try (cbn; lia).
        intros h' [= <-]. exists sg. repeat split; assumption.
      * destruct e; intros [= <- <-]; cbn [trace]; rewrite <- ?app_assoc;
          (eexists; split; [reflexivity|]); (repeat split; try (cbn; lia));
          intros h' [=].
    + intros [= <- <-]; cbn [trace]; rewrite <- ?app_assoc;
        (eexists; split; [reflexivity|]); (repeat split; try (cbn; lia));
        intros h' [=].
  - destruct e; intros [= <- <-]; cbn [trace]; rewrite <- ?app_assoc;
      (eexists; split; [reflexivity|]); (repeat split; try (cbn; lia));
      intros h' [=].
Qed.

Lemma execute_loop_run tx remaining : forall attempt s r s',
  execute_loop self tx remaining attempt s = (r, s') ->
  exists evs,
    trace s' = trace s ++ evs
    /\ (count is_sign evs <= remaining)%nat
    /\ (count is_send_raw evs <= count is_sign evs)%nat
    /\ (forall h, r = Ret (Some h) ->
          exists pre signed t,
            evs = pre ++ [EvSignTransaction tx; EvSendRawTransaction signed]
            /\ eth_account_sign_transaction (web3 self) t tx = Ret signed
            /\ eth_send_raw_transaction (web3 self) (S t) signed = Ret h).
Proof.
  induction remaining as [|k IH]; intros attempt s r s'; simpl execute_loop.
  - unfold_m. intros [= <- <-]. exists []. rewrite app_nil_r.
    repeat split; try reflexivity. intros h [=].
  - unfold bind at 1.
    destruct (execute_attempt self tx attempt s) as [[sent|e] s1] eqn:Ha;
      apply execute_attempt_run in Ha;
      destruct Ha as (evs1 & Htr1 & Hsign1 & Hraw1 & Hhash1).
    + destruct sent as [h|].
      * unfold_m. intros [= <- <-]. exists evs1.
        split; [exact Htr1|]. split; [lia|]. split; [lia|].
        intros h' [= <-]. destruct (Hhash1 h eq_refl) as (sg & -> & Hs & Hh).
        exists [], sg, (now s). repeat split; assumption.
      * unfold bind at 1, lift at 1.
        destruct (py_Decimal _ _) as [d|e].
        -- destruct (Qltb _ _).
           ++ unfold_m. intros [= <- <-]. exists evs1.
              split; [exact Htr1|]. split; [lia|]. split; [lia|]. intros h [=].
           ++ intros Hrest. apply IH in Hrest.
              destruct Hrest as (evs2 & Htr2 & Hsign2 & Hraw2 & Hhash2).
              exists (evs1 ++ evs2).
              split; [rewrite Htr2, Htr1, <- app_assoc; reflexivity|].
              rewrite !count_app. split; [lia|]. split; [lia|].
              intros h Hr. destruct (Hhash2 h Hr) as (pre & sg & t & -> & Hs & Hh).
              exists (evs1 ++ pre), sg, t. rewrite <- app_assoc.
              repeat split; assumption.
        -- intros [= <- <-]. exists evs1.
           split; [exact Htr1|]. split; [lia|]. split; [lia|]. intros h [=].
    + intros [= <- <-]. exists evs1.
      split; [exact Htr1|]. split; [lia|]. split; [lia|]. intros h [=].
Qed.

(** X14. The retry loop of [execute_transaction] signs the transaction
    anew for every attempt and makes at most [MEMPOOL_MAX_RETRIES]
    attempts, each sending at most one raw transaction.  A hash is returned
    only when the chain client accepted the raw transaction of the last
    attempt; that acceptance is the last thing that happens.  With no
    attempt allowed the result is [None] and nothing is done. *)
Theorem execute_transaction_attempts (tx : Dict) (s : State)
    (r : res (option string)) (s' : State)
    (Hrun : execute_transaction self tx s = (r, s')) :
  exists evs,
    trace s' = trace s ++ evs
    /\ (count is_sign evs <= Z.to_nat (MEMPOOL_MAX_RETRIES (configuration self)))%nat
    /\ (count is_send_raw evs <= count is_sign evs)%nat
    /\ (forall h, r = Ret (Some h) ->
          exists pre signed t,
            evs = pre ++ [EvSignTransaction tx; EvSendRawTransaction signed]
            /\ eth_account_sign_transaction (web3 self) t tx = Ret signed
            /\ eth_send_raw_transaction (web3 self) (S t) signed = Ret h)
    /\ (MEMPOOL_MAX_RETRIES (configuration self) <= 0 -> r = Ret None /\ s' = s).
Proof.
  unfold execute_transaction in Hrun.
  destruct (execute_loop_run tx _ _ _ _ _ Hrun) as (evs & Htr & Hsign & Hraw & Hhash).
  exists evs. repeat (split; [assumption|]).
  intros Hmax. replace (Z.to_nat (MEMPOOL_MAX_RETRIES (configuration self))) with 0%nat
    in Hrun by lia.
  simpl in Hrun. unfold_m. injection Hrun as <- <-. split; reflexivity.
Qed.


End Attempts.

Lemma execute_transaction_attempts_witness :
  exists s',
    execute_transaction Sample.core Sample.good_tx Sample.s0 = (Ret (Some "0xhash"%string), s')
    /\ trace s' = [EvSignTransaction Sample.good_tx; EvSendRawTransaction "0xsigned"].
Proof.
  destruct (execute_transaction Sample.core Sample.good_tx Sample.s0) as [r s'] eqn:Hrun.
  destruct (execute_transaction_attempts Sample.core _ _ _ _ Hrun)
    as (evs & Htr & _).
  vm_compute in Hrun. injection Hrun as <- <-.
  eexists. split; reflexivity.
Defined.


(** ** Plain transfers and cancellation *)

Section Transfers.

Context (self : TransactionCore) (aux : Auxiliary).


Lemma cancel_tx_fields nonce gas_price chain_id :
  cancel_tx self nonce gas_price chain_id !! "nonce" = Some (PInt nonce)
  /\ cancel_tx self nonce gas_price chain_id !! "value" = Some (PInt 0)
  /\ cancel_tx self nonce gas_price chain_id !! "gas" = Some (PInt 21000)
  /\ cancel_tx self nonce gas_price chain_id !! "to" = Some (PStr (account_address self))
  /\ cancel_tx self nonce gas_price chain_id !! "from" = Some (PStr (account_address self)).
Proof. repeat split; reflexivity. Qed.

(** X17. [cancel_transaction] sends one zero-value transfer from the
    engine's account to itself, with the given nonce and a gas limit of
    21000, and tries once.  A failure to convert the cancellation gas price
    or to read the chain id escapes as an exception; after that the result
    is true exactly when the transaction was signed and the chain client
    accepted it, and false otherwise. *)
Theorem cancel_transaction_outcomes (nonce : Z) (s : State) :
  match to_wei_gwei (web3 self) (DEFAULT_CANCEL_GAS_PRICE_GWEI aux) with
  | Raise e => cancel_transaction self aux nonce s = (Raise e, s)
  | Ret gas_price =>
      match eth_chain_id (web3 self) (now s) with
      | Raise e =>
          cancel_transaction self aux nonce s = (Raise e, after_calls s [EvChainId])
      | Ret chain_id =>
          let tx := cancel_tx self nonce gas_price chain_id in
          tx !! "nonce" = Some (PInt nonce)
          /\ tx !! "value" = Some (PInt 0)
          /\ tx !! "to" = tx !! "from"
          /\ exists r evs,
               cancel_transaction self aux nonce s
               = (Ret r, after_calls s (EvChainId :: EvSignTransaction tx :: evs))
               /\ (r = true <->
                   exists signed tx_hash,
                     eth_account_sign_transaction (web3 self) (S (now s)) tx = Ret signed
                     /\ eth_send_raw_transaction (web3 self) (S (S (now s))) signed
                        = Ret tx_hash)
               /\ (evs = [] \/ exists signed, evs = [EvSendRawTransaction signed])
      end
  end.
Proof.
  unfold cancel_transaction, sign_transaction. unfold handle_error. unfold_m.
  unfold after_calls.
  destruct (to_wei_gwei (web3 self) _) as [gas_price|e]; [|reflexivity].
  destruct (eth_chain_id (web3 self) (now s)) as [chain_id|e]; [|reflexivity].
  cbn [heap trace now].
  destruct (cancel_tx_fields nonce gas_price chain_id) as (Hn & Hv & _ & Hto & Hfrom).
  split; [exact Hn|]. split; [exact Hv|]. split; [rewrite Hto, Hfrom; reflexivity|].
  rewrite Hn.
  destruct (eth_account_sign_transaction (web3 self) (S (now s)) _) as [signed|e] eqn:Hs;
    cbn [heap trace now].
  - destruct (eth_send_raw_transaction (web3 self) (S (S (now s))) signed) as [h|e] eqn:Hh.
    + exists true, [EvSendRawTransaction signed]. cbn [length Nat.add].
      rewrite <- !app_assoc. split; [reflexivity|]. split.
      * split; [|reflexivity]. intros _. exists signed, h. split; [reflexivity | exact Hh].
      * right. exists signed. reflexivity.
    + exists false, [EvSendRawTransaction signed]. cbn [length Nat.add].
      rewrite <- !app_assoc. split; [reflexivity|]. split.
      * split; [discriminate|]. intros (sg & h & [= <-] & Hh'). congruence.
      * right. exists signed. reflexivity.
  - exists false, []. cbn [length Nat.add]. rewrite <- !app_assoc.
    split; [destruct e; reflexivity|]. split.
    + split; [discriminate|]. intros (sg & h & [=] & _).
    + left. reflexivity.
Qed.

(** What a successful build followed by a successful execution means. *)
Lemma build_and_execute fc s :
  exists r s',
    (let* tx := build_transaction self fc ∅ in
     let* tx_hash := execute_transaction self tx in
     if hash_truthy tx_hash then ret true else ret false) s = (r, s')
    /\ (r = Ret true ->
        exists tx signed t tx_hash,
          built_from self fc tx
          /\ eth_account_sign_transaction (web3 self) t tx = Ret signed
          /\ eth_send_raw_transaction (web3 self) (S t) signed = Ret tx_hash
          /\ tx_hash <> ""%string).
Proof.
  unfold bind at 1.
  destruct (build_transaction self fc ∅ s) as [[tx|e] s1] eqn:Hb;
    [|eexists _, _; split; [reflexivity | discriminate]].
  apply build_transaction_spec in Hb. destruct Hb as [_ Hb].
  specialize (Hb tx eq_refl).
  unfold bind at 1.
  destruct (execute_transaction self tx s1) as [[[h|]|e] s2] eqn:Hx;
    try (unfold_m; eexists _, _; split; [reflexivity | discriminate]).
  unfold execute_transaction in Hx.
  destruct (execute_loop_run self _ _ _ _ _ _ Hx) as (evs & _ & _ & _ & Hh).
  destruct (Hh h eq_refl) as (pre & signed & t & _ & Hs & Hsend).
  cbn [hash_truthy]. destruct (String.eqb h "") eqn:Hne; cbn [negb]; unfold_m;
    eexists _, _; (split; [reflexivity|]); [discriminate|].
  intros _. exists tx, signed, t, h. repeat split; try assumption.
  apply String.eqb_neq. exact Hne.
Qed.

(** X18. [withdraw_eth] never raises.  When the flashloan contract's ABI
    has no [withdrawETH] the result is false and nothing is done.  The
    result is true only when a transaction built from [withdrawETH()] was
    signed and the chain client accepted it with a non-empty hash. *)
Theorem withdraw_eth_outcomes (s : State) :
  exists r s',
    withdraw_eth self s = (Ret r, s')
    /\ ("withdrawETH"%string ∉ functions (aave_flashloan self) -> r = false /\ s' = s)
    /\ (r = true ->
        exists tx signed t tx_hash,
          built_from self
            (mkCall (address (aave_flashloan self)) "withdrawETH" [] ∅) tx
          /\ eth_account_sign_transaction (web3 self) t tx = Ret signed
          /\ eth_send_raw_transaction (web3 self) (S t) signed = Ret tx_hash
          /\ tx_hash <> ""%string).
Proof.
  unfold withdraw_eth, contract_call. unfold try_except, bind at 1, lift at 1.
  unfold handle_error.
  destruct (bool_decide _) eqn:Hin.
  - apply bool_decide_eq_true in Hin.
    destruct (check_call_args _ _ _ _ _) as [e|].
    + unfold_m. exists false, s. repeat split; discriminate.
    + destruct (build_and_execute
                  (mkCall (address (aave_flashloan self)) "withdrawETH" [] ∅) s)
        as (r & s' & -> & Htrue).
      destruct r as [[|]|e]; unfold_m; eexists _, _;
        (split; [reflexivity|]); (split; [intros Hnot; contradiction|]);
        try discriminate.
      intros _. apply Htrue. reflexivity.
  - unfold_m. exists false, s. repeat split; discriminate.
Qed.

(** X19. [transfer_profit_to_account] never raises.  When the account is
    not a valid address or the contract's ABI has no [transfer], the result
    is false and nothing is done.  The result is true only when a
    transaction built from [transfer(account, units)] was signed and
    accepted with a non-empty hash, where [units] is
    [int(amount * Decimal(10**18))]. *)
Theorem transfer_profit_outcomes (amount : decimal) (account : pyval) (s : State) :
  exists r s',
    transfer_profit_to_account self amount account s = (Ret r, s')
    /\ (raises (to_checksum_address (web3 self) account)
        \/ "transfer"%string ∉ functions (aave_flashloan self) ->
        r = false /\ s' = s)
    /\ (r = true ->
        exists to_ tx signed t tx_hash,
          to_checksum_address (web3 self) account = Ret to_
          /\ built_from self
               (mkCall (address (aave_flashloan self)) "transfer"
                  [PStr to_; PInt (transfer_units amount)] ∅) tx
          /\ eth_account_sign_transaction (web3 self) t tx = Ret signed
          /\ eth_send_raw_transaction (web3 self) (S t) signed = Ret tx_hash
          /\ tx_hash <> ""%string).
Proof.
  unfold transfer_profit_to_account, contract_call.
  unfold try_except, bind at 1. unfold handle_error.
  destruct (bool_decide _) eqn:Hin.
  - apply bool_decide_eq_true in Hin. unfold ret at 1. unfold bind at 1, lift at 1.
    destruct (to_checksum_address (web3 self) account) as [to_|e] eqn:Hto.
    + unfold bind at 1, lift at 1.
      destruct (check_call_args _ _ _ _ _) as [e|].
      * unfold_m. exists false, s. repeat split; discriminate.
      * destruct (build_and_execute
                    (mkCall (address (aave_flashloan self)) "transfer"
                       [PStr to_; PInt (transfer_units amount)] ∅) s)
          as (r & s' & -> & Htrue).
        destruct r as [[|]|e]; unfold_m; eexists _, _;
          (split; [reflexivity|]);
          (split; [intros [[e' He]|Hnot]; [discriminate | contradiction]|]);
          try discriminate.
        intros _. destruct (Htrue eq_refl) as (tx & signed & t & h & Hb & Hs & Hh & Hne).
        exists to_, tx, signed, t, h. repeat split; assumption.
    + unfold_m. exists false, s. repeat split; discriminate.
  - unfold raise at 1. unfold_m. exists false, s. repeat split; discriminate.
Qed.

End Transfers.

(** ** Units of a profit transfer *)

Lemma ndigits_aux_bound fuel : forall n k,
  1 <= k -> 0 <= n < 10 ^ k -> ndigits_aux fuel n <= k.
Proof.
  induction fuel as [|f IH]; intros n k Hk Hn; simpl; [lia|].
  destruct (n <? 10) eqn:Hlt; [lia|].
  apply Z.ltb_ge in Hlt.
  assert (2 <= k) as Hk2.
  { destruct (Z.eq_dec k 1) as [->|]; [|lia]. change (10 ^ 1) with 10 in Hn. lia. }
  assert (10 ^ k = 10 * 10 ^ (k - 1)) as Hpow.
  { rewrite <- Z.pow_succ_r by lia. f_equal. lia. }
  assert (ndigits_aux f (n / 10) <= k - 1); [|lia].
  apply IH; [lia|]. split; [apply Z.div_pos; lia|].
  apply Z.div_lt_upper_bound; lia.
Qed.

(** X20. The number of units moved by a profit transfer.  For an amount
    that is not negative and has at most ten significant digits the product
    with [10**18] fits the 28 digits of the Decimal context, and the units
    are exactly [floor(amount * 10^18)]. *)
Theorem transfer_units_exact (amount : decimal)
    (Hsign : dsign amount = false)
    (Hcoef : 0 <= dcoef amount < 10 ^ 10) :
  transfer_units amount = Qfloor (Dval amount * 10 ^ 18)%Q.
Proof.
  unfold transfer_units.
  destruct amount as [sg c e]. cbn [dsign dcoef] in *. subst sg.
  assert (dcoef (of_int (10 ^ 18)) = 10 ^ 18) as Hc by reflexivity.
  rewrite mul_exact.
  2: { cbn [dcoef]. rewrite Hc. unfold ndigits. apply ndigits_aux_bound; [unfold prec; lia|].
       unfold prec. split; [lia|].
       change (10 ^ 28) with (10 ^ 10 * 10 ^ 18). 
       apply Z.mul_lt_mono_pos_r; [reflexivity | lia]. }
  cbn [dsign dcoef dexp xorb]. rewrite Hc.
  change (dsign (of_int (10 ^ 18))) with false. change (dexp (of_int (10 ^ 18))) with 0.
  cbn [xorb]. rewrite Z.add_0_r, to_int_floor.
  apply Qfloor_comp. rewrite !Dval_repr, inject_Z_mult.
  rewrite (Zpower_Qpower 10 18) by lia. ring.
Qed.


Lemma cancel_transaction_outcomes_witness :
  fst (cancel_transaction Sample.core Scenario.bare 7 Sample.s0) = Ret true
  /\ fst (cancel_transaction Sample.core_unsigned Scenario.bare 7 Sample.s0) = Ret false.
Proof.
  pose proof (cancel_transaction_outcomes Sample.core Scenario.bare 7 Sample.s0) as H1.
  pose proof (cancel_transaction_outcomes Sample.core_unsigned Scenario.bare 7 Sample.s0)
    as H2.
  change (to_wei_gwei (web3 Sample.core) (DEFAULT_CANCEL_GAS_PRICE_GWEI Scenario.bare))
    with (@Ret Z 60000000000) in H1.
  change (eth_chain_id (web3 Sample.core) (now Sample.s0)) with (@Ret Z 1) in H1.
  change (to_wei_gwei (web3 Sample.core_unsigned)
            (DEFAULT_CANCEL_GAS_PRICE_GWEI Scenario.bare))
    with (@Ret Z 60000000000) in H2.
  change (eth_chain_id (web3 Sample.core_unsigned) (now Sample.s0)) with (@Ret Z 1) in H2.
  cbv beta iota zeta in H1, H2.
  destruct H1 as (_ & _ & _ & r1 & evs1 & Hrun1 & Hiff1 & _).
  destruct H2 as (_ & _ & _ & r2 & evs2 & Hrun2 & Hiff2 & _).
  split.
  - rewrite Hrun1. cbn [fst]. f_equal. apply Hiff1.
    eexists _, _. split; reflexivity.
  - rewrite Hrun2. cbn [fst]. f_equal. destruct r2; [|reflexivity].
    destruct Hiff2 as [Hiff2 _]. destruct (Hiff2 eq_refl) as (sg & h & Hs & _).
    vm_compute in Hs. discriminate.
Defined.

Lemma withdraw_eth_outcomes_witness :
  withdraw_eth Sample.core Sample.s0 = (Ret false, Sample.s0)
  /\ fst (withdraw_eth Scenario.core_treasury Sample.s0) = Ret true.
Proof.
  split.
  - destruct (withdraw_eth_outcomes Sample.core Sample.s0) as (r & s' & Hrun & Hno & _).
    destruct Hno as [-> ->]; [|exact Hrun].
    vm_compute. intros H. repeat (apply elem_of_cons in H; destruct H as [H|H];
                                   [discriminate|]).
    apply elem_of_nil in H. exact H.
  - vm_compute. reflexivity.
Defined.

Lemma transfer_profit_outcomes_witness :
  transfer_profit_to_account Scenario.core_treasury (mkDec false 15 (-1)) PNone Sample.s0
  = (Ret false, Sample.s0)
  /\ fst (transfer_profit_to_account Scenario.core_treasury (mkDec false 15 (-1))
            (PStr "0xFriend") Sample.s0) = Ret true.
Proof.
  split.
  - destruct (transfer_profit_outcomes Scenario.core_treasury (mkDec false 15 (-1)) PNone
                Sample.s0) as (r & s' & Hrun & Hno & _).
    destruct Hno as [-> ->]; [|exact Hrun].
    left. exists TypeError. reflexivity.
  - vm_compute. reflexivity.
Defined.

(** One and a half ether are 1500000000000000000 wei. *)
Lemma transfer_units_exact_witness :
  transfer_units (mkDec false 15 (-1)) = 1500000000000000000.
Proof.
  rewrite (transfer_units_exact (mkDec false 15 (-1)) eq_refl);
    [vm_compute; reflexivity | cbn [dcoef]; lia].
Defined.

(** ** Contract validation *)

Section ContractChecks.

Context (self : TransactionCore) (aux : Auxiliary).

Lemma try_methods_run contract methods : forall s r s',
  try_methods aux contract methods s = (r, s') ->
  heap s' = heap s /\ trace s' = trace s /\ (now s <= now s')%nat
  /\ match r with
     | Ret true =>
         exists method_name args t,
           In (method_name, args) methods
           /\ method_name ∈ functions contract
           /\ (now s <= t < now s')%nat
           /\ call_function aux t contract method_name args = Answered
     | Ret false =>
         (now s' <= now s + length methods)%nat
         /\ forall method_name args,
              In (method_name, args) methods -> method_name ∈ functions contract ->
              exists t, (now s <= t < now s')%nat
                        /\ (call_function aux t contract method_name args = Overflowed
                            \/ call_function aux t contract method_name args
                               = Failed ContractLogicError)
     | Raise e =>
         e <> ContractLogicError
         /\ exists method_name args t,
              In (method_name, args) methods
              /\ call_function aux t contract method_name args = Failed e
     end.
Proof.
  induction methods as [|[m args] rest IH]; intros s r s'; simpl try_methods.
  - unfold_m. intros [= <- <-]. repeat split; try lia. intros ? ? [].
  - assert (forall st,
              heap st = heap s -> trace st = trace s -> (now s <= now st)%nat ->
              (now st <= S (now s))%nat ->
              (m ∈ functions contract ->
               exists t, (now s <= t < now st)%nat
                         /\ (call_function aux t contract m args = Overflowed
                             \/ call_function aux t contract m args
                                = Failed ContractLogicError)) ->
              try_methods aux contract rest st = (r, s') ->
              heap s' = heap s /\ trace s' = trace s /\ (now s <= now s')%nat
              /\ match r with
                 | Ret true =>
                     exists method_name args0 t,
                       In (method_name, args0) ((m, args) :: rest)
                       /\ method_name ∈ functions contract
                       /\ (now s <= t < now s')%nat
                       /\ call_function aux t contract method_name args0 = Answered
                 | Ret false =>
                     (now s' <= now s + length ((m, args) :: rest))%nat
                     /\ forall method_name args0,
                          In (method_name, args0) ((m, args) :: rest) ->
                          method_name ∈ functions contract ->
                          exists t, (now s <= t < now s')%nat
                                    /\ (call_function aux t contract method_name args0
                                        = Overflowed
                                        \/ call_function aux t contract method_name args0
                                           = Failed ContractLogicError)
                 | Raise e =>
                     e <> ContractLogicError
                     /\ exists method_name args0 t,
                          In (method_name, args0) ((m, args) :: rest)
                          /\ call_function aux t contract method_name args0 = Failed e
                 end) as Hnext.
    { intros st Hh Ht Hn Hn' Hthis Hrun. apply IH in Hrun.
      destruct Hrun as (Hh2 & Ht2 & Hn2 & Hr).
      split; [congruence|]. split; [congruence|]. split; [lia|].
      destruct r as [[|]|e].
      - destruct Hr as (m' & a' & t & Hin & Hf & Ht' & Ha).
        exists m', a', t. repeat split; try assumption; try lia. right. exact Hin.
      - destruct Hr as [Hlen Hr]. split; [simpl length; lia|].
        intros m' a' [[= <- <-]|Hin] Hf.
        + destruct (Hthis Hf) as (t & Ht' & Hor). exists t. split; [lia | exact Hor].
        + destruct (Hr m' a' Hin Hf) as (t & Ht' & Hor). exists t. split; [lia | exact Hor].
      - destruct Hr as (Hne & m' & a' & t & Hin & Ha). split; [exact Hne|].
        exists m', a', t. split; [right; exact Hin | exact Ha]. }
    destruct (bool_decide (m ∈ functions contract)) eqn:Hin.
    + apply bool_decide_eq_true in Hin. unfold bind at 1, ask at 1.
      destruct (call_function aux (now s) contract m args) as [| |e] eqn:Hcall.
      * unfold_m. intros [= <- <-]. cbn [heap trace now].
        repeat split; try lia. exists m, args, (now s).
        repeat split; try assumption; try lia. left. reflexivity.
      * apply Hnext; cbn [heap trace now]; try reflexivity; try lia.
        intros _. exists (now s). split; [lia | left; exact Hcall].
      * destruct e;
          try (unfold_m; intros [= <- <-]; cbn [heap trace now];
               repeat split; try lia; try discriminate;
               exists m, args, (now s); split; [left; reflexivity | exact Hcall]).
        apply Hnext; cbn [heap trace now]; try reflexivity; try lia.
        intros _. exists (now s). split; [lia | right; exact Hcall].
    + apply bool_decide_eq_false in Hin.
      apply Hnext; try reflexivity; try lia. intros Hf. contradiction.
Qed.

(** X21. What [_validate_contract] accepts, and what it refuses.  It
    returns normally only on evidence: a probe method from the list chosen
    for the contract exists in its ABI and answered, or the address holds
    code.  When every applicable probe reverts or overflows and the address
    holds no code, it raises [ValueError].  The trace and the dict objects
    are left as they were. *)
Theorem validate_contract_evidence (contract : Contract) (name abi_type : string)
    (s : State) :
  (forall s',
     _validate_contract aux contract name abi_type s = (Ret tt, s') ->
     heap s' = heap s /\ trace s' = trace s
     /\ ((exists method_name args t,
            In (method_name, args) (methods_to_try name abi_type)
            /\ method_name ∈ functions contract
            /\ (now s <= t < now s')%nat
            /\ call_function aux t contract method_name args = Answered)
         \/ (exists t code,
               (now s <= t < now s')%nat
               /\ eth_get_code aux t (address contract) = Ret code
               /\ code_truthy code = true /\ code_ne_0x code = true)))
  /\ ((forall method_name args t,
         In (method_name, args) (methods_to_try name abi_type) ->
         call_function aux t contract method_name args = Overflowed
         \/ call_function aux t contract method_name args = Failed ContractLogicError) ->
      (forall t, exists code,
         eth_get_code aux t (address contract) = Ret code /\ code_truthy code = false) ->
      exists s', _validate_contract aux contract name abi_type s = (Raise ValueError, s')).
Proof.
  unfold _validate_contract. unfold try_except, bind at 1. unfold handle_error.
  destruct (try_methods aux contract (methods_to_try name abi_type) s)
    as [r s1] eqn:Hrun.
  pose proof Hrun as Hrun0.
  apply try_methods_run in Hrun. destruct Hrun as (Hh & Ht & Hn & Hr).
  split.
  - intros s'. destruct r as [[|]|e].
    + unfold_m. intros [= <-]. split; [exact Hh|]. split; [exact Ht|]. left. exact Hr.
    + unfold bind at 1, ask at 1. unfold bind at 1, lift at 1.
      destruct (eth_get_code aux (now s1) (address contract)) as [code|e] eqn:Hcode;
        [|unfold_m; discriminate].
      destruct (code_truthy code && code_ne_0x code) eqn:Hok; unfold_m;
        [|discriminate].
      intros [= <-]. cbn [heap trace now].
      split; [exact Hh|]. split; [exact Ht|]. right.
      apply andb_true_iff in Hok. destruct Hok as [Hok1 Hok2].
      exists (now s1), code. repeat split; try assumption; lia.
    + unfold_m. discriminate.
  - intros Hprobes Hcode. destruct r as [[|]|e].
    + destruct Hr as (m & a & t & Hin & _ & _ & Ha).
      destruct (Hprobes m a t Hin) as [H|H]; congruence.
    + destruct (Hcode (now s1)) as (code & Hcode1 & Hfalse).
      unfold ask. unfold_m. rewrite Hrun0. cbn beta iota.
      rewrite Hcode1, Hfalse. cbn [andb]. eexists. reflexivity.
    + destruct Hr as (Hne & m & a & t & Hin & Ha).
      destruct (Hprobes m a t Hin) as [H|H]; congruence.
Qed.

(** X22. [_is_contract_address] compares the code with the string ['0x'].
    For a chain client that answers with a bytes object, as web3 does, the
    comparison is between bytes and a string and always unequal, so every
    address is reported as a contract, an account without code included;
    with a textual answer the address is a contract unless the answer is
    exactly ['0x'].  [_validate_contract_interaction] returns false for a
    missing or empty [to] without any call, and otherwise what
    [_is_contract_address] reports. *)
Theorem contract_address_check (address : pyval) (checksum : string) (s : State)
    (Hsum : to_checksum_address (web3 self) address = Ret checksum) :
  (forall b,
     eth_get_code aux (now s) checksum = Ret (CodeBytes b) ->
     _is_contract_address self aux address s
     = (Ret true, mkState (heap s) (trace s) (S (now s))))
  /\ (forall text,
        eth_get_code aux (now s) checksum = Ret (CodeStr text) ->
        _is_contract_address self aux address s
        = (Ret (negb (String.eqb text "0x")), mkState (heap s) (trace s) (S (now s))))
  /\ (forall tx,
        truthy (default (PStr "") (tx !! "to")) = false ->
        _validate_contract_interaction self aux tx s = (Ret false, s))
  /\ (forall tx b,
        tx !! "to" = Some address -> truthy address = true ->
        eth_get_code aux (now s) checksum = Ret (CodeBytes b) ->
        _validate_contract_interaction self aux tx s
        = (Ret true, mkState (heap s) (trace s) (S (now s)))).
Proof.
  assert (forall b,
            eth_get_code aux (now s) checksum = Ret (CodeBytes b) ->
            _is_contract_address self aux address s
            = (Ret true, mkState (heap s) (trace s) (S (now s)))) as Hbytes.
  { intros b Hcode. unfold _is_contract_address, ask. unfold_m.
    rewrite Hsum, Hcode. reflexivity. }
  split; [exact Hbytes|]. split; [|split].
  - intros text Hcode. unfold _is_contract_address, ask. unfold_m.
    rewrite Hsum, Hcode. reflexivity.
  - intros tx Hfalse. unfold _validate_contract_interaction. rewrite Hfalse. reflexivity.
  - intros tx b Hto Htruthy Hcode. unfold _validate_contract_interaction.
    rewrite Hto. cbn [default from_option id]. rewrite Htruthy. cbn [negb].
    unfold bind at 1. rewrite (Hbytes b Hcode). reflexivity.
Qed.

End ContractChecks.

(** The pool answers [getReservesList], its second probe after the absent
    [implementation] and the reverting [admin]; a router without any of the
    probe methods and without code is refused. *)
Lemma validate_contract_evidence_witness :
  fst (_validate_contract Scenario.probed Scenario.pool "Aave Lending Pool" "aave"
         Sample.s0) = Ret tt
  /\ fst (_validate_contract Scenario.bare (Sample.router Sample.UNISWAP)
            "Uniswap Router" "uniswap" Sample.s0) = Raise ValueError.
Proof.
  destruct (validate_contract_evidence Scenario.bare (Sample.router Sample.UNISWAP)
              "Uniswap Router" "uniswap" Sample.s0) as [_ Hrefuse].
  split; [vm_compute; reflexivity|].
  destruct Hrefuse as [s' ->]; [| |reflexivity].
  - intros m a t _. right. reflexivity.
  - intros t. exists (CodeBytes []). split; reflexivity.
Defined.

(** An account without code passes for a contract. *)
Lemma contract_address_check_witness :
  eth_get_code Scenario.bare 0 "0xFriend" = Ret (CodeBytes [])
  /\ fst (_validate_contract_interaction Sample.core Scenario.bare Scenario.transfer_tx
            Sample.s0) = Ret true.
Proof.
  split; [reflexivity|].
  destruct (contract_address_check Sample.core Scenario.bare (PStr "0xFriend") "0xFriend"
              Sample.s0 eq_refl) as (_ & _ & _ & Hpass).
  rewrite (Hpass Scenario.transfer_tx []); reflexivity.
Defined.

(** ** What a successful strategy has done *)

Section Success.

Context (self : TransactionCore).

Lemma gather_simulations_true txs : forall s sims s1,
  gather (map (simulate_transaction self) txs) s = (Ret sims, s1) ->
  existsb simulation_failed sims = false ->
  count outward (trace s1) = count outward (trace s)
  /\ Forall (fun tx => exists t, eth_call_pending (web3 self) t tx = Ret tt) txs.
Proof.
  induction txs as [|tx txs IH]; intros s sims s1; simpl.
  - unfold_m. intros [= <- <-] _. split; [reflexivity | constructor].
  - destruct (simulate_transaction_spec self tx s) as (b & Hb & Hiff).
    unfold bind at 1, settle at 1. rewrite Hb. unfold bind at 1.
    destruct (gather (map (simulate_transaction self) txs) _) as [[rest|e] s2] eqn:Hg;
      unfold_m; [|discriminate].
    intros [= <- <-]. cbn [existsb simulation_failed].
    intros Hok. apply orb_false_iff in Hok. destruct Hok as [Hb1 Hrest].
    apply negb_false_iff in Hb1. subst b.
    destruct (IH _ _ _ Hg Hrest) as [Hq Hall]. cbn [trace] in Hq.
    split.
    + rewrite Hq, count_snoc. cbn [outward]. lia.
    + constructor; [|exact Hall].
      destruct Hiff as [Hiff _]. destruct (Hiff eq_refl) as [[] Hu].
      exists (now s). exact Hu.
Qed.

(** A bundle reported as sent was simulated member by member, entered
    [send_bundle] and was accepted by a relay. *)
Lemma validate_and_send_bundle_true txs s s' :
  _validate_and_send_bundle self txs s = (Ret true, s') ->
  exists s1 sub,
    count outward (trace s1) = count outward (trace s)
    /\ Forall (fun tx => exists t, eth_call_pending (web3 self) t tx = Ret tt) txs
    /\ send_bundle self txs s1 = (Ret true, s')
    /\ trace s' = trace s1 ++ [EvSendBundle txs] ++ sub ++ [EvRefreshNonce]
    /\ accepted_in self sub.
Proof.
  unfold _validate_and_send_bundle. unfold bind at 1.
  destruct (gather_simulations self txs s) as (sims & s1 & Hg & _ & _).
  rewrite Hg.
  destruct (existsb simulation_failed sims) eqn:Hok; [unfold_m; discriminate|].
  destruct (gather_simulations_true _ _ _ _ Hg Hok) as [Hq Hall].
  intros Hsend.
  destruct (send_bundle_events self txs s1) as (r & sub & tail & s2 & Hrun & Htr & _ & Hcase).
  rewrite Hsend in Hrun. injection Hrun as <- <-.
  destruct Hcase as [(Hacc & -> & _)|(_ & _ & [=])].
  exists s1, sub. repeat split; assumption.
Qed.

Lemma prepare_flashloan_some asset target_tx s tx s' :
  _prepare_flashloan self asset target_tx s = (Ret (Some tx), s') ->
  exists amount checksum,
    calculate_flashloan_amount self target_tx = Ret amount /\ 0 < amount
    /\ to_checksum_address (web3 self) asset = Ret checksum
    /\ built_from self
         (mkCall (address (aave_flashloan self)) "fn_RequestFlashLoan"
            [PStr checksum; PInt amount] ∅) tx
    /\ count outward (trace s') = count outward (trace s)
    /\ heap s' = heap s.
Proof.
  unfold _prepare_flashloan. unfold bind at 1, lift at 1.
  destruct (calculate_flashloan_amount self target_tx) as [amount|e]; [|discriminate].
  destruct (amount <=? 0) eqn:Hpos; [unfold_m; discriminate|].
  apply Z.leb_gt in Hpos. unfold bind at 1, lift at 1.
  destruct (to_checksum_address (web3 self) asset) as [checksum|e]; [|discriminate].
  unfold prepare_flashloan_transaction.
  assert ((amount <=? 0) = false) as -> by (apply Z.leb_gt; exact Hpos).
  unfold try_except, bind at 1, lift at 1. unfold contract_call.
  destruct (bool_decide _); [|unfold handle_error; unfold_m; discriminate].
  destruct (check_call_args _ _ _ _ _) as [e|];
    [destruct e; unfold handle_error; unfold_m; discriminate|].
  unfold bind at 1.
  destruct (build_transaction self _ ∅ s) as [[built|e] s1] eqn:Hb.
  - pose proof (build_transaction_quiet _ _ _ _ _ _ Hb) as Hq.
    apply build_transaction_spec in Hb. destruct Hb as [Hh Hb].
    unfold_m. intros [= <- <-].
    exists amount, checksum. repeat split; try assumption; try reflexivity.
    apply Hb. reflexivity.
  - destruct e; unfold handle_error; unfold_m; discriminate.
Qed.

(** What an accepted target looks like once validation has returned. *)
Lemma validate_transaction_accepts target_tx operation min_value s decoded_tx symbol s' :
  _validate_transaction self (ODict target_tx) operation min_value s
  = (Ret (true, decoded_tx, symbol), s') ->
  exists decoded input method_name to_ checksum pre post l decoded_params path,
    decoded_tx = Some decoded
    /\ target_tx !! "input" = Some (PStr input)
    /\ to_checksum_address (web3 self) (default (PStr "") (target_tx !! "to")) = Ret to_
    /\ to_checksum_address (web3 self) (PStr to_) = Ret checksum
    /\ get_method_selector (abiregistry self) (str_slice 2 10 input) = Some method_name
    /\ function_name decoded = Some method_name /\ method_name <> ""%string
    /\ abis (abiregistry self) = pre ++ abi_type decoded :: post
    /\ Forall (fun a => raises (decode_function_input (web3 self) a checksum
                                  (PStr input))) pre
    /\ decode_function_input (web3 self) (abi_type decoded) checksum (PStr input)
       = Ret decoded_params
    /\ params decoded = Some l
    /\ heap s' !! l = Some decoded_params
    /\ decoded_params !! "path" = Some (PList path)
    /\ (2 <= length path)%nat
    /\ count outward (trace s') = count outward (trace s).
Proof.
  intros Hrun. pose proof (validate_transaction_quiet _ _ _ _ _ _ _ Hrun) as Hquiet.
  revert Hrun. unfold _validate_transaction, rejected.
  destruct (negb _) eqn:Hreq; [discriminate|].
  apply negb_false_iff in Hreq. rewrite forallb_forall in Hreq.
  assert (is_Some (target_tx !! "input")) as [input_data Hinput].
  { pose proof (Hreq "input"%string ltac:(simpl; tauto)) as H.
    apply bool_decide_eq_true in H. exact H. }
  unfold try_except, bind at 1, lift at 1.
  destruct (to_checksum_address _ _) as [to_|e] eqn:Hto;
    [|unfold handle_error; unfold_m; discriminate].
  unfold bind at 1.
  destruct (decode_transaction_input_run self
              (default (PStr "0x") (target_tx !! "input")) to_ s)
    as (dec & s1 & -> & Htr & Hnow & Hdec).
  destruct dec as [decoded|]; [|unfold handle_error; unfold_m; discriminate].
  destruct Hdec as (input & m & pre & post & c & ps & Hin & Hsel & Hname & Hne & _ & Habis
                    & Hc & Hps & Hpre & Hparams & Hfresh & Hheap).
  rewrite Hinput in Hin, Hps, Hpre. cbn [default from_option id] in Hin, Hps, Hpre.
  subst input_data.
  rewrite Hparams. unfold bind at 1, deref at 1. rewrite Hheap, lookup_insert_eq.
  cbn [default from_option id].
  destruct (invalid_path (default (PList []) (ps !! "path"))) eqn:Hpath;
    [unfold handle_error; unfold_m; discriminate|].
  apply invalid_path_false in Hpath. destruct Hpath as (path & Hp & Hlen).
  assert (ps !! "path" = Some (PList path)) as Hlookup.
  { destruct (ps !! "path") as [v|]; cbn [default from_option id] in Hp.
    - subst v. reflexivity.
    - injection Hp as <-. simpl in Hlen. lia. }
  rewrite Hp. cbn [list_of]. unfold handle_error. unfold_m.
  destruct (get_token_symbol _ _ _) as [[sym|]|e]; try discriminate.
  destruct (String.eqb sym ""); [discriminate|].
  destruct (py_float _ _) as [value|e]; [|discriminate].
  destruct (Qltb value min_value); [discriminate|]. intros [= <- <- <-].
  cbn [heap].
  exists decoded, input, m, to_, c, pre, post, (fresh (dom (heap s))), ps, path.
  repeat split; try assumption.
  rewrite Hheap. apply lookup_insert_eq.
Qed.

(** X24. What a back-run reported as successful has done.  When
    [back_run] returns true, the target's calldata was decoded by one of
    the registry's ABIs into parameters holding a path of at least two
    tokens; one transaction was built from the router function of the
    decoded name, applied to those parameters with the path reversed; it
    passed its simulation before anything was signed, was submitted alone
    as a bundle and accepted by a relay. *)
Theorem back_run_success (target_tx : Dict) (s s' : State)
    (Hrun : back_run self target_tx s = (Ret true, s')) :
  exists input method_name abi checksum decoded_params path router back_run_tx entry sub,
    target_tx !! "input" = Some (PStr input)
    /\ get_method_selector (abiregistry self) (str_slice 2 10 input) = Some method_name
    /\ decode_function_input (web3 self) abi checksum (PStr input) = Ret decoded_params
    /\ decoded_params !! "path" = Some (PList path) /\ (2 <= length path)%nat
    /\ (Some router = uniswap_router_contract self
        \/ Some router = sushiswap_router_contract self)
    /\ built_from self
         (mkCall (address router) method_name []
            (<["path" := PList (rev path)]> decoded_params)) back_run_tx
    /\ (exists t, eth_call_pending (web3 self) t back_run_tx = Ret tt)
    /\ count outward (trace entry) = count outward (trace s)
    /\ send_bundle self [back_run_tx] entry = (Ret true, s')
    /\ trace s' = trace entry ++ [EvSendBundle [back_run_tx]] ++ sub ++ [EvRefreshNonce]
    /\ accepted_in self sub.
Proof.
  unfold back_run in Hrun. unfold bind at 1 in Hrun.
  destruct (validate_transaction_cases self (ODict target_tx) "back-run" 0 s)
    as ([[valid decoded_tx] symbol] & s1 & Hv & _).
  rewrite Hv in Hrun.
  destruct valid; cbn [negb] in Hrun; [|discriminate].
  apply validate_transaction_accepts in Hv.
  destruct Hv as (decoded & input & m & to_ & c & pre & post & l & ps & path & -> & Hinput
                  & _ & _ & Hsel & Hname & Hne & _ & _ & Hps & Hparams & Hheap & Hpath
                  & Hlen & Hq1).
  unfold try_except, bind at 1 in Hrun.
  destruct (prepare_back_run_effect self target_tx decoded m l ps path s1
              Hname Hne Hparams Hheap Hpath Hlen) as (o & s2 & Hprep & _ & Hbuilt).
  destruct (prepare_back_run_quiet self target_tx decoded s1) as (o' & s2' & Hprep' & Hq2).
  rewrite Hprep in Hprep'. injection Hprep' as <- <-.
  rewrite Hprep in Hrun.
  destruct o as [tx|]; [|cbn [tx_truthy negb] in Hrun; unfold_m; discriminate].
  destruct (negb (tx_truthy (Some tx))) in Hrun; [unfold_m; discriminate|].
  change (omap id [Some tx]) with [tx] in Hrun.
  unfold bind at 1 in Hrun.
  destruct (_validate_and_send_bundle self [tx] s2) as [[sent|e] s3] eqn:Hsend;
    [|unfold handle_error in Hrun; unfold_m; discriminate].
  destruct sent; unfold_m; [|discriminate].
  injection Hrun as <-.
  apply validate_and_send_bundle_true in Hsend.
  destruct Hsend as (entry & sub & Hq3 & Hsim & Hbundle & Htr & Hacc).
  destruct (Hbuilt tx eq_refl) as (router & Hrouter & Hb).
  exists input, m, (abi_type decoded), c, ps, path, router, tx, entry, sub.
  repeat split; try assumption.
  - inversion Hsim; assumption.
  - rewrite Hq3, Hq2. exact Hq1.
Qed.

(** The first ABI that decodes is the same whenever it is looked for. *)
Lemma first_match_unique (fails : string -> Prop) pre1 : forall a1 post1 pre2 a2 post2,
  pre1 ++ a1 :: post1 = pre2 ++ a2 :: post2 ->
  Forall fails pre1 -> Forall fails pre2 -> ~ fails a1 -> ~ fails a2 ->
  a1 = a2.
Proof.
  induction pre1 as [|x pre1 IH]; intros a1 post1 pre2 a2 post2 Heq H1 H2 Ha1 Ha2.
  - destruct pre2 as [|y pre2]; simpl in Heq.
    + congruence.
    + injection Heq as -> _. inversion H2; subst. contradiction.
  - destruct pre2 as [|y pre2]; simpl in Heq.
    + injection Heq as -> _. inversion H1; subst. contradiction.
    + injection Heq as -> Heq. inversion H1; subst. inversion H2; subst.
      eapply IH; eassumption.
Qed.

(** A front-run transaction that was prepared repeats the target's call:
    the router function of the decoded name, applied to the parameters
    decoded from the target's calldata. *)
Lemma prepare_front_run_some target_tx s tx s' :
  _prepare_front_run_transaction self target_tx s = (Ret (Some tx), s') ->
  exists to_ checksum method_name pre abi post decoded_params router,
    to_checksum_address (web3 self) (default (PStr "") (target_tx !! "to")) = Ret to_
    /\ to_checksum_address (web3 self) (PStr to_) = Ret checksum
    /\ get_method_selector (abiregistry self)
         (str_slice 2 10 (match default (PStr "0x") (target_tx !! "input") with
                          | PStr input => input
                          | _ => ""
                          end)) = Some method_name
    /\ abis (abiregistry self) = pre ++ abi :: post
    /\ Forall (fun a => raises (decode_function_input (web3 self) a checksum
                                  (default (PStr "0x") (target_tx !! "input")))) pre
    /\ decode_function_input (web3 self) abi checksum
         (default (PStr "0x") (target_tx !! "input")) = Ret decoded_params
    /\ (Some router = uniswap_router_contract self
        \/ Some router = sushiswap_router_contract self)
    /\ built_from self (mkCall (address router) method_name [] decoded_params) tx.
Proof.
  unfold _prepare_front_run_transaction.
  unfold try_except, bind at 1, lift at 1.
  destruct (to_checksum_address _ _) as [to_|e] eqn:Hto;
    [|unfold handle_error; unfold_m; discriminate].
  unfold bind at 1.
  destruct (decode_transaction_input_run self
              (default (PStr "0x") (target_tx !! "input")) to_ s)
    as (dec & s1 & -> & _ & _ & Hdec).
  destruct dec as [decoded|]; [|unfold_m; discriminate].
  destruct Hdec as (input & m & pre & post & c & ps & Hin & Hsel & Hname & Hne & _ & Habis
                    & Hc & Hps & Hpre & Hparams & Hfresh & Hheap).
  rewrite Hname. apply String.eqb_neq in Hne. rewrite Hne.
  unfold get_params. rewrite Hparams. unfold bind at 1, ret at 1.
  destruct (build_router_call self target_tx m (fresh (dom (heap s))) s1)
    as [[[built|]|e] s2] eqn:Hb;
    try (unfold handle_error; unfold_m; discriminate).
  apply build_router_call_spec in Hb. destruct Hb as [_ Hb].
  destruct (Hb built eq_refl) as (router & Hrouter & Hbuilt).
  rewrite Hheap, lookup_insert_eq in Hbuilt. cbn [default from_option id] in Hbuilt.
  unfold_m. intros [= <- <-].
  exists to_, c, m, pre, (abi_type decoded), post, ps, router.
  rewrite Hin in Hps, Hpre |- *. repeat split; assumption.
Qed.

(** X23. What a front-run reported as successful has done.  When
    [front_run] returns true, the target's calldata was decoded into
    parameters holding a path of at least two tokens, and the flashloan
    amount computed for the target was positive.  A flashloan request for
    that amount of the first token of the path was built, and a front-run
    transaction that repeats the target's call, the router function of the
    decoded name applied to the decoded parameters.  Nothing was signed or
    submitted before both had passed their simulation; the two were then
    submitted as one bundle, flashloan first; a relay accepted it and the
    nonce was refreshed last. *)
Theorem front_run_success (target_tx : Dict) (s s' : State)
    (Hrun : front_run self target_tx s = (Ret true, s')) :
  exists input method_name abi checksum decoded_params token path amount asset
         router flashloan_tx front_run_tx entry sub,
    target_tx !! "input" = Some (PStr input)
    /\ get_method_selector (abiregistry self) (str_slice 2 10 input) = Some method_name
    /\ decode_function_input (web3 self) abi checksum (PStr input) = Ret decoded_params
    /\ decoded_params !! "path" = Some (PList (token :: path))
    /\ (1 <= length path)%nat
    /\ calculate_flashloan_amount self target_tx = Ret amount /\ 0 < amount
    /\ to_checksum_address (web3 self) token = Ret asset
    /\ built_from self
         (mkCall (address (aave_flashloan self)) "fn_RequestFlashLoan"
            [PStr asset; PInt amount] ∅) flashloan_tx
    /\ (Some router = uniswap_router_contract self
        \/ Some router = sushiswap_router_contract self)
    /\ built_from self (mkCall (address router) method_name [] decoded_params)
         front_run_tx
    /\ Forall (fun tx => exists t, eth_call_pending (web3 self) t tx = Ret tt)
              [flashloan_tx; front_run_tx]
    /\ count outward (trace entry) = count outward (trace s)
    /\ send_bundle self [flashloan_tx; front_run_tx] entry = (Ret true, s')
    /\ trace s' = trace entry ++ [EvSendBundle [flashloan_tx; front_run_tx]]
                    ++ sub ++ [EvRefreshNonce]
    /\ accepted_in self sub.
Proof.
  unfold front_run in Hrun. unfold bind at 1 in Hrun.
  destruct (validate_transaction_cases self (ODict target_tx) "front-run" 0 s)
    as ([[valid decoded_tx] symbol] & s1 & Hv & _).
  rewrite Hv in Hrun.
  destruct valid; cbn [negb] in Hrun; [|discriminate].
  apply validate_transaction_accepts in Hv.
  destruct Hv as (decoded & input & m & to_ & c & pre & post & l & ps & path & -> & Hinput
                  & Hto & Hc & Hsel & Hname & Hne & Habis & Hpre & Hps & Hparams & Hheap
                  & Hpath & Hlen & Hq1).
  unfold try_except, bind at 1 in Hrun.
  unfold decoded_path in Hrun. rewrite Hparams in Hrun.
  unfold bind at 1, deref at 1 in Hrun. rewrite Hheap in Hrun.
  cbn [default from_option id] in Hrun. rewrite Hpath in Hrun.
  unfold ret at 1 in Hrun.
  destruct path as [|token path]; [simpl in Hlen; lia|].
  unfold bind at 1, lift at 1 in Hrun. cbn [py_index0] in Hrun.
  unfold bind at 1 in Hrun.
  destruct (_prepare_flashloan self token target_tx s1) as [[[fl|]|e] s2] eqn:Hfl.
  3: { unfold handle_error in Hrun; unfold_m; discriminate. }
  2: { unfold bind at 1 in Hrun.
       destruct (prepare_front_run_quiet self target_tx s2) as (o & s3 & Hfr & _).
       rewrite Hfr in Hrun. cbn [forallb tx_truthy andb negb] in Hrun.
       unfold_m. discriminate. }
  apply prepare_flashloan_some in Hfl.
  destruct Hfl as (amount & asset & Hamt & Hpos & Hasset & Hbuilt & Hq2 & _).
  unfold bind at 1 in Hrun.
  destruct (prepare_front_run_quiet self target_tx s2) as (o & s3 & Hfr & Hq3 & _).
  rewrite Hfr in Hrun.
  destruct o as [fr|].
  2: { assert (forallb tx_truthy [Some fl; None] = false) as Hnone
         by (cbn [forallb tx_truthy]; apply andb_false_r).
       rewrite Hnone in Hrun. cbn [negb] in Hrun. unfold_m. discriminate. }
  destruct (negb (forallb tx_truthy [Some fl; Some fr])) in Hrun;
    [unfold_m; discriminate|].
  change (omap id [Some fl; Some fr]) with [fl; fr] in Hrun.
  unfold bind at 1 in Hrun.
  destruct (_validate_and_send_bundle self [fl; fr] s3) as [[sent|e] s4] eqn:Hsend;
    [|unfold handle_error in Hrun; unfold_m; discriminate].
  destruct sent; unfold_m; [|discriminate].
  injection Hrun as <-.
  apply validate_and_send_bundle_true in Hsend.
  destruct Hsend as (entry & sub & Hq4 & Hsim & Hbundle & Htr & Hacc).
  apply prepare_front_run_some in Hfr.
  destruct Hfr as (to2 & c2 & m2 & pre2 & abi2 & post2 & ps2 & router & Hto2 & Hc2 & Hsel2
                   & Habis2 & Hpre2 & Hps2 & Hrouter & Hfront).
  rewrite Hinput in Hsel2, Hpre2, Hps2. cbn [default from_option id] in Hsel2, Hpre2, Hps2.
  rewrite Hto in Hto2. injection Hto2 as <-.
  rewrite Hc in Hc2. injection Hc2 as <-.
  rewrite Hsel in Hsel2. injection Hsel2 as <-.
  assert (abi_type decoded = abi2) as Habi.
  { rewrite Habis in Habis2.
    apply (first_match_unique
             (fun a => raises (decode_function_input (web3 self) a c (PStr input)))
             _ _ _ _ _ _ Habis2 Hpre Hpre2).
    - intros [e He]. congruence.
    - intros [e He]. congruence. }
  subst abi2. rewrite Hps in Hps2. injection Hps2 as <-.
  exists input, m, (abi_type decoded), c, ps, token, path, amount, asset, router, fl, fr,
         entry, sub.
  repeat split; try assumption.
  - simpl in Hlen. lia.
  - rewrite Hq4, Hq3, Hq2. exact Hq1.
Qed.


End Success.

Lemma front_run_success_witness :
  exists s',
    front_run Sample.core Sample.target_tx Sample.s0 = (Ret true, s')
    /\ calculate_flashloan_amount Sample.core Sample.target_tx = Ret (10 ^ 18).
Proof.
  destruct (front_run Sample.core Sample.target_tx Sample.s0) as [r s'] eqn:Hrun.
  assert (r = Ret true) as ->.
  { assert (fst (front_run Sample.core Sample.target_tx Sample.s0) = r) as H
      by (rewrite Hrun; reflexivity).
    vm_compute in H. symmetry. exact H. }
  exists s'. split; [reflexivity|].
  destruct (front_run_success Sample.core _ _ _ Hrun) as (amount & _ & _ & _ & _ & _ & _).
  reflexivity.
Defined.

Lemma back_run_success_witness :
  exists s' router tx,
    back_run Sample.core Sample.target_tx Sample.s0 = (Ret true, s')
    /\ built_from Sample.core
         (mkCall (address router) "swapExactTokensForTokens" []
            (<["path" := PList [PStr Sample.DAI; PStr Sample.WETH]]> Sample.swap_params))
         tx.
Proof.
  destruct (back_run Sample.core Sample.target_tx Sample.s0) as [r s'] eqn:Hrun.
  assert (r = Ret true) as ->.
  { assert (fst (back_run Sample.core Sample.target_tx Sample.s0) = r) as H
      by (rewrite Hrun; reflexivity).
    vm_compute in H. symmetry. exact H. }
  destruct (back_run_success Sample.core _ _ _ Hrun)
    as (input & m & abi & c & ps & path & router & tx & entry & sub & _ & Hsel & Hps
        & Hpath & _ & _ & Hbuilt & _).
  change (get_method_selector (abiregistry Sample.core) (str_slice 2 10 input))
    with (Some "swapExactTokensForTokens"%string) in Hsel.
  injection Hsel as <-.
  change (decode_function_input (web3 Sample.core) abi c (PStr input))
    with (Ret Sample.swap_params) in Hps.
  injection Hps as <-.
  assert (path = [PStr Sample.WETH; PStr Sample.DAI]) as ->.
  { vm_compute in Hpath. injection Hpath as <-. reflexivity. }
  exists s', router, tx. split; [reflexivity | exact Hbuilt].
Defined.

Section Sandwich.

Context (self : TransactionCore).

Lemma check_sandwich_strategy_heap strategy target_tx symbol decoded s r s' :
  _check_sandwich_strategy self strategy target_tx symbol decoded s = (r, s') ->
  heap s' = heap s.
Proof.
  unfold _check_sandwich_strategy, tx_to. unfold_m.
  repeat match goal with
         | |- context [if String.eqb ?a ?b then _ else _] => destruct (String.eqb a b)
         end;
    run_oracles; try (intros [= <- <-]; reflexivity).
  all: repeat match goal with
              | |- context [match ?x with _ => _ end] => destruct x
              end; intros [= <- <-]; reflexivity.
Qed.

Lemma prepare_flashloan_heap asset target_tx s r s' :
  _prepare_flashloan self asset target_tx s = (r, s') -> heap s' = heap s.
Proof.
  unfold _prepare_flashloan. unfold bind at 1, lift at 1.
  destruct (calculate_flashloan_amount self target_tx) as [a|e];
    [|intros [= <- <-]; reflexivity].
  destruct (a <=? 0) eqn:Hpos; [unfold_m; intros [= <- <-]; reflexivity|].
  unfold bind at 1, lift at 1.
  destruct (to_checksum_address (web3 self) asset) as [checksum|e];
    [|intros [= <- <-]; reflexivity].
  unfold prepare_flashloan_transaction. rewrite Hpos.
  unfold try_except, bind at 1, lift at 1. unfold contract_call.
  destruct (bool_decide _);
    [|unfold handle_error; unfold_m; intros [= <- <-]; reflexivity].
  destruct (check_call_args _ _ _ _ _) as [e|];
    [destruct e; unfold handle_error; unfold_m; intros [= <- <-]; reflexivity|].
  unfold bind at 1.
  destruct (build_transaction self _ ∅ s) as [[built|e] s1] eqn:Hb;
    apply build_transaction_spec in Hb; destruct Hb as [Hh _].
  - unfold_m. intros [= <- <-]. exact Hh.
  - destruct e; unfold handle_error; unfold_m; intros [= <- <-]; exact Hh.
Qed.

(** X25. What a sandwich reported as successful has done.  When
    [execute_sandwich_attack] returns true, three transactions were built
    from the one decoding of the target's calldata: a flashloan request
    for a positive amount of the first token of the path, a front
    transaction that repeats the target's call with the path as decoded,
    and a back transaction with the same function and the path reversed.
    Nothing was signed or submitted before all three had passed their
    simulation; they were submitted as one bundle in that order, and a
    relay accepted it. *)
Theorem sandwich_success (target_tx : Dict) (strategy : string) (s s' : State)
    (Hrun : execute_sandwich_attack self target_tx strategy s = (Ret true, s')) :
  exists input method_name abi checksum decoded_params token path amount asset
         front_router back_router flashloan_tx front_tx back_tx entry sub,
    target_tx !! "input" = Some (PStr input)
    /\ get_method_selector (abiregistry self) (str_slice 2 10 input) = Some method_name
    /\ decode_function_input (web3 self) abi checksum (PStr input) = Ret decoded_params
    /\ decoded_params !! "path" = Some (PList (token :: path))
    /\ (1 <= length path)%nat
    /\ calculate_flashloan_amount self target_tx = Ret amount /\ 0 < amount
    /\ to_checksum_address (web3 self) token = Ret asset
    /\ built_from self
         (mkCall (address (aave_flashloan self)) "fn_RequestFlashLoan"
            [PStr asset; PInt amount] ∅) flashloan_tx
    /\ (Some front_router = uniswap_router_contract self
        \/ Some front_router = sushiswap_router_contract self)
    /\ built_from self (mkCall (address front_router) method_name [] decoded_params)
         front_tx
    /\ (Some back_router = uniswap_router_contract self
        \/ Some back_router = sushiswap_router_contract self)
    /\ built_from self
         (mkCall (address back_router) method_name []
            (<["path" := PList (rev (token :: path))]> decoded_params)) back_tx
    /\ Forall (fun tx => exists t, eth_call_pending (web3 self) t tx = Ret tt)
              [flashloan_tx; front_tx; back_tx]
    /\ count outward (trace entry) = count outward (trace s)
    /\ send_bundle self [flashloan_tx; front_tx; back_tx] entry = (Ret true, s')
    /\ trace s' = trace entry ++ [EvSendBundle [flashloan_tx; front_tx; back_tx]]
                    ++ sub ++ [EvRefreshNonce]
    /\ accepted_in self sub.
Proof.
  unfold execute_sandwich_attack in Hrun. unfold bind at 1 in Hrun.
  destruct (validate_transaction_cases self (ODict target_tx) "sandwich_attack" 0 s)
    as ([[valid decoded_tx] symbol] & s1 & Hv & _).
  rewrite Hv in Hrun.
  destruct valid; cbn [negb] in Hrun; [|discriminate].
  apply validate_transaction_accepts in Hv.
  destruct Hv as (decoded & input & m & to_ & c & pre & post & l & ps & path & -> & Hinput
                  & Hto & Hc & Hsel & Hname & Hne & Habis & Hpre & Hps & Hparams & Hheap
                  & Hpath & Hlen & Hq1).
  unfold try_except, bind at 1 in Hrun.
  destruct (_check_sandwich_strategy self strategy target_tx _ (Some decoded) s1)
    as [[should|e] s2] eqn:Hcheck;
    [|unfold handle_error in Hrun; unfold_m; discriminate].
  pose proof (check_sandwich_strategy_quiet _ _ _ _ _ _ _ _ Hcheck) as Hq2.
  apply check_sandwich_strategy_heap in Hcheck.
  destruct should; cbn [negb] in Hrun; [|unfold_m; discriminate].
  unfold bind at 1 in Hrun.
  unfold decoded_path in Hrun. rewrite Hparams in Hrun.
  unfold bind at 1, deref at 1 in Hrun. rewrite Hcheck, Hheap in Hrun.
  cbn [default from_option id] in Hrun. rewrite Hpath in Hrun.
  unfold ret at 1 in Hrun.
  destruct path as [|token path]; [simpl in Hlen; lia|].
  unfold bind at 1, lift at 1 in Hrun. cbn [py_index0] in Hrun.
  unfold bind at 1 in Hrun.
  destruct (_prepare_flashloan self token target_tx s2) as [[flo|e] s3] eqn:Hfl;
    [|unfold handle_error in Hrun; unfold_m; discriminate].
  unfold bind at 1 in Hrun.
  destruct (prepare_front_run_quiet self target_tx s3) as (fro & s4 & Hfr & Hq4 & Hkeep).
  rewrite Hfr in Hrun. unfold bind at 1 in Hrun.
  pose proof (prepare_flashloan_heap _ _ _ _ _ Hfl) as Hh3.
  assert (heap s4 !! l = Some ps) as Hheap4.
  { rewrite Hkeep; rewrite Hh3, Hcheck; [exact Hheap | eexists; exact Hheap]. }
  destruct (prepare_back_run_effect self target_tx decoded m l ps (token :: path) s4
              Hname Hne Hparams Hheap4 Hpath Hlen) as (bko & s5 & Hbk & _ & Hback).
  destruct (prepare_back_run_quiet self target_tx decoded s4) as (o' & s5' & Hbk' & Hq5).
  rewrite Hbk in Hbk'. injection Hbk' as <- <-.
  rewrite Hbk in Hrun.
  destruct flo as [fl|].
  2: { cbn [forallb tx_truthy andb negb] in Hrun. unfold_m. discriminate. }
  destruct fro as [fr|].
  2: { assert (forallb tx_truthy [Some fl; None; bko] = false) as Hnone
         by (cbn [forallb tx_truthy andb]; apply andb_false_r).
       rewrite Hnone in Hrun. cbn [negb] in Hrun. unfold_m. discriminate. }
  destruct bko as [bk|].
  2: { assert (forallb tx_truthy [Some fl; Some fr; None] = false) as Hnone
         by (cbn [forallb tx_truthy andb]; rewrite !andb_false_r; reflexivity).
       rewrite Hnone in Hrun. cbn [negb] in Hrun. unfold_m. discriminate. }
  destruct (negb (forallb tx_truthy [Some fl; Some fr; Some bk])) in Hrun;
    [unfold_m; discriminate|].
  change (omap id [Some fl; Some fr; Some bk]) with [fl; fr; bk] in Hrun.
  destruct (_validate_and_send_bundle self [fl; fr; bk] s5) as [[sent|e] s6] eqn:Hsend;
    [|unfold handle_error in Hrun; unfold_m; discriminate].
  injection Hrun as -> <-.
  apply validate_and_send_bundle_true in Hsend.
  destruct Hsend as (entry & sub & Hq6 & Hsim & Hbundle & Htr & Hacc).
  apply prepare_flashloan_some in Hfl.
  destruct Hfl as (amount & asset & Hamt & Hpos & Hasset & Hbuilt & Hq3 & _).
  apply prepare_front_run_some in Hfr.
  destruct Hfr as (to2 & c2 & m2 & pre2 & abi2 & post2 & ps2 & router & Hto2 & Hc2 & Hsel2
                   & Habis2 & Hpre2 & Hps2 & Hrouter & Hfront).
  rewrite Hinput in Hsel2, Hpre2, Hps2. cbn [default from_option id] in Hsel2, Hpre2, Hps2.
  rewrite Hto in Hto2. injection Hto2 as <-.
  rewrite Hc in Hc2. injection Hc2 as <-.
  rewrite Hsel in Hsel2. injection Hsel2 as <-.
  assert (abi_type decoded = abi2) as Habi.
  { rewrite Habis in Habis2.
    apply (first_match_unique
             (fun a => raises (decode_function_input (web3 self) a c (PStr input)))
             _ _ _ _ _ _ Habis2 Hpre Hpre2).
    - intros [e He]. congruence.
    - intros [e He]. congruence. }
  subst abi2. rewrite Hps in Hps2. injection Hps2 as <-.
  destruct (Hback bk eq_refl) as (back_router & Hbrouter & Hbackbuilt).
  exists input, m, (abi_type decoded), c, ps, token, path, amount, asset, router,
         back_router, fl, fr, bk, entry, sub.
  repeat split; try assumption.
  - simpl in Hlen. lia.
  - rewrite Hq6, Hq5, Hq4, Hq3, Hq2. exact Hq1.
Qed.

End Sandwich.

Lemma sandwich_success_witness :
  exists s',
    execute_sandwich_attack Sample.core Sample.target_tx "default" Sample.s0
    = (Ret true, s')
    /\ count is_send_bundle (trace s') = 1%nat.
Proof.
  destruct (execute_sandwich_attack Sample.core Sample.target_tx "default" Sample.s0)
    as [r s'] eqn:Hrun.
  assert (r = Ret true /\ count is_send_bundle (trace s') = 1%nat) as [-> Hcount].
  { assert (fst (execute_sandwich_attack Sample.core Sample.target_tx "default" Sample.s0)
            = r
            /\ snd (execute_sandwich_attack Sample.core Sample.target_tx "default"
                      Sample.s0) = s') as [H1 H2]
      by (rewrite Hrun; split; reflexivity).
    subst r s'. split; vm_compute; reflexivity. }
  destruct (sandwich_success Sample.core _ _ _ _ Hrun) as (input & _).
  exists s'. split; [reflexivity | exact Hcount].
Defined.
